(** * gdb_mcp: the tool-use agent loop of the GDB / Gemini bridge

    A shallow embedding of [src/gdb_mcp.py]: the conversation client
    ([MCPClient]), the command safety filter ([GDBCommandExecutor]) and the
    agent loop ([AIAgentCommand.invoke], [_process_agent_response]); then
    the context extractors ([GDBContextExtractor]), the context collectors,
    the commands mcp-ask, mcp-explain and mcp-fix, and the choice of the API
    key in [GDBMCPManager].  The registration of the commands with gdb,
    mcp-setup and mcp-help are not modelled.

    Character model.  A Python [str] is the Rocq [string] of its UTF-8
    encoding, so the Korean texts of the program are the literals of the
    source.  Searching, splitting at a line feed, joining and comparing are
    the same on the encoding as on the characters.  The whitespace of
    [str.strip] and [str.split] is the whole of [str.isspace], with U+0085,
    U+00A0 and the Unicode space separators, recognised on their encodings;
    [str.lower] decodes the text, maps every code point by the lower-case
    tables of Unicode 14 (the tables of CPython 3.11), with the two
    context rules of Python, U+0130 and the final sigma, and encodes the
    result. *)

From Stdlib Require Import String Ascii List ZArith NArith Bool Lia DecimalString.
Import ListNotations.
Open Scope string_scope.

(** ** Python string primitives *)

Module Py.

Definition LF : string := String "010" "".

(** ** Characters

    A [str] is held as its UTF-8 encoding.  The whitespace characters of
    [str.strip] and [str.split] are the 29 code points for which
    [str.isspace] holds (Unicode 14, CPython 3.11): TAB, LF, VT, FF, CR,
    FS, GS, RS, US, SPACE, U+0085, U+00A0, U+1680, U+2000 to U+200A, U+2028,
    U+2029, U+202F, U+205F and U+3000. *)

Definition byte (n : N) : ascii := ascii_of_N n.

(** The UTF-8 encoding of a code point; a number past U+10FFFF stands for
    a byte that is not part of a well-formed sequence, and gives it back. *)
Definition encode_point (p : N) : string :=
  (if p <? 128 then String (byte p) ""
   else if p <? 2048 then
     String (byte (192 + p / 64)) (String (byte (128 + p mod 64)) "")
   else if p <? 65536 then
     String (byte (224 + p / 4096))
       (String (byte (128 + (p / 64) mod 64))
          (String (byte (128 + p mod 64)) ""))
   else if p <? 1114112 then
     String (byte (240 + p / 262144))
       (String (byte (128 + (p / 4096) mod 64))
          (String (byte (128 + (p / 64) mod 64))
             (String (byte (128 + p mod 64)) "")))
   else String (byte (p - 1114112)) "")%N.

Definition whitespace_points : list N :=
  [9; 10; 11; 12; 13; 28; 29; 30; 31; 32; 133; 160; 5760;
   8192; 8193; 8194; 8195; 8196; 8197; 8198; 8199; 8200; 8201; 8202;
   8232; 8233; 8239; 8287; 12288]%N.

(** [str.isspace] of a character *)
Definition isspace (p : N) : bool := existsb (N.eqb p) whitespace_points.

(** The encodings of the whitespace characters: one, two or three bytes. *)
Definition whitespace : list string :=
  Eval vm_compute in map encode_point whitespace_points.

(** [s] starts with [p]: the rest of [s] after [p]. *)
Fixpoint strip_prefix (p s : string) : option string :=
  match p, s with
  | "", _ => Some s
  | String a p', String b s' =>
      if Ascii.eqb a b then strip_prefix p' s' else None
  | String _ _, "" => None
  end.

Definition starts_with (p s : string) : bool :=
  match strip_prefix p s with
  | Some _ => true
  | None => false
  end.

(** The number of bytes of the whitespace character at the head of [s];
    0 when [s] does not start with one.  No encoding of a character starts
    inside the encoding of another, so a whitespace character is found at a
    place exactly when its encoding is. *)
Definition space_len (s : string) : nat :=
  match List.find (fun e => starts_with e s) whitespace with
  | Some e => String.length e
  | None => 0
  end.

(** [s] consists of whitespace characters. *)
Fixpoint all_space (s : string) : bool :=
  match space_len s, s with
  | _, "" => true
  | 1, String _ s1 => all_space s1
  | 2, String _ (String _ s2) => all_space s2
  | 3, String _ (String _ (String _ s3)) => all_space s3
  | _, _ => false
  end.

(** No whitespace character starts in [s]. *)
Fixpoint no_space (s : string) : bool :=
  match s with
  | "" => true
  | String _ s' => Nat.eqb (space_len s) 0 && no_space s'
  end.

(** [s.lstrip()] *)
Fixpoint lstrip (s : string) : string :=
  match space_len s, s with
  | 1, String _ s1 => lstrip s1
  | 2, String _ (String _ s2) => lstrip s2
  | 3, String _ (String _ (String _ s3)) => lstrip s3
  | _, _ => s
  end.

(** [s.rstrip()]: [s] without its longest suffix of whitespace characters. *)
Fixpoint rstrip (s : string) : string :=
  match s with
  | "" => ""
  | String c s' => if all_space s then "" else String c (rstrip s')
  end.

(** [s.strip()] *)
Definition strip (s : string) : string := rstrip (lstrip s).

(** The end of a word: the text ends here or goes on with whitespace. *)
Definition at_boundary (s : string) : bool :=
  match s with
  | "" => true
  | _ => negb (Nat.eqb (space_len s) 0)
  end.

(** [s.split()]: the maximal runs without whitespace characters, in order.
    A whitespace character is skipped; any other byte either ends its word
    (end of text or whitespace follows) or is put in front of the word that
    starts right after it. *)
Fixpoint split (s : string) : list string :=
  match space_len s, s with
  | _, "" => []
  | 1, String _ s1 => split s1
  | 2, String _ (String _ s2) => split s2
  | 3, String _ (String _ (String _ s3)) => split s3
  | _, String c s1 =>
      if at_boundary s1 then String c "" :: split s1
      else match split s1 with
           | w :: ws => String c w :: ws
           | [] => [String c ""]
           end
  end.

(** [s.split(sep)] for a one-character separator: the pieces between the
    separators, empty pieces kept; the empty text gives one empty piece. *)
Fixpoint split_on (sep : ascii) (s : string) : list string :=
  match s with
  | "" => [""]
  | String c s' =>
      if Ascii.eqb c sep then "" :: split_on sep s'
      else match split_on sep s' with
           | p :: ps => String c p :: ps
           | [] => [String c ""]
           end
  end.

(** [pre] put in front of the first piece of a list of pieces. *)
Definition prepend (pre : string) (l : list string) : list string :=
  match l with
  | p :: ps => (pre ++ p) :: ps
  | [] => [pre]
  end.

(** [sep.join(l)] *)
Fixpoint join (sep : string) (l : list string) : string :=
  match l with
  | [] => ""
  | [x] => x
  | x :: l' => x ++ sep ++ join sep l'
  end.

(** [x in l] for a list of strings *)
Definition mem (x : string) (l : list string) : bool :=
  existsb (String.eqb x) l.

(** [str(n)] for an integer *)
Definition str_of_Z (z : Z) : string := NilZero.string_of_int (Z.to_int z).
Definition str_of_nat (n : nat) : string := str_of_Z (Z.of_nat n).

(** [p in s]: [p] occurs in [s]. *)
Definition includes (p s : string) : Prop := exists a b, s = a ++ p ++ b.

(** [s[0]] for a text that is not empty: the first character, which is the
    first byte and the continuation bytes (128-191) that follow it. *)
Fixpoint continuation (s : string) : string :=
  match s with
  | "" => ""
  | String c s' =>
      let n := N_of_ascii c in
      if ((128 <=? n) && (n <=? 191))%N then String c (continuation s') else ""
  end.

Definition first_char (c : ascii) (rest : string) : string :=
  String c (continuation rest).

(** The first occurrence of [p] in [s]: the text before it and the text
    after it ([str.partition], [None] when [p] does not occur). *)
Fixpoint find (p s : string) : option (string * string) :=
  match strip_prefix p s with
  | Some rest => Some ("", rest)
  | None =>
      match s with
      | "" => None
      | String c s' =>
          match find p s' with
          | Some (before, rest) => Some (String c before, rest)
          | None => None
          end
      end
  end.

Definition fence : string := "```".

(** [re.search(r'```TAG\n(.*?)```', response, re.DOTALL).group(1)].
    The pattern is a literal, a lazy run of arbitrary characters (DOTALL: a
    line feed included) and a literal: the search stops at the leftmost
    opening literal and the group is the text up to the first closing fence
    after it.  If no fence follows the leftmost opening literal none follows
    a later one either, so there is no match. *)
Definition search_block (tag response : string) : option string :=
  match find (fence ++ tag ++ LF) response with
  | None => None
  | Some (_, rest) =>
      match find fence rest with
      | None => None
      | Some (body, _) => Some body
      end
  end.

(** A byte that continues a character of more than one byte (128-191). *)
Definition is_continuation (c : ascii) : bool :=
  let n := N_of_ascii c in ((128 <=? n) && (n <=? 191))%N.

(** [len(s)]: the number of characters, one per byte that starts one. *)
Fixpoint len (s : string) : nat :=
  match s with
  | "" => 0
  | String c s' => (if is_continuation c then 0 else 1) + len s'
  end.

(** [s[:n]]: the first [n] characters, each with its continuation bytes. *)
Fixpoint take (n : nat) (s : string) : string :=
  match s with
  | "" => ""
  | String c s' =>
      if is_continuation c then String c (take n s')
      else match n with
           | O => ""
           | S n' => String c (take n' s')
           end
  end.

(** [c in s] for one character *)
Fixpoint contains_char (c : ascii) (s : string) : bool :=
  match s with
  | "" => false
  | String d s' => Ascii.eqb d c || contains_char c s'
  end.

(** ** [str.lower]

    The characters of a text: the code point of each well-formed UTF-8
    sequence (a sequence is well formed when it is the encoding of its
    value), and a number past U+10FFFF for any other byte. *)
Definition point_len (c : ascii) : nat :=
  let b := N_of_ascii c in
  if (b <? 192)%N then 1 else if (b <? 224)%N then 2
  else if (b <? 240)%N then 3 else if (b <? 248)%N then 4 else 1.

Definition tail_bits (c : ascii) : N := (N_of_ascii c - 128)%N.

Definition stray (c : ascii) : N :=
  let b := N_of_ascii c in (if b <? 128 then b else 1114112 + b)%N.

Fixpoint decode (s : string) : list N :=
  match s with
  | "" => []
  | String c1 s1 =>
      let b := N_of_ascii c1 in
      match point_len c1, s1 with
      | 2, String c2 s2 =>
          let p := ((b - 192) * 64 + tail_bits c2)%N in
          if String.eqb (encode_point p) (String c1 (String c2 ""))
          then p :: decode s2 else stray c1 :: decode s1
      | 3, String c2 (String c3 s3) =>
          let p := ((b - 224) * 4096 + tail_bits c2 * 64 + tail_bits c3)%N in
          if String.eqb (encode_point p)
                        (String c1 (String c2 (String c3 "")))
          then p :: decode s3 else stray c1 :: decode s1
      | 4, String c2 (String c3 (String c4 s4)) =>
          let p := ((b - 240) * 262144 + tail_bits c2 * 4096
                    + tail_bits c3 * 64 + tail_bits c4)%N in
          if String.eqb (encode_point p)
                        (String c1 (String c2 (String c3 (String c4 ""))))
          then p :: decode s4 else stray c1 :: decode s1
      | _, _ => stray c1 :: decode s1
      end
  end.

Definition encode (points : list N) : string :=
  fold_right (fun p s => encode_point p ++ s) "" points.

(** The lower-case mappings of Unicode 14 (CPython 3.11) that change a
    character into one other character: [(first, last, step, target)] maps
    [first], [first + step], ..., [last] to [target], [target + step], ...
    The first entry is A-Z; U+212A KELVIN SIGN goes to k. *)
Definition lower_runs : list (N * N * N * N) :=
  [(65, 90, 1, 97); (192, 214, 1, 224); (216, 222, 1, 248);
   (256, 302, 2, 257); (306, 310, 2, 307); (313, 327, 2, 314);
   (330, 374, 2, 331); (376, 376, 1, 255); (377, 381, 2, 378);
   (385, 385, 1, 595); (386, 388, 2, 387); (390, 390, 1, 596);
   (391, 391, 1, 392); (393, 394, 1, 598); (395, 395, 1, 396);
   (398, 398, 1, 477); (399, 399, 1, 601); (400, 400, 1, 603);
   (401, 401, 1, 402); (403, 403, 1, 608); (404, 404, 1, 611);
   (406, 406, 1, 617); (407, 407, 1, 616); (408, 408, 1, 409);
   (412, 412, 1, 623); (413, 413, 1, 626); (415, 415, 1, 629);
   (416, 420, 2, 417); (422, 422, 1, 640); (423, 423, 1, 424);
   (425, 425, 1, 643); (428, 428, 1, 429); (430, 430, 1, 648);
   (431, 431, 1, 432); (433, 434, 1, 650); (435, 437, 2, 436);
   (439, 439, 1, 658); (440, 440, 1, 441); (444, 444, 1, 445);
   (452, 452, 1, 454); (453, 453, 1, 454); (455, 455, 1, 457);
   (456, 456, 1, 457); (458, 458, 1, 460); (459, 475, 2, 460);
   (478, 494, 2, 479); (497, 497, 1, 499); (498, 500, 2, 499);
   (502, 502, 1, 405); (503, 503, 1, 447); (504, 542, 2, 505);
   (544, 544, 1, 414); (546, 562, 2, 547); (570, 570, 1, 11365);
   (571, 571, 1, 572); (573, 573, 1, 410); (574, 574, 1, 11366);
   (577, 577, 1, 578); (579, 579, 1, 384); (580, 580, 1, 649);
   (581, 581, 1, 652); (582, 590, 2, 583); (880, 882, 2, 881);
   (886, 886, 1, 887); (895, 895, 1, 1011); (902, 902, 1, 940);
   (904, 906, 1, 941); (908, 908, 1, 972); (910, 911, 1, 973);
   (913, 929, 1, 945); (931, 939, 1, 963); (975, 975, 1, 983);
   (984, 1006, 2, 985); (1012, 1012, 1, 952); (1015, 1015, 1, 1016);
   (1017, 1017, 1, 1010); (1018, 1018, 1, 1019); (1021, 1023, 1, 891);
   (1024, 1039, 1, 1104); (1040, 1071, 1, 1072); (1120, 1152, 2, 1121);
   (1162, 1214, 2, 1163); (1216, 1216, 1, 1231); (1217, 1229, 2, 1218);
   (1232, 1326, 2, 1233); (1329, 1366, 1, 1377); (4256, 4293, 1, 11520);
   (4295, 4295, 1, 11559); (4301, 4301, 1, 11565); (5024, 5103, 1, 43888);
   (5104, 5109, 1, 5112); (7312, 7354, 1, 4304); (7357, 7359, 1, 4349);
   (7680, 7828, 2, 7681); (7838, 7838, 1, 223); (7840, 7934, 2, 7841);
   (7944, 7951, 1, 7936); (7960, 7965, 1, 7952); (7976, 7983, 1, 7968);
   (7992, 7999, 1, 7984); (8008, 8013, 1, 8000); (8025, 8031, 2, 8017);
   (8040, 8047, 1, 8032); (8072, 8079, 1, 8064); (8088, 8095, 1, 8080);
   (8104, 8111, 1, 8096); (8120, 8121, 1, 8112); (8122, 8123, 1, 8048);
   (8124, 8124, 1, 8115); (8136, 8139, 1, 8050); (8140, 8140, 1, 8131);
   (8152, 8153, 1, 8144); (8154, 8155, 1, 8054); (8168, 8169, 1, 8160);
   (8170, 8171, 1, 8058); (8172, 8172, 1, 8165); (8184, 8185, 1, 8056);
   (8186, 8187, 1, 8060); (8188, 8188, 1, 8179); (8486, 8486, 1, 969);
   (8490, 8490, 1, 107); (8491, 8491, 1, 229); (8498, 8498, 1, 8526);
   (8544, 8559, 1, 8560); (8579, 8579, 1, 8580); (9398, 9423, 1, 9424);
   (11264, 11311, 1, 11312); (11360, 11360, 1, 11361); (11362, 11362, 1, 619);
   (11363, 11363, 1, 7549); (11364, 11364, 1, 637); (11367, 11371, 2, 11368);
   (11373, 11373, 1, 593); (11374, 11374, 1, 625); (11375, 11375, 1, 592);
   (11376, 11376, 1, 594); (11378, 11378, 1, 11379); (11381, 11381, 1, 11382);
   (11390, 11391, 1, 575); (11392, 11490, 2, 11393); (11499, 11501, 2, 11500);
   (11506, 11506, 1, 11507); (42560, 42604, 2, 42561);
   (42624, 42650, 2, 42625); (42786, 42798, 2, 42787);
   (42802, 42862, 2, 42803); (42873, 42875, 2, 42874);
   (42877, 42877, 1, 7545); (42878, 42886, 2, 42879);
   (42891, 42891, 1, 42892); (42893, 42893, 1, 613); (42896, 42898, 2, 42897);
   (42902, 42920, 2, 42903); (42922, 42922, 1, 614); (42923, 42923, 1, 604);
   (42924, 42924, 1, 609); (42925, 42925, 1, 620); (42926, 42926, 1, 618);
   (42928, 42928, 1, 670); (42929, 42929, 1, 647); (42930, 42930, 1, 669);
   (42931, 42931, 1, 43859); (42932, 42946, 2, 42933);
   (42948, 42948, 1, 42900); (42949, 42949, 1, 642); (42950, 42950, 1, 7566);
   (42951, 42953, 2, 42952); (42960, 42960, 1, 42961);
   (42966, 42968, 2, 42967); (42997, 42997, 1, 42998);
   (65313, 65338, 1, 65345); (66560, 66599, 1, 66600);
   (66736, 66771, 1, 66776); (66928, 66938, 1, 66967);
   (66940, 66954, 1, 66979); (66956, 66962, 1, 66995);
   (66964, 66965, 1, 67003); (68736, 68786, 1, 68800);
   (71840, 71871, 1, 71872); (93760, 93791, 1, 93792);
   (125184, 125217, 1, 125218)]%N.

(** The case-ignorable characters, and the cased characters among the
    others, as ranges of code points. *)
Definition case_ignorable_ranges : list (N * N) :=
  [(39, 39); (46, 46); (58, 58); (94, 94); (96, 96); (168, 168); (173, 173);
   (175, 175); (180, 180); (183, 184); (688, 879); (884, 885); (890, 890);
   (900, 901); (903, 903); (1155, 1161); (1369, 1369); (1375, 1375);
   (1425, 1469); (1471, 1471); (1473, 1474); (1476, 1477); (1479, 1479);
   (1524, 1524); (1536, 1541); (1552, 1562); (1564, 1564); (1600, 1600);
   (1611, 1631); (1648, 1648); (1750, 1757); (1759, 1768); (1770, 1773);
   (1807, 1807); (1809, 1809); (1840, 1866); (1958, 1968); (2027, 2037);
   (2042, 2042); (2045, 2045); (2070, 2093); (2137, 2139); (2184, 2184);
   (2192, 2193); (2200, 2207); (2249, 2306); (2362, 2362); (2364, 2364);
   (2369, 2376); (2381, 2381); (2385, 2391); (2402, 2403); (2417, 2417);
   (2433, 2433); (2492, 2492); (2497, 2500); (2509, 2509); (2530, 2531);
   (2558, 2558); (2561, 2562); (2620, 2620); (2625, 2626); (2631, 2632);
   (2635, 2637); (2641, 2641); (2672, 2673); (2677, 2677); (2689, 2690);
   (2748, 2748); (2753, 2757); (2759, 2760); (2765, 2765); (2786, 2787);
   (2810, 2815); (2817, 2817); (2876, 2876); (2879, 2879); (2881, 2884);
   (2893, 2893); (2901, 2902); (2914, 2915); (2946, 2946); (3008, 3008);
   (3021, 3021); (3072, 3072); (3076, 3076); (3132, 3132); (3134, 3136);
   (3142, 3144); (3146, 3149); (3157, 3158); (3170, 3171); (3201, 3201);
   (3260, 3260); (3263, 3263); (3270, 3270); (3276, 3277); (3298, 3299);
   (3328, 3329); (3387, 3388); (3393, 3396); (3405, 3405); (3426, 3427);
   (3457, 3457); (3530, 3530); (3538, 3540); (3542, 3542); (3633, 3633);
   (3636, 3642); (3654, 3662); (3761, 3761); (3764, 3772); (3782, 3782);
   (3784, 3789); (3864, 3865); (3893, 3893); (3895, 3895); (3897, 3897);
   (3953, 3966); (3968, 3972); (3974, 3975); (3981, 3991); (3993, 4028);
   (4038, 4038); (4141, 4144); (4146, 4151); (4153, 4154); (4157, 4158);
   (4184, 4185); (4190, 4192); (4209, 4212); (4226, 4226); (4229, 4230);
   (4237, 4237); (4253, 4253); (4348, 4348); (4957, 4959); (5906, 5908);
   (5938, 5939); (5970, 5971); (6002, 6003); (6068, 6069); (6071, 6077);
   (6086, 6086); (6089, 6099); (6103, 6103); (6109, 6109); (6155, 6159);
   (6211, 6211); (6277, 6278); (6313, 6313); (6432, 6434); (6439, 6440);
   (6450, 6450); (6457, 6459); (6679, 6680); (6683, 6683); (6742, 6742);
   (6744, 6750); (6752, 6752); (6754, 6754); (6757, 6764); (6771, 6780);
   (6783, 6783); (6823, 6823); (6832, 6862); (6912, 6915); (6964, 6964);
   (6966, 6970); (6972, 6972); (6978, 6978); (7019, 7027); (7040, 7041);
   (7074, 7077); (7080, 7081); (7083, 7085); (7142, 7142); (7144, 7145);
   (7149, 7149); (7151, 7153); (7212, 7219); (7222, 7223); (7288, 7293);
   (7376, 7378); (7380, 7392); (7394, 7400); (7405, 7405); (7412, 7412);
   (7416, 7417); (7468, 7530); (7544, 7544); (7579, 7679); (8125, 8125);
   (8127, 8129); (8141, 8143); (8157, 8159); (8173, 8175); (8189, 8190);
   (8203, 8207); (8216, 8217); (8228, 8228); (8231, 8231); (8234, 8238);
   (8288, 8292); (8294, 8303); (8305, 8305); (8319, 8319); (8336, 8348);
   (8400, 8432); (11388, 11389); (11503, 11505); (11631, 11631);
   (11647, 11647); (11744, 11775); (11823, 11823); (12293, 12293);
   (12330, 12333); (12337, 12341); (12347, 12347); (12441, 12446);
   (12540, 12542); (40981, 40981); (42232, 42237); (42508, 42508);
   (42607, 42610); (42612, 42621); (42623, 42623); (42652, 42655);
   (42736, 42737); (42752, 42785); (42864, 42864); (42888, 42890);
   (42994, 42996); (43000, 43001); (43010, 43010); (43014, 43014);
   (43019, 43019); (43045, 43046); (43052, 43052); (43204, 43205);
   (43232, 43249); (43263, 43263); (43302, 43309); (43335, 43345);
   (43392, 43394); (43443, 43443); (43446, 43449); (43452, 43453);
   (43471, 43471); (43493, 43494); (43561, 43566); (43569, 43570);
   (43573, 43574); (43587, 43587); (43596, 43596); (43632, 43632);
   (43644, 43644); (43696, 43696); (43698, 43700); (43703, 43704);
   (43710, 43711); (43713, 43713); (43741, 43741); (43756, 43757);
   (43763, 43764); (43766, 43766); (43867, 43871); (43881, 43883);
   (44005, 44005); (44008, 44008); (44013, 44013); (64286, 64286);
   (64434, 64450); (65024, 65039); (65043, 65043); (65056, 65071);
   (65106, 65106); (65109, 65109); (65279, 65279); (65287, 65287);
   (65294, 65294); (65306, 65306); (65342, 65342); (65344, 65344);
   (65392, 65392); (65438, 65439); (65507, 65507); (65529, 65531);
   (66045, 66045); (66272, 66272); (66422, 66426); (67456, 67461);
   (67463, 67504); (67506, 67514); (68097, 68099); (68101, 68102);
   (68108, 68111); (68152, 68154); (68159, 68159); (68325, 68326);
   (68900, 68903); (69291, 69292); (69446, 69456); (69506, 69509);
   (69633, 69633); (69688, 69702); (69744, 69744); (69747, 69748);
   (69759, 69761); (69811, 69814); (69817, 69818); (69821, 69821);
   (69826, 69826); (69837, 69837); (69888, 69890); (69927, 69931);
   (69933, 69940); (70003, 70003); (70016, 70017); (70070, 70078);
   (70089, 70092); (70095, 70095); (70191, 70193); (70196, 70196);
   (70198, 70199); (70206, 70206); (70367, 70367); (70371, 70378);
   (70400, 70401); (70459, 70460); (70464, 70464); (70502, 70508);
   (70512, 70516); (70712, 70719); (70722, 70724); (70726, 70726);
   (70750, 70750); (70835, 70840); (70842, 70842); (70847, 70848);
   (70850, 70851); (71090, 71093); (71100, 71101); (71103, 71104);
   (71132, 71133); (71219, 71226); (71229, 71229); (71231, 71232);
   (71339, 71339); (71341, 71341); (71344, 71349); (71351, 71351);
   (71453, 71455); (71458, 71461); (71463, 71467); (71727, 71735);
   (71737, 71738); (71995, 71996); (71998, 71998); (72003, 72003);
   (72148, 72151); (72154, 72155); (72160, 72160); (72193, 72202);
   (72243, 72248); (72251, 72254); (72263, 72263); (72273, 72278);
   (72281, 72283); (72330, 72342); (72344, 72345); (72752, 72758);
   (72760, 72765); (72767, 72767); (72850, 72871); (72874, 72880);
   (72882, 72883); (72885, 72886); (73009, 73014); (73018, 73018);
   (73020, 73021); (73023, 73029); (73031, 73031); (73104, 73105);
   (73109, 73109); (73111, 73111); (73459, 73460); (78896, 78904);
   (92912, 92916); (92976, 92982); (92992, 92995); (94031, 94031);
   (94095, 94111); (94176, 94177); (94179, 94180); (110576, 110579);
   (110581, 110587); (110589, 110590); (113821, 113822); (113824, 113827);
   (118528, 118573); (118576, 118598); (119143, 119145); (119155, 119170);
   (119173, 119179); (119210, 119213); (119362, 119364); (121344, 121398);
   (121403, 121452); (121461, 121461); (121476, 121476); (121499, 121503);
   (121505, 121519); (122880, 122886); (122888, 122904); (122907, 122913);
   (122915, 122916); (122918, 122922); (123184, 123197); (123566, 123566);
   (123628, 123631); (125136, 125142); (125252, 125259); (127995, 127999);
   (917505, 917505); (917536, 917631); (917760, 917999)]%N.

Definition cased_ranges : list (N * N) :=
  [(65, 90); (97, 122); (170, 170); (181, 181); (186, 186); (192, 214);
   (216, 246); (248, 442); (444, 447); (452, 659); (661, 687); (880, 883);
   (886, 887); (891, 893); (895, 895); (902, 902); (904, 906); (908, 908);
   (910, 929); (931, 1013); (1015, 1153); (1162, 1327); (1329, 1366);
   (1376, 1416); (4256, 4293); (4295, 4295); (4301, 4301); (4304, 4346);
   (4349, 4351); (5024, 5109); (5112, 5117); (7296, 7304); (7312, 7354);
   (7357, 7359); (7424, 7467); (7531, 7543); (7545, 7578); (7680, 7957);
   (7960, 7965); (7968, 8005); (8008, 8013); (8016, 8023); (8025, 8025);
   (8027, 8027); (8029, 8029); (8031, 8061); (8064, 8116); (8118, 8124);
   (8126, 8126); (8130, 8132); (8134, 8140); (8144, 8147); (8150, 8155);
   (8160, 8172); (8178, 8180); (8182, 8188); (8450, 8450); (8455, 8455);
   (8458, 8467); (8469, 8469); (8473, 8477); (8484, 8484); (8486, 8486);
   (8488, 8488); (8490, 8493); (8495, 8500); (8505, 8505); (8508, 8511);
   (8517, 8521); (8526, 8526); (8544, 8575); (8579, 8580); (9398, 9449);
   (11264, 11387); (11390, 11492); (11499, 11502); (11506, 11507);
   (11520, 11557); (11559, 11559); (11565, 11565); (42560, 42605);
   (42624, 42651); (42786, 42863); (42865, 42887); (42891, 42894);
   (42896, 42954); (42960, 42961); (42963, 42963); (42965, 42969);
   (42997, 42998); (43002, 43002); (43824, 43866); (43872, 43880);
   (43888, 43967); (64256, 64262); (64275, 64279); (65313, 65338);
   (65345, 65370); (66560, 66639); (66736, 66771); (66776, 66811);
   (66928, 66938); (66940, 66954); (66956, 66962); (66964, 66965);
   (66967, 66977); (66979, 66993); (66995, 67001); (67003, 67004);
   (68736, 68786); (68800, 68850); (71840, 71903); (93760, 93823);
   (119808, 119892); (119894, 119964); (119966, 119967); (119970, 119970);
   (119973, 119974); (119977, 119980); (119982, 119993); (119995, 119995);
   (119997, 120003); (120005, 120069); (120071, 120074); (120077, 120084);
   (120086, 120092); (120094, 120121); (120123, 120126); (120128, 120132);
   (120134, 120134); (120138, 120144); (120146, 120485); (120488, 120512);
   (120514, 120538); (120540, 120570); (120572, 120596); (120598, 120628);
   (120630, 120654); (120656, 120686); (120688, 120712); (120714, 120744);
   (120746, 120770); (120772, 120779); (122624, 122633); (122635, 122654);
   (125184, 125251); (127280, 127305); (127312, 127337); (127344, 127369)]%N.

Definition in_ranges (ranges : list (N * N)) (p : N) : bool :=
  existsb (fun '(first, last) => (first <=? p) && (p <=? last))%N ranges.

(** The lower case of a character other than U+03A3 (one character, except
    for U+0130, whose lower case is i and U+0307). *)
Definition lower_point (p : N) : list N :=
  match List.find (fun '(first, last, step, _) =>
                     (first <=? p) && (p <=? last)
                     && ((p - first) mod step =? 0))%N lower_runs with
  | Some (first, _, _, target) => [target + (p - first)]%N
  | None => if (p =? 304)%N then [105; 775]%N else [p]
  end.

(** The first character that is not case-ignorable. *)
Fixpoint skip_ignorable (points : list N) : option N :=
  match points with
  | [] => None
  | p :: rest =>
      if in_ranges case_ignorable_ranges p then skip_ignorable rest
      else Some p
  end.

(** U+03A3 is in final position when a cased letter comes before it and
    none comes after it, case-ignorable characters aside; [before] is the
    text before it, nearest character first. *)
Definition final_sigma (before after : list N) : bool :=
  match skip_ignorable before with
  | Some p => in_ranges cased_ranges p
  | None => false
  end
  && match skip_ignorable after with
     | Some p => negb (in_ranges cased_ranges p)
     | None => true
     end.

Fixpoint lower_points (before points : list N) : list N :=
  match points with
  | [] => []
  | p :: rest =>
      ((if (p =? 931)%N
        then [if final_sigma before rest then 962 else 963]%N
        else lower_point p)
       ++ lower_points (p :: before) rest)%list
  end.

(** [s.lower()] *)
Definition lower (s : string) : string :=
  encode (lower_points [] (decode s)).

End Py.

(** ** GDBCommandExecutor.is_safe_command *)

Definition unsafe_commands : list string :=
  [ "quit"; "exit"; "detach"; "kill"; "set"; "shell"; "source";
    "define"; "document"; "handle"; "signal"; "attach" ].

Definition is_safe_command (command : string) : bool :=
  let command_parts := Py.split (Py.strip command) in
  match command_parts with
  | [] => false
  | cmd :: _ => negb (Py.mem (Py.lower cmd) unsafe_commands)
  end.

(** ** MCPClient.add_message: the role label *)

Definition gemini_role (role : string) : string :=
  if String.eqb role "assistant" then "model" else "user".

(** ** Values, exceptions, history and the event log *)

(** A decoded JSON value, as [response.json()] returns it: [None], a bool,
    an int, a float (kept as its literal), a [str], a [list] or a [dict]
    (the members in document order; on a repeated key the last one wins). *)
#[warnings="-register-all"]
Inductive json : Type :=
| JNull
| JBool (b : bool)
| JInt (z : Z)
| JFloat (lit : string)
| JStr (s : string)
| JArr (items : list json)
| JObj (members : list (string * json)).

(** The exceptions that reach [query] and the loop.  [Exception] is the one
    the program raises itself; the others come from the interpreter and from
    [requests] (messages in CPython's wording). *)
Inductive exn : Type :=
| Exception (msg : string)
| KeyError (repr_key : string)     (* [str(e)] is the [repr] of the key *)
| IndexError (msg : string)
| TypeError (msg : string)
| RequestException (msg : string)  (* raised inside [requests.post] *)
| JSONDecodeError (msg : string).  (* raised inside [response.json()] *)

(** [str(e)] *)
Definition str_exn (e : exn) : string :=
  match e with
  | Exception m | KeyError m | IndexError m | TypeError m
  | RequestException m | JSONDecodeError m => m
  end.

Definition is_lookup_error (e : exn) : bool :=
  match e with
  | KeyError _ | IndexError _ => true
  | _ => false
  end.

(** One entry of [MCPClient.messages]:
    [{"role": role, "parts": [{"text": text}]}]. *)
Record message : Type := Message { role : string; text : json }.

(** What [requests.post] gives back: it raises, or it returns a response
    with its [status_code], its [text] (the [body]) and what
    [response.json()] does: the decoded value, or the exception it raises on
    a body that is not JSON. *)
Inductive http_result : Type :=
| PostRaises (e : exn)
| Response (status_code : Z) (body : string) (decoded : json + exn).

(** The calls the program makes to its surroundings, each with what came
    back, and the calls of [_process_agent_response]. *)
Inductive event : Type :=
| Print (line : string)
| Post (contents : list message) (r : http_result)
| GdbExecute (command : string) (r : string + string)
| Process (response : json).

Record State : Type := mkState {
  messages : list message;     (* [mcp_client.messages] *)
  trace : list event           (* in the order of the calls *)
}.

Inductive result (A : Type) : Type :=
| Ok (a : A)
| Raise (e : exn).
Arguments Ok {A} a.
Arguments Raise {A} e.

(** Computations: the state is kept when an exception is raised. *)
Definition M (A : Type) : Type := State -> result A * State.

Definition ret {A} (a : A) : M A := fun st => (Ok a, st).
Definition raise {A} (e : exn) : M A := fun st => (Raise e, st).
Definition bind {A B} (m : M A) (k : A -> M B) : M B :=
  fun st =>
    match m st with
    | (Ok a, st') => k a st'
    | (Raise e, st') => (Raise e, st')
    end.

Declare Scope py_scope.
Delimit Scope py_scope with py.
Notation "x <- m ;; k" := (bind m (fun x => k))
  (at level 61, m at next level, right associativity) : py_scope.
Notation "m ;; k" := (bind m (fun _ => k))
  (at level 61, right associativity) : py_scope.
Open Scope py_scope.

Definition emit (e : event) : M unit :=
  fun st => (Ok tt, mkState (messages st) (trace st ++ [e])).

(** [print(line)] *)
Definition print (line : string) : M unit := emit (Print line).

(** ** Reading the log *)

Definition gdb_calls (ev : list event) : list (string * (string + string)) :=
  flat_map (fun e => match e with GdbExecute c r => [(c, r)] | _ => [] end) ev.

Definition posts (ev : list event) : list (list message * http_result) :=
  flat_map (fun e => match e with Post c r => [(c, r)] | _ => [] end) ev.

Definition processed (ev : list event) : list json :=
  flat_map (fun e => match e with Process r => [r] | _ => [] end) ev.

(** ** Lookups in a decoded value *)

Fixpoint dict_get (k : string) (members : list (string * json)) : option json :=
  match members with
  | [] => None
  | (k', v) :: rest =>
      match dict_get k rest with
      | Some v' => Some v'
      | None => if String.eqb k k' then Some v else None
      end
  end.

Definition not_subscriptable (v : json) : string :=
  match v with
  | JNull => "'NoneType' object is not subscriptable"
  | JBool _ => "'bool' object is not subscriptable"
  | JInt _ => "'int' object is not subscriptable"
  | _ => "'float' object is not subscriptable"
  end.

(** [v[k]] for a [str] key *)
Definition getitem_key (v : json) (k : string) : json + exn :=
  match v with
  | JObj members =>
      match dict_get k members with
      | Some x => inl x
      | None => inr (KeyError ("'" ++ k ++ "'"))
      end
  | JArr _ => inr (TypeError "list indices must be integers or slices, not str")
  | JStr _ => inr (TypeError "string indices must be integers, not 'str'")
  | _ => inr (TypeError (not_subscriptable v))
  end.

(** [v[0]] *)
Definition getitem_0 (v : json) : json + exn :=
  match v with
  | JArr (x :: _) => inl x
  | JArr [] => inr (IndexError "list index out of range")
  | JStr (String c rest) => inl (JStr (Py.first_char c rest))
  | JStr "" => inr (IndexError "string index out of range")
  | JObj _ => inr (KeyError "0")
  | _ => inr (TypeError (not_subscriptable v))
  end.

Definition and_then (r : json + exn) (f : json -> json + exn) : json + exn :=
  match r with
  | inl v => f v
  | inr e => inr e
  end.

(** [result["candidates"][0]["content"]["parts"][0]["text"]] *)
Definition response_text (result : json) : json + exn :=
  and_then (and_then (and_then (and_then (and_then
    (getitem_key result "candidates")
    getitem_0)
    (fun v => getitem_key v "content"))
    (fun v => getitem_key v "parts"))
    getitem_0)
    (fun v => getitem_key v "text").

(** ** The fixed texts of the agent *)

Definition system_message : string :=
"당신은 GDB 디버거 내에서 동작하는 AI 디버깅 에이전트입니다.
사용자의 요청에 따라 GDB 명령어를 자동으로 실행하고 결과를 분석할 수 있습니다.

GDB 명령어를 실행하려면 다음 형식으로 응답하세요:
```gdb-command
명령어1
명령어2
...
```

분석과 결과를 제공할 때는 다음 형식으로 응답하세요:
```analysis
분석 내용과 설명
```

다음 단계로 진행하려면:
```next-step
다음 단계 설명
```

분석 완료시:
```complete
최종 결론과 분석 결과
```

주의사항:
1. 안전하지 않은 명령어(quit, exit, kill 등)는 실행되지 않습니다.
2. 한 번에 너무 많은 명령어를 실행하지 마세요.
3. 분석 결과는 간결하고 명확하게 작성하세요.
4. 작업을 완료하면 반드시 ```complete```로 끝내세요.
".

Definition ack_message : string :=
  "디버깅 에이전트 초기화 완료. 요청을 분석하겠습니다.".

Definition max_iterations : nat := 10.

(** [f"\n--- 단계 {iteration}/{self.max_iterations} ---"] *)
Definition step_banner (iteration : nat) : string :=
  Py.LF ++ "--- 단계 " ++ Py.str_of_nat iteration ++ "/"
        ++ Py.str_of_nat max_iterations ++ " ---".

Definition exhausted_notice : string :=
  Py.LF ++ "최대 반복 횟수에 도달했습니다. 작업이 완료되지 않았을 수 있습니다.".

(** [f"명령어: {cmd}\n결과:\n{result}"] *)
Definition executed_record (cmd result : string) : string :=
  "명령어: " ++ cmd ++ Py.LF ++ "결과:" ++ Py.LF ++ result.

(** [f"안전하지 않은 명령어입니다: {cmd}"] *)
Definition unsafe_record (cmd : string) : string :=
  "안전하지 않은 명령어입니다: " ++ cmd.

(** [f"명령어 실행 결과:\n\n{results_text}"] *)
Definition results_prompt (results_text : string) : string :=
  "명령어 실행 결과:" ++ Py.LF ++ Py.LF ++ results_text.

(** [f"명령어 실행 오류: {str(e)}"] *)
Definition gdb_output (r : string + string) : string :=
  match r with
  | inl out => out
  | inr err => "명령어 실행 오류: " ++ err
  end.

(** How the [while] loop of [invoke] was left: by [break] after a response
    with a [complete] block, or because [iteration < max_iterations] failed. *)
Inductive loop_exit : Type := Completed | Exhausted.

(** ** Reading a response *)

(** The commands of a [gdb-command] block as the [for] loop handles them:
    [group(1).strip().split('\n')], each piece stripped, the empty ones
    skipped. *)
Definition block_commands (group1 : string) : list string :=
  filter (fun cmd => negb (String.eqb cmd ""))
         (map Py.strip (Py.split_on "010" (Py.strip group1))).

(** The same in the words of the specification: the text is split at the
    line feeds, the blank lines are dropped, the other lines are trimmed. *)
Definition kept_lines (lines : list string) : list string :=
  map Py.strip (filter (fun line => negb (Py.all_space line)) lines).

Definition spec_commands (enclosed : string) : list string :=
  kept_lines (Py.split_on "010" enclosed).

(** The records of a command list, given what the debugger answered to the
    commands that were run (in order): one record per command, an
    [executed_record] for a safe one and an [unsafe_record] otherwise. *)
Fixpoint records_of (cmds : list string) (rets : list (string + string))
  : list string :=
  match cmds with
  | [] => []
  | cmd :: cmds' =>
      if is_safe_command cmd then
        match rets with
        | r :: rets' => executed_record cmd (gdb_output r) :: records_of cmds' rets'
        | [] => []
        end
      else unsafe_record cmd :: records_of cmds' rets
  end.

(** The mapping of the role labels is idempotent. *)
Definition role_mapping_idempotent : Prop :=
  forall role, gemini_role (gemini_role role) = gemini_role role.

(** A response has a block of the given tag. *)
Definition has_block (tag : string) (response : json) : bool :=
  match response with
  | JStr s =>
      match Py.search_block tag s with
      | Some _ => true
      | None => false
      end
  | _ => false
  end.

(** The commands of a response that go to the debugger: the safe commands
    of its [gdb-command] block. *)
Definition safe_commands_of (response : json) : list string :=
  match response with
  | JStr s =>
      match Py.search_block "gdb-command" s with
      | Some g => filter is_safe_command (block_commands g)
      | None => []
      end
  | _ => []
  end.

(** The calls of a stretch of the log against the responses processed in
    it: the debugger got the safe commands of their blocks, in order, and
    there is one request per response with a [gdb-command] block, besides
    the request of the first pass when the stretch has it. *)
Definition calls_match (first : bool) (ev : list event) : Prop :=
  map fst (gdb_calls ev) = flat_map safe_commands_of (processed ev)
  /\ length (posts ev)
     = (if first then 1 else 0)
       + length (filter (has_block "gdb-command") (processed ev)).

(** The events a computation added to the log. *)
Definition new_events (st st' : State) : list event :=
  skipn (length (trace st)) (trace st').

Definition lacks_complete (response : json) : Prop :=
  has_block "complete" response = false.

(** The responses whose processing can raise: the request after a
    [gdb-command] block can fail, and a response that is not text is
    refused by [re.search]. *)
Definition may_raise (response : json) : Prop :=
  has_block "gdb-command" response = true \/ forall s, response <> JStr s.

(** What a run of the loop, entered with the counter at [i], can end in,
    read against the events [ev] it added: the fuel never runs out; the
    loop is left by [break] right after the first response with a
    [complete] block; or by its condition, with the counter at
    [max_iterations], the notice printed and no [complete] block seen; or an
    exception ends it: the request of the first pass failed, or the last
    response processed is one whose processing can raise. *)
Definition run_outcome (i : nat) (res : result (option (loop_exit * nat)))
           (ev : list event) : Prop :=
  match res with
  | Ok None => False
  | Ok (Some (Completed, n)) =>
      i < n <= max_iterations /\ length (processed ev) = n - i
      /\ exists rs r, processed ev = (rs ++ [r])%list
                      /\ has_block "complete" r = true
                      /\ Forall lacks_complete rs
  | Ok (Some (Exhausted, n)) =>
      n = Nat.max i max_iterations /\ length (processed ev) = n - i
      /\ Forall lacks_complete (processed ev)
      /\ (i < max_iterations -> In (Print exhausted_notice) ev)
  | Raise _ =>
      length (processed ev) <= max_iterations - i
      /\ Forall lacks_complete (removelast (processed ev))
      /\ ((i = 0 /\ processed ev = [])
          \/ exists rs r, processed ev = (rs ++ [r])%list /\ may_raise r)
  end.

(** ** Sample surroundings *)

Module Sample.

(** A well-formed answer of the remote API carrying [s]. *)
Definition reply (s : string) : json :=
  JObj [("candidates",
         JArr [JObj [("content",
                      JObj [("parts", JArr [JObj [("text", JStr s)]])])]])].

Definition always (r : http_result) : list event -> list message -> http_result :=
  fun _ _ => r.

Definition answers (s : string) : list event -> list message -> http_result :=
  always (Response 200 "{...}" (inl (reply s))).

(** The first request is answered with [s], every later one refused. *)
Definition answers_once (s : string) : list event -> list message -> http_result :=
  fun tr _ =>
    match posts tr with
    | [] => Response 200 "{...}" (inl (reply s))
    | _ => Response 503 "unavailable" (inr (JSONDecodeError "Expecting value"))
    end.

Definition gdb_echo : list event -> string -> string + string :=
  fun _ cmd => inl ("<" ++ cmd ++ ">").

Definition repr_none : json -> string := fun _ => "{'candidates': None}".

Definition fenced (tag body : string) : string :=
  Py.fence ++ tag ++ Py.LF ++ body ++ Py.fence.

Definition start : State := mkState [] [].

(** A body that decodes but has no candidate list:
    [{"candidates": null}]. *)
Definition null_payload : json := JObj [("candidates", JNull)].

Definition null_body : string :=
  "{" ++ String "034" "candidates" ++ String "034" ": null}".

Definition null_candidates : list event -> list message -> http_result :=
  always (Response 200 null_body (inl null_payload)).

Definition unavailable : list event -> list message -> http_result :=
  always (Response 503 "unavailable" (inr (JSONDecodeError "Expecting value"))).

(** Responses of the model. *)
Definition plain_text : string := "Let me think about the crash.".

Definition only_complete : string := fenced "complete" "The bug is found.".

Definition commands_and_complete : string :=
  fenced "gdb-command" ("info locals" ++ Py.LF ++ "quit" ++ Py.LF)
  ++ Py.LF ++ fenced "complete" "Done.".

Definition blank_commands : string :=
  fenced "gdb-command" ("  " ++ Py.LF ++ " " ++ Py.LF).

Definition question : string := "why does it crash".


End Sample.

(** ** The program *)

Section Agent.

(** [str()] of a decoded value (Python's [dict] and [list] display). *)
Variable repr_json : json -> string.
(** [requests.post]: what the remote API answers to a request carrying
    [contents], after the calls logged so far. *)
Variable http_post : list event -> list message -> http_result.
(** [gdb.execute(command, to_string=True)]: the output, or the message of
    the [gdb.error] it raises, after the calls logged so far. *)
Variable gdb_execute : list event -> string -> string + string.

(** [MCPClient.add_message] *)
Definition add_message (role : string) (content : json) : M unit :=
  fun st =>
    (Ok tt,
     mkState (messages st ++ [Message (gemini_role role) content]) (trace st)).

Definition requests_post : M http_result :=
  fun st =>
    let r := http_post (trace st) (messages st) in
    (Ok r, mkState (messages st) (trace st ++ [Post (messages st) r])).

(** [MCPClient.query] *)
Definition query (message : string) : M json :=
  add_message "user" (JStr message) ;;
  response <- requests_post ;;
  match response with
  | PostRaises e => raise e
  | Response status_code body decoded =>
      if negb (status_code =? 200)%Z then
        raise (Exception
                 ("API 오류: " ++ Py.str_of_Z status_code ++ " - " ++ body))
      else
        match decoded with
        | inr e => raise e
        | inl result =>
            match response_text result with
            | inl response_content =>
                add_message "assistant" response_content ;;
                ret response_content
            | inr e =>
                if is_lookup_error e then
                  raise (Exception
                           ("API 응답 파싱 오류: " ++ str_exn e ++ " - "
                            ++ repr_json result))
                else raise e
            end
        end
  end.

(** [GDBCommandExecutor.execute_command] *)
Definition execute_command (command : string) : M string :=
  fun st =>
    let r := gdb_execute (trace st) command in
    (Ok (gdb_output r),
     mkState (messages st) (trace st ++ [GdbExecute command r])).

(** The [for cmd in commands] loop of [_process_agent_response]. *)
Fixpoint run_commands (commands results : list string) : M (list string) :=
  match commands with
  | [] => ret results
  | cmd :: rest =>
      let cmd := Py.strip cmd in
      if String.eqb cmd "" then run_commands rest results
      else
        print ("실행: " ++ cmd) ;;
        if is_safe_command cmd then
          result <- execute_command cmd ;;
          print result ;;
          run_commands rest (results ++ [executed_record cmd result])
        else
          let msg := unsafe_record cmd in
          print msg ;;
          run_commands rest (results ++ [msg])
  end.

(** [_process_agent_response], lines 334-357: the [gdb-command] block. *)
Definition execute_block (response : string) : M unit :=
  match Py.search_block "gdb-command" response with
  | Some group1 =>
      let commands := Py.split_on "010" (Py.strip group1) in
      print (Py.LF ++ "[AI 에이전트가 명령어 실행 중...]") ;;
      results <- run_commands commands [] ;;
      let results_text := Py.join (Py.LF ++ Py.LF) results in
      query (results_prompt results_text) ;;
      ret tt
  | None => ret tt
  end.

(** [_process_agent_response], lines 359-381: the [analysis], [next-step]
    and [complete] blocks; the result is the completion signal. *)
Definition report_blocks (response : string) : M bool :=
  match Py.search_block "analysis" response with
  | Some group1 =>
      print (Py.LF ++ "[AI 분석 결과]") ;;
      print (Py.strip group1)
  | None => ret tt
  end ;;
  match Py.search_block "next-step" response with
  | Some group1 =>
      print (Py.LF ++ "[다음 단계]") ;;
      print (Py.strip group1)
  | None => ret tt
  end ;;
  match Py.search_block "complete" response with
  | Some group1 =>
      print (Py.LF ++ "[최종 결론]") ;;
      print (Py.strip group1) ;;
      ret true
  | None => ret false
  end.

(** [AIAgentCommand._process_agent_response].  The call is logged;
    [re.search] on a response that is not a [str] raises [TypeError]. *)
Definition process_agent_response (response : json) : M bool :=
  emit (Process response) ;;
  match response with
  | JStr response =>
      execute_block response ;;
      report_blocks response
  | _ => raise (TypeError "expected string or bytes-like object")
  end.

(** [self.mcp_client.messages[-1]["parts"][0]["text"]] *)
Definition last_message_text : M json :=
  fun st =>
    match rev (messages st) with
    | m :: _ => (Ok (text m), st)
    | [] => (Raise (IndexError "list index out of range"), st)
    end.

(** The response an iteration works on (lines 313-318). *)
Definition next_response (user_request : string) (iteration : nat) : M json :=
  if Nat.eqb iteration 1 then query user_request else last_message_text.

(** One pass of the loop up to the completion test (lines 311-321);
    [iteration] is the counter after its increment. *)
Definition loop_body (user_request : string) (iteration : nat) : M bool :=
  print (step_banner iteration) ;;
  response <- next_response user_request iteration ;;
  process_agent_response response.

(** The end of a pass that did not complete (lines 325-327). *)
Definition check_exhausted (iteration : nat) : M unit :=
  if Nat.leb max_iterations iteration then print exhausted_notice else ret tt.

(** The [while iteration < self.max_iterations] loop of [invoke].  [fuel]
    bounds the number of passes; [None] is returned when it runs out. *)
Fixpoint while_loop (user_request : string) (fuel iteration : nat)
  : M (option (loop_exit * nat)) :=
  if Nat.ltb iteration max_iterations then
    match fuel with
    | O => ret None
    | S fuel' =>
        let iteration := S iteration in
        done <- loop_body user_request iteration ;;
        if done : bool then ret (Some (Completed, iteration))
        else
          check_exhausted iteration ;;
          while_loop user_request fuel' iteration
    end
  else ret (Some (Exhausted, iteration)).

(** The start of [invoke]'s agent part (lines 303-305): the history is
    reset and seeded with the instruction and its acknowledgement. *)
Definition seed_session : M unit :=
  (fun st => (Ok tt, mkState [] (trace st))) ;;
  add_message "user" (JStr system_message) ;;
  add_message "assistant" (JStr ack_message).

(** [AIAgentCommand.invoke] from the reset of the history on (lines
    302-329); [user_request] is the text lines 244-300 build from the
    argument and the debugger context.  The result is how the loop was left
    and the final value of [iteration]. *)
Definition invoke_agent (user_request : string) : M (option (loop_exit * nat)) :=
  seed_session ;;
  r <- while_loop user_request max_iterations 0 ;;
  print (Py.LF ++ "=== AI 에이전트 완료 ===") ;;
  ret r.

(** The states in which a run of [invoke_agent] started in [st0] tests the
    loop condition, with the value of [iteration] there. *)
Inductive at_loop_head (user_request : string) (st0 : State)
  : nat -> State -> Prop :=
| head_first :
    at_loop_head user_request st0 0 (snd (seed_session st0))
| head_next iteration st st1 st2 :
    at_loop_head user_request st0 iteration st ->
    iteration < max_iterations ->
    loop_body user_request (S iteration) st = (Ok false, st1) ->
    check_exhausted (S iteration) st1 = (Ok tt, st2) ->
    at_loop_head user_request st0 (S iteration) st2.

(** C1 as stated: a run in which no processed response has a [complete]
    block makes [max_iterations] passes and leaves the loop by its
    condition; and every run leaves the loop by [break] or by its
    condition. *)
Definition exhausts_without_complete (user_request : string) (st : State)
  : Prop :=
  let out := invoke_agent user_request st in
  let ev := new_events st (snd out) in
  (Forall lacks_complete (processed ev) ->
   fst out = Ok (Some (Exhausted, max_iterations))
   /\ length (processed ev) = max_iterations)
  /\ exists how n, fst out = Ok (Some (how, n)).

(** C3 as stated: a run whose first response has a [complete] block makes
    one pass, leaves the loop by [break] and runs no debugger command. *)
Definition completes_without_commands (user_request : string) (st : State)
  : Prop :=
  let out := invoke_agent user_request st in
  let ev := new_events st (snd out) in
  forall r, hd_error (processed ev) = Some r ->
            has_block "complete" r = true ->
            fst out = Ok (Some (Completed, 1)) /\ gdb_calls ev = [].

(** ** GDBContextExtractor *)

(** [gdb.selected_frame()]: whether it returns a frame ([true]) or raises
    [gdb.error], after the calls logged so far.  It changes nothing and is
    not logged. *)
Variable gdb_selected_frame : list event -> bool.

(** [gdb.execute(command, to_string=True)], logged. *)
Definition gdb_call (command : string) : M (string + string) :=
  fun st =>
    let r := gdb_execute (trace st) command in
    (Ok r, mkState (messages st) (trace st ++ [GdbExecute command r])).

(** The shape the extractors share:
    [try: return gdb.execute(command, to_string=True)]
    [except gdb.error as e: return f"{failure}{str(e)}"]. *)
Definition extract (command failure : string) : M string :=
  r <- gdb_call command ;;
  ret (match r with
       | inl result => result
       | inr e => failure ++ e
       end)%string.

Definition get_backtrace : M string :=
  extract "backtrace" "스택 트레이스를 가져올 수 없습니다: ".
Definition get_current_source : M string :=
  extract "list" "소스 코드를 가져올 수 없습니다: ".
Definition get_local_vars : M string :=
  extract "info locals" "로컬 변수를 가져올 수 없습니다: ".
Definition get_threads : M string :=
  extract "info threads" "스레드 정보를 가져올 수 없습니다: ".
Definition get_breakpoints : M string :=
  extract "info breakpoints" "브레이크포인트 정보를 가져올 수 없습니다: ".
Definition get_register_values : M string :=
  extract "info registers" "레지스터 값을 가져올 수 없습니다: ".
Definition get_disassembly : M string :=
  extract "disassemble" "디스어셈블 결과를 가져올 수 없습니다: ".
Definition extract_error_info : M string :=
  extract "print $_exception" "오류 정보를 가져올 수 없습니다: ".
Definition get_file_info : M string :=
  extract "info files" "파일 정보를 가져올 수 없습니다: ".
Definition get_sections_info : M string :=
  extract "maintenance info sections" "섹션 정보를 가져올 수 없습니다: ".

(** [get_memory(address, size)]: [gdb.execute(f"x/{size}xb {address}")]. *)
Definition get_memory (address : string) (size : Z) : M string :=
  extract ("x/" ++ Py.str_of_Z size ++ "xb " ++ address)
          "메모리 내용을 가져올 수 없습니다: ".

Definition function_info_limit : nat := 2000.
Definition function_info_ellipsis : string := "...(이하 생략)...".

(** [get_function_info]: an output of more than 2000 characters is cut. *)
Definition get_function_info : M string :=
  r <- gdb_call "info functions" ;;
  ret (match r with
       | inl result =>
           if Nat.ltb function_info_limit (Py.len result)
           then Py.take function_info_limit result ++ function_info_ellipsis
           else result
       | inr e => "함수 정보를 가져올 수 없습니다: " ++ e
       end)%string.

Definition check_program_running : M bool :=
  fun st => (Ok (gdb_selected_frame (trace st)), st).

Definition get_program_status : M string :=
  running <- check_program_running ;;
  ret (if running : bool then "프로그램이 실행 중입니다."
       else "프로그램이 실행 중이 아닙니다.").

(** ** The context of a command *)

(** [f"=== {title} ===\n{content}"] *)
Definition section_text (part : string * string) : string :=
  "=== " ++ fst part ++ " ===" ++ Py.LF ++ snd part.

(** ["\n\n".join([f"=== {title} ===\n{content}"]
    [for title, content in context_parts if content])] *)
Definition format_context (context_parts : list (string * string)) : string :=
  Py.join (Py.LF ++ Py.LF)
    (map section_text
         (filter (fun part => negb (String.eqb (snd part) "")) context_parts)).

(** [AIAgentCommand._collect_debug_context] *)
Definition agent_collect_debug_context : M string :=
  status <- get_program_status ;;
  backtrace <- get_backtrace ;;
  source <- get_current_source ;;
  locals <- get_local_vars ;;
  threads <- get_threads ;;
  breakpoints <- get_breakpoints ;;
  error_info <- extract_error_info ;;
  ret (format_context
         [("프로그램 상태:", status); ("스택 트레이스:", backtrace);
          ("현재 소스 코드:", source); ("로컬 변수:", locals);
          ("스레드 정보:", threads); ("브레이크포인트:", breakpoints);
          ("오류 정보:", error_info)]).

(** [AIAgentCommand._collect_limited_context] *)
Definition agent_collect_limited_context : M string :=
  status <- get_program_status ;;
  files <- get_file_info ;;
  functions <- get_function_info ;;
  sections <- get_sections_info ;;
  ret (format_context
         [("프로그램 상태:", status); ("파일 정보:", files);
          ("함수 정보:", functions); ("섹션 정보:", sections)]).

(** [MCPAskCommand._collect_debug_context] *)
Definition ask_collect_debug_context : M string :=
  backtrace <- get_backtrace ;;
  source <- get_current_source ;;
  locals <- get_local_vars ;;
  threads <- get_threads ;;
  breakpoints <- get_breakpoints ;;
  error_info <- extract_error_info ;;
  ret (format_context
         [("스택 트레이스:", backtrace); ("현재 소스 코드:", source);
          ("로컬 변수:", locals); ("스레드 정보:", threads);
          ("브레이크포인트:", breakpoints); ("오류 정보:", error_info)]).

(** [MCPAskCommand._collect_limited_context] *)
Definition ask_collect_limited_context : M string :=
  files <- get_file_info ;;
  functions <- get_function_info ;;
  sections <- get_sections_info ;;
  ret (format_context
         [("파일 정보:", files); ("함수 정보:", functions);
          ("섹션 정보:", sections)]).

(** [MCPFixCommand._collect_debug_context] *)
Definition fix_collect_debug_context : M string :=
  backtrace <- get_backtrace ;;
  source <- get_current_source ;;
  locals <- get_local_vars ;;
  error_info <- extract_error_info ;;
  registers <- get_register_values ;;
  disassembly <- get_disassembly ;;
  ret (format_context
         [("스택 트레이스:", backtrace); ("현재 소스 코드:", source);
          ("로컬 변수:", locals); ("오류 정보:", error_info);
          ("레지스터 값:", registers); ("디스어셈블리:", disassembly)]).

(** ** AIAgentCommand.invoke, whole *)

(** What [invoke] did: it printed the usage line and returned, or it ran
    the agent. *)
Inductive invoked : Type :=
| Usage
| Ran (r : option (loop_exit * nat)).

(** The [user_request] text of lines 295-300. *)
Definition agent_user_request (arg context : string) : string :=
  "다음 작업을 수행해주세요: " ++ arg ++ Py.LF ++ Py.LF
  ++ "현재 디버깅 컨텍스트:" ++ Py.LF ++ context ++ Py.LF ++ Py.LF
  ++ "단계별로 분석하고 필요한 GDB 명령어를 실행하여 요청을 해결해주세요.".

Definition agent_invoke (arg : string) : M invoked :=
  if String.eqb arg "" then
    print "사용법: mcp-agent 작업내용/질문" ;;
    ret Usage
  else
    print (Py.LF ++ "=== AI 에이전트 시작 ===") ;;
    print ("작업: " ++ arg) ;;
    print "초기 컨텍스트 수집 중..." ;;
    program_running <- check_program_running ;;
    context <- (if program_running : bool
                then agent_collect_debug_context
                else agent_collect_limited_context) ;;
    r <- invoke_agent (agent_user_request arg context) ;;
    ret (Ran r).

(** ** The one-request commands: mcp-ask, mcp-explain, mcp-fix *)










(** ** GDBMCPManager: the API key *)

(** Python's truth of an [Optional[str]]: [None] and [""] are false. *)
Definition truthy (o : option string) : bool :=
  match o with
  | Some (String _ _) => true
  | _ => false
  end.

(** [a or b] *)
Definition py_or (a b : option string) : option string :=
  if truthy a then a else b.

(** [api_key or os.environ.get("ANTHROPIC_API_KEY")]
    [or os.environ.get("GEMINI_API_KEY")] *)
Definition manager_api_key (api_key : option string)
           (environ : string -> option string) : option string :=
  py_or (py_or api_key (environ "ANTHROPIC_API_KEY"))
        (environ "GEMINI_API_KEY").

(** [GDBMCPManager.__init__] goes on to [_initialize_mcp] unless
    [not self.api_key]. *)
Definition manager_initializes (api_key : option string)
           (environ : string -> option string) : bool :=
  truthy (manager_api_key api_key environ).

(** ** The conversation a log shows *)

(** The answer a request got, when it got one: status 200, a body that
    decodes, and a text at its place. *)
Definition reply_of (r : http_result) : option json :=
  match r with
  | Response code _ (inl result) =>
      if (code =? 200)%Z then
        match response_text result with
        | inl v => Some v
        | inr _ => None
        end
      else None
  | _ => None
  end.

Definition reply_messages (r : http_result) : list message :=
  match reply_of r with
  | Some v => [Message "model" v]
  | None => []
  end.

(** From the history [h], the requests [ps] in order lead to the history
    [final]: each request carries the history before it with one prompt
    appended, and leaves that with the answer appended when it got one. *)
Fixpoint conversation (h : list message)
         (ps : list (list message * http_result)) (final : list message)
  : Prop :=
  match ps with
  | [] => final = h
  | (contents, r) :: ps' =>
      (exists prompt, contents = (h ++ [Message "user" (JStr prompt)])%list)
      /\ conversation (contents ++ reply_messages r) ps' final
  end.

(** A computation whose requests and final history form a conversation
    from the history it starts with; it only adds to the log. *)
Definition conversing {A} (m : M A) : Prop :=
  forall st, exists res ev ms,
      m st = (res, mkState ms (trace st ++ ev))
      /\ conversation (messages st) (posts ev) ms.



(** A computation that only reads the debugger: it returns, leaves the
    history as it is and does not look at it, sends no request, and passes
    exactly the commands [cmds], in order, to [gdb.execute]. *)
Definition runs {A} (cmds : list string) (m : M A) : Prop :=
  forall tr, exists a ev,
      (forall ms, m (mkState ms tr) = (Ok a, mkState ms (tr ++ ev)))
      /\ map fst (gdb_calls ev) = cmds
      /\ posts ev = [] /\ processed ev = [].

(** ** A request and a block, spelled out *)

(** What [query] makes of the answer [r] to its request (lines 52-63): the
    text it returns, or the exception it raises. *)
Definition answer_of (r : http_result) : result json :=
  match r with
  | PostRaises e => Raise e
  | Response status_code body decoded =>
      if (status_code =? 200)%Z then
        match decoded with
        | inr e => Raise e
        | inl payload =>
            match response_text payload with
            | inl v => Ok v
            | inr e =>
                if is_lookup_error e then
                  Raise (Exception
                           ("API 응답 파싱 오류: " ++ str_exn e ++ " - "
                            ++ repr_json payload))
                else Raise e
            end
        end
      else
        Raise (Exception
                 ("API 오류: " ++ Py.str_of_Z status_code ++ " - " ++ body))
  end.

(** What is shown and recorded for a command the debugger was given: its
    output, or the error line. *)
Definition shown (r : string + string) : string :=
  match r with
  | inl out => out
  | inr err => "명령어 실행 오류: " ++ err
  end.

(** The handling of the commands [cmds], one after the other, from the log
    [tr], in the words of the specification: each command is announced; a
    command the safety filter accepts is passed to the debugger, its answer
    is printed and the record is the command with that answer; any other
    command is not passed on, and the rejection is printed and is the
    record.  The result is the events and the records, in order. *)
Fixpoint handle_commands (tr : list event) (cmds : list string)
  : list event * list string :=
  match cmds with
  | [] => ([], [])
  | cmd :: rest =>
      if is_safe_command cmd then
        let r := gdb_execute (tr ++ [Print ("실행: " ++ cmd)]) cmd in
        let events := [Print ("실행: " ++ cmd); GdbExecute cmd r;
                       Print (shown r)] in
        let h := handle_commands (tr ++ events) rest in
        (events ++ fst h,
         ("명령어: " ++ cmd ++ Py.LF ++ "결과:" ++ Py.LF ++ shown r)%string
           :: snd h)%list
      else
        let events := [Print ("실행: " ++ cmd);
                       Print ("안전하지 않은 명령어입니다: " ++ cmd)] in
        let h := handle_commands (tr ++ events) rest in
        (events ++ fst h,
         ("안전하지 않은 명령어입니다: " ++ cmd)%string :: snd h)%list
  end.

(** The request that reports the records to the model. *)
Definition feedback_prompt (records : list string) : string :=
  "명령어 실행 결과:" ++ Py.LF ++ Py.LF ++ Py.join (Py.LF ++ Py.LF) records.

(** The events [ev] end in what raises [e]: a request whose answer makes
    [query] raise [e], or the processing of a response that is not text. *)
Definition raised_by (e : exn) (ev : list event) : Prop :=
  (exists ev' contents r,
      ev = (ev' ++ [Post contents r])%list /\ answer_of r = Raise e)
  \/ (exists ev' response,
         ev = (ev' ++ [Process response])%list
         /\ (forall s, response <> JStr s)
         /\ e = TypeError "expected string or bytes-like object").

(** A computation that, from a history that is not empty, only adds to the
    log, leaves a history that is not empty, and raises only what its
    events end in. *)
Definition faulting {A} (m : M A) : Prop :=
  forall st, messages st <> [] ->
    exists res ev ms,
      m st = (res, mkState ms (trace st ++ ev))
      /\ ms <> []
      /\ forall e, res = Raise e -> raised_by e ev.

(** * Properties *)

(** ** Strings *)

Lemma append_nil_r (s : string) : s ++ "" = s.
Proof. induction s; simpl; congruence. Qed.

Lemma append_assoc (a b c : string) : (a ++ b) ++ c = a ++ b ++ c.
Proof. induction a; simpl; congruence. Qed.

Lemma length_app_string (a b : string) :
  String.length (a ++ b) = String.length a + String.length b.
Proof. induction a as [|c a IH]; simpl; [reflexivity|now rewrite IH]. Qed.

(** Two ways to cut one text: one of the first parts starts the other. *)
Lemma app_eq_app_string (a b c d : string) :
  a ++ b = c ++ d ->
  (exists z, a = c ++ z /\ d = z ++ b) \/ (exists z, c = a ++ z /\ b = z ++ d).
Proof.
  revert c. induction a as [|x a IH]; intros c E.
  - right. exists c. auto.
  - destruct c as [|y c].
    + left. exists (String x a). auto.
    + simpl in E. injection E as -> E.
      destruct (IH c E) as [[z [-> ->]] | [z [-> ->]]];
        [left | right]; exists z; auto.
Qed.

Lemma strip_prefix_app (p b : string) : Py.strip_prefix p (p ++ b) = Some b.
Proof.
  induction p as [|c p IH]; simpl; [now destruct b|].
  now rewrite Ascii.eqb_refl.
Qed.

Lemma strip_prefix_sound (p s r : string) :
  Py.strip_prefix p s = Some r -> s = p ++ r.
Proof.
  revert s. induction p as [|c p IH]; intros s H; simpl in H.
  - now destruct s; injection H as <-.
  - destruct s as [|d s]; [discriminate|].
    destruct (Ascii.eqb_spec c d) as [<- | _]; [|discriminate].
    simpl. f_equal. now apply IH.
Qed.

Lemma starts_with_iff (p s : string) :
  Py.starts_with p s = true <-> exists r, s = p ++ r.
Proof.
  unfold Py.starts_with. split.
  - destruct (Py.strip_prefix p s) as [r|] eqn:E; [|discriminate].
    intros _. exists r. now apply strip_prefix_sound.
  - intros [r ->]. now rewrite strip_prefix_app.
Qed.

(** ** Whitespace characters *)

Ltac each_space H :=
  unfold Py.whitespace in H;
  repeat (destruct H as [<- | H]; [|]); [..|contradiction].

(** The whitespace character at the head of a text is found, whatever
    follows it. *)
Lemma space_len_char (e r : string) :
  In e Py.whitespace ->
  Py.space_len (e ++ r) = String.length e /\ 1 <= String.length e <= 3.
Proof.
  intros H. each_space H; (split; [reflexivity|simpl; lia]).
Qed.

Lemma space_len_found (s : string) :
  Py.space_len s <> 0 ->
  exists e r, In e Py.whitespace /\ s = e ++ r.
Proof.
  unfold Py.space_len.
  destruct (find (fun e => Py.starts_with e s) Py.whitespace) as [e|] eqn:F;
    [|congruence].
  intros _. apply find_some in F as [I S].
  apply starts_with_iff in S as [r ->]. now exists e, r.
Qed.

Lemma space_len_0_iff (s : string) :
  Py.space_len s = 0 <-> forall e r, In e Py.whitespace -> s <> e ++ r.
Proof.
  split.
  - intros Z e r I ->. destruct (space_len_char e r I) as [E L].
    rewrite E in Z. lia.
  - intros H. destruct (Nat.eq_dec (Py.space_len s) 0) as [Z | Z]; [exact Z|].
    destruct (space_len_found s Z) as [e [r [I E]]]. now destruct (H e r I).
Qed.

Lemma space_len_nil : Py.space_len "" = 0.
Proof. reflexivity. Qed.

(** The bytes of a text by whitespace characters and other bytes. *)
Lemma space_ind (P : string -> Prop) :
  P "" ->
  (forall e r, In e Py.whitespace -> P r -> P (e ++ r)) ->
  (forall c r, Py.space_len (String c r) = 0 -> P r -> P (String c r)) ->
  forall s, P s.
Proof.
  intros H0 Hs Hw s.
  assert (G : forall n t, String.length t <= n -> P t).
  { induction n as [|n IH]; intros t L.
    - destruct t; [exact H0|simpl in L; lia].
    - destruct t as [|c t]; [exact H0|].
      destruct (Nat.eq_dec (Py.space_len (String c t)) 0) as [Z | Z].
      + apply Hw; [exact Z|]. apply IH. simpl in L. lia.
      + destruct (space_len_found _ Z) as [e [r [I E]]]. rewrite E.
        apply Hs; [exact I|]. apply IH.
        destruct (space_len_char e r I) as [_ Le].
        apply (f_equal String.length) in E.
        rewrite length_app_string in E. simpl in E, L. lia. }
  exact (G _ s (le_n _)).
Qed.

(** No whitespace character starts inside another: the first byte of one
    is not a later byte of any. *)
Lemma space_chars_apart (e e' a z r r' : string) :
  In e Py.whitespace -> In e' Py.whitespace ->
  a <> "" -> z <> "" -> e' = a ++ z -> e ++ r = z ++ r' -> False.
Proof.
  intros I I' Na Nz E' E.
  assert (C : forallb (fun x' =>
                forallb (fun x =>
                  match x, x' with
                  | String f _, String _ t' => negb (Py.contains_char f t')
                  | _, _ => true
                  end) Py.whitespace) Py.whitespace = true)
    by (vm_compute; reflexivity).
  rewrite forallb_forall in C. specialize (C e' I').
  rewrite forallb_forall in C. specialize (C e I).
  destruct (space_len_char e r I) as [_ Le].
  destruct e as [|f e0]; [simpl in Le; lia|].
  destruct a as [|c a]; [congruence|]. destruct z as [|g z]; [congruence|].
  simpl in E. injection E as <- _. subst e'. simpl in C.
  apply negb_true_iff in C.
  assert (T : forall x y, Py.contains_char f (x ++ String f y) = true).
  { induction x as [|d x IH]; intros y; simpl.
    - now rewrite Ascii.eqb_refl.
    - rewrite IH. apply orb_true_r. }
  rewrite T in C. discriminate.
Qed.

Lemma at_boundary_cases (b : string) :
  Py.at_boundary b = true ->
  b = "" \/ exists e r, In e Py.whitespace /\ b = e ++ r.
Proof.
  destruct b as [|c b]; [now left|]. intros H. right.
  apply space_len_found. unfold Py.at_boundary in H.
  apply negb_true_iff, Nat.eqb_neq in H. exact H.
Qed.

Lemma space_len_prefix (a b : string) :
  Py.space_len (a ++ b) = 0 -> Py.space_len a = 0.
Proof.
  rewrite !space_len_0_iff. intros H e r I ->.
  apply (H e (r ++ b) I). now rewrite append_assoc.
Qed.

(** What starts at the head of a text does not depend on what follows it,
    when that is the end or whitespace. *)
Lemma space_len_app (a b : string) :
  a <> "" -> Py.at_boundary b = true ->
  Py.space_len (a ++ b) = Py.space_len a.
Proof.
  intros Na Hb.
  destruct (Nat.eq_dec (Py.space_len a) 0) as [Z | Z].
  - rewrite Z. apply space_len_0_iff. intros e' r' I' E.
    destruct (app_eq_app_string _ _ _ _ E) as [[z [A _]] | [z [A B]]].
    + rewrite space_len_0_iff in Z. exact (Z e' z I' A).
    + destruct z as [|g z].
      * rewrite append_nil_r in A. subst e'.
        rewrite space_len_0_iff in Z. apply (Z a "" I').
        now rewrite append_nil_r.
      * destruct (at_boundary_cases b Hb) as [-> | [e [r [I ->]]]];
          [discriminate|].
        now apply (space_chars_apart e e' a (String g z) r r').
  - destruct (space_len_found a Z) as [e [r [I ->]]].
    rewrite append_assoc.
    destruct (space_len_char e (r ++ b) I) as [-> _].
    now destruct (space_len_char e r I) as [-> _].
Qed.

(** The equations of the functions that read a text by characters. *)
Lemma all_space_char (e r : string) :
  In e Py.whitespace -> Py.all_space (e ++ r) = Py.all_space r.
Proof.
  intros H. each_space H; (destruct r; reflexivity).
Qed.

Lemma all_space_word (s : string) :
  Py.space_len s = 0 -> s <> "" -> Py.all_space s = false.
Proof.
  intros Z N. destruct s as [|c s]; [congruence|].
  cbn [Py.all_space]. now rewrite Z.
Qed.

Lemma lstrip_char (e r : string) :
  In e Py.whitespace -> Py.lstrip (e ++ r) = Py.lstrip r.
Proof. intros H. each_space H; reflexivity. Qed.

Lemma lstrip_word (s : string) : Py.space_len s = 0 -> Py.lstrip s = s.
Proof.
  intros Z. destruct s as [|c s]; [reflexivity|].
  cbn [Py.lstrip]. now rewrite Z.
Qed.

Lemma split_char (e r : string) :
  In e Py.whitespace -> Py.split (e ++ r) = Py.split r.
Proof. intros H. each_space H; reflexivity. Qed.

Lemma split_head (c : ascii) (r : string) :
  Py.space_len (String c r) = 0 ->
  Py.split (String c r)
  = if Py.at_boundary r then String c "" :: Py.split r
    else match Py.split r with
         | w :: ws => String c w :: ws
         | [] => [String c ""]
         end.
Proof. intros Z. cbn [Py.split]. now rewrite Z. Qed.

Lemma all_space_boundary (w : string) :
  Py.all_space w = true -> Py.at_boundary w = true.
Proof.
  destruct w as [|c w]; [reflexivity|]. intros H. unfold Py.at_boundary.
  apply negb_true_iff, Nat.eqb_neq. intros Z.
  rewrite all_space_word in H by (auto; discriminate). discriminate.
Qed.

(** The texts made of whitespace characters, character by character. *)
Lemma all_space_ind (P : string -> Prop) :
  P "" ->
  (forall e w, In e Py.whitespace -> Py.all_space w = true -> P w ->
               P (e ++ w)) ->
  forall w, Py.all_space w = true -> P w.
Proof.
  intros H0 Hs w. induction w as [|e r I IH|c r Z IH] using space_ind.
  - intros _. exact H0.
  - rewrite (all_space_char e) by assumption. intros H. apply Hs; auto.
  - intros H. rewrite all_space_word in H by (auto; discriminate).
    discriminate.
Qed.

Lemma all_space_app_l (w s : string) :
  Py.all_space w = true -> Py.all_space (w ++ s) = Py.all_space s.
Proof.
  apply (all_space_ind (fun w => Py.all_space (w ++ s) = Py.all_space s));
    [reflexivity|]. intros e w' I _ IH.
  rewrite append_assoc, (all_space_char e) by assumption. exact IH.
Qed.

Lemma all_space_app_r (a w : string) :
  Py.all_space w = true -> Py.all_space (a ++ w) = Py.all_space a.
Proof.
  intros H. induction a as [|e r I IH|c r Z IH] using space_ind.
  - exact H.
  - rewrite append_assoc, !(all_space_char e) by assumption. exact IH.
  - rewrite (all_space_word (String c r)) by (auto; discriminate).
    apply all_space_word; [|discriminate].
    rewrite <- Z. apply space_len_app; [discriminate|].
    now apply all_space_boundary.
Qed.

Lemma lstrip_space (s : string) : Py.all_space s = true -> Py.lstrip s = "".
Proof.
  apply (all_space_ind (fun s => Py.lstrip s = "")); [reflexivity|].
  intros e w' I _ IH.
  rewrite (lstrip_char e) by assumption. exact IH.
Qed.

Lemma lstrip_app_space (w s : string) :
  Py.all_space w = true -> Py.lstrip (w ++ s) = Py.lstrip s.
Proof.
  apply (all_space_ind (fun w => Py.lstrip (w ++ s) = Py.lstrip s));
    [reflexivity|]. intros e w' I _ IH.
  rewrite append_assoc, (lstrip_char e) by assumption. exact IH.
Qed.

Lemma lstrip_split (s : string) :
  exists w, Py.all_space w = true /\ s = w ++ Py.lstrip s.
Proof.
  induction s as [|e r I [w [Hw E]]|c r Z _] using space_ind.
  - exists "". auto.
  - exists (e ++ w). rewrite (all_space_char e), (lstrip_char e) by assumption.
    split; [exact Hw|]. rewrite append_assoc. congruence.
  - exists "". rewrite lstrip_word by assumption. auto.
Qed.

Lemma rstrip_nil_iff (s : string) : Py.rstrip s = "" <-> Py.all_space s = true.
Proof.
  destruct s as [|c s]; [split; reflexivity|]. cbn [Py.rstrip].
  destruct (Py.all_space (String c s)); split; auto; discriminate.
Qed.

Lemma rstrip_split (s : string) :
  exists w, Py.all_space w = true /\ s = Py.rstrip s ++ w.
Proof.
  induction s as [|c s [w [Hw E]]].
  - exists "". auto.
  - cbn [Py.rstrip]. destruct (Py.all_space (String c s)) eqn:A.
    + exists (String c s). auto.
    + exists w. split; [exact Hw|]. simpl. congruence.
Qed.

Lemma strip_nil_iff (s : string) : Py.strip s = "" <-> Py.all_space s = true.
Proof.
  unfold Py.strip. rewrite rstrip_nil_iff.
  destruct (lstrip_split s) as [w [Hw E]].
  rewrite E at 2. rewrite all_space_app_l by assumption. tauto.
Qed.

Lemma strip_split (s : string) :
  exists w1 w2, Py.all_space w1 = true /\ Py.all_space w2 = true
                /\ s = w1 ++ Py.strip s ++ w2.
Proof.
  destruct (lstrip_split s) as [w1 [H1 E1]].
  destruct (rstrip_split (Py.lstrip s)) as [w2 [H2 E2]].
  exists w1, w2. unfold Py.strip. repeat split; try assumption.
  rewrite <- E2. exact E1.
Qed.

Lemma split_space (w : string) : Py.all_space w = true -> Py.split w = [].
Proof.
  apply (all_space_ind (fun w => Py.split w = [])); [reflexivity|].
  intros e w' I _ IH.
  rewrite (split_char e) by assumption. exact IH.
Qed.

Lemma split_app_space_l (w s : string) :
  Py.all_space w = true -> Py.split (w ++ s) = Py.split s.
Proof.
  apply (all_space_ind (fun w => Py.split (w ++ s) = Py.split s));
    [reflexivity|]. intros e w' I _ IH.
  rewrite append_assoc, (split_char e) by assumption. exact IH.
Qed.

Lemma no_space_head (t : string) :
  Py.no_space t = true -> Py.space_len t = 0.
Proof.
  destruct t as [|c t]; [reflexivity|]. cbn [Py.no_space]. intros H.
  apply andb_true_iff in H as [H _]. now apply Nat.eqb_eq.
Qed.

Lemma at_boundary_app (a b : string) :
  a <> "" -> Py.at_boundary b = true ->
  Py.at_boundary (a ++ b) = Py.at_boundary a.
Proof.
  intros N H. destruct a as [|c a]; [congruence|].
  change (String c a ++ b) with (String c (a ++ b)). unfold Py.at_boundary.
  change (String c (a ++ b)) with (String c a ++ b).
  now rewrite space_len_app.
Qed.

Lemma split_word (t r : string) :
  t <> "" -> Py.no_space t = true -> Py.at_boundary r = true ->
  Py.split (t ++ r) = t :: Py.split r.
Proof.
  induction t as [|c t IH]; [congruence|].
  intros _ H Hr. pose proof (no_space_head _ H) as Z.
  cbn [Py.no_space] in H. apply andb_true_iff in H as [_ Ht].
  assert (Z' : Py.space_len (String c (t ++ r)) = 0).
  { change (String c (t ++ r)) with (String c t ++ r).
    rewrite space_len_app; [exact Z|discriminate|exact Hr]. }
  change (String c t ++ r) with (String c (t ++ r)).
  rewrite split_head by exact Z'.
  destruct t as [|c' t].
  - change ("" ++ r) with r. now rewrite Hr.
  - rewrite at_boundary_app by (auto; discriminate).
    unfold Py.at_boundary at 1.
    rewrite (no_space_head _ Ht). cbn [Nat.eqb negb].
    rewrite IH by (auto; discriminate). reflexivity.
Qed.

Lemma split_app_space_r (s w : string) :
  Py.all_space w = true -> Py.split (s ++ w) = Py.split s.
Proof.
  intros Hw. pose proof (all_space_boundary w Hw) as Bw.
  induction s as [|e r I IH|c r Z IH] using space_ind.
  - now apply split_space.
  - rewrite append_assoc, !(split_char e) by assumption. exact IH.
  - assert (Z' : Py.space_len (String c (r ++ w)) = 0).
    { change (String c (r ++ w)) with (String c r ++ w).
      rewrite space_len_app; [exact Z|discriminate|exact Bw]. }
    change (String c r ++ w) with (String c (r ++ w)).
    rewrite !split_head by assumption. rewrite IH.
    destruct r as [|c' r].
    + change ("" ++ w) with w. now rewrite Bw.
    + now rewrite at_boundary_app by (auto; discriminate).
Qed.

Lemma split_strip (s : string) : Py.split (Py.strip s) = Py.split s.
Proof.
  destruct (strip_split s) as [w1 [w2 [H1 [H2 E]]]].
  rewrite E at 2.
  rewrite (split_app_space_l w1 _ H1), (split_app_space_r _ w2 H2).
  reflexivity.
Qed.

(** Every text is blank or starts, after blanks, with a word that ends at a
    boundary. *)
Lemma first_word (s : string) :
  Py.all_space s = true \/
  exists w t r, s = w ++ t ++ r /\ Py.all_space w = true /\ t <> ""
                /\ Py.no_space t = true /\ Py.at_boundary r = true.
Proof.
  induction s as [|e s I IH|c s Z IH] using space_ind.
  - left. reflexivity.
  - rewrite (all_space_char e) by assumption.
    destruct IH as [H | [w [t [r [E [Hw [Ht [Hn Hr]]]]]]]]; [now left|].
    right. exists (e ++ w), t, r. rewrite (all_space_char e) by assumption.
    repeat split; try assumption. rewrite append_assoc. congruence.
  - right.
    assert (Z1 : Py.space_len (String c "") = 0)
      by (apply (space_len_prefix (String c "") s); exact Z).
    destruct IH as [H | [w [t [r [E [Hw [Ht [Hn Hr]]]]]]]].
    + exists "", (String c ""), s. cbn [Py.no_space]. rewrite Z1.
      repeat split; try discriminate. now apply all_space_boundary.
    + destruct w as [|cw w].
      * exists "", (String c t), r. cbn [Py.no_space]. rewrite Hn.
        assert (Zt : Py.space_len (String c t) = 0).
        { apply (space_len_prefix (String c t) r). simpl. simpl in E.
          now rewrite <- E. }
        rewrite Zt. simpl in E. subst s.
        repeat split; try assumption; discriminate.
      * exists "", (String c ""), s. cbn [Py.no_space]. rewrite Z1.
        repeat split; try discriminate.
        subst s. change (String cw w ++ t ++ r) with (String cw (w ++ t ++ r)).
        unfold Py.at_boundary. apply negb_true_iff, Nat.eqb_neq. intros Z2.
        change (String cw (w ++ t ++ r)) with (String cw w ++ t ++ r) in Z2.
        apply space_len_prefix in Z2.
        rewrite all_space_word in Hw by (auto; discriminate). discriminate.
Qed.

Lemma mem_In (x : string) (l : list string) : Py.mem x l = true <-> In x l.
Proof.
  unfold Py.mem. rewrite existsb_exists. split.
  - intros [y [Hy E]]. apply String.eqb_eq in E. now subst.
  - intros H. exists x. split; [assumption|apply String.eqb_refl].
Qed.

Lemma is_safe_command_first_word (w t r : string) :
  Py.all_space w = true -> t <> "" -> Py.no_space t = true ->
  Py.at_boundary r = true ->
  is_safe_command (w ++ t ++ r)
  = negb (Py.mem (Py.lower t) unsafe_commands).
Proof.
  intros Hw Ht Hn Hr. unfold is_safe_command.
  rewrite split_strip, (split_app_space_l w _ Hw), (split_word t r Ht Hn Hr).
  reflexivity.
Qed.

Lemma is_safe_command_blank (s : string) :
  Py.all_space s = true -> is_safe_command s = false.
Proof.
  intros H. unfold is_safe_command.
  rewrite split_strip, (split_space s H). reflexivity.
Qed.

(** C2.  [is_safe_command] rejects the empty and the blank command; on any
    other command it looks only at the first whitespace-delimited word [t]:
    the answer is [false] exactly when the lower-cased [t] is one of the
    twelve words quit, exit, detach, kill, set, shell, source, define,
    document, handle, signal and attach, whatever follows the word.
    Whitespace and lower case are those of [str]: a command that is only a
    no-break space is blank, a no-break space ends a word, and the word
    made of U+212A KELVIN SIGN and "ill" is denied as "kill" is. *)
Theorem is_safe_command_spec (command : string) :
  let denied := ["quit"; "exit"; "detach"; "kill"; "set"; "shell"; "source";
                 "define"; "document"; "handle"; "signal"; "attach"] in
  (Py.all_space command = true -> is_safe_command command = false) /\
  (forall w t r,
      command = w ++ t ++ r -> Py.all_space w = true -> t <> "" ->
      Py.no_space t = true -> Py.at_boundary r = true ->
      is_safe_command command = negb (Py.mem (Py.lower t) denied)) /\
  (is_safe_command command = false <->
   Py.all_space command = true \/
   exists w t r,
     command = w ++ t ++ r /\ Py.all_space w = true /\ t <> ""
     /\ Py.no_space t = true /\ Py.at_boundary r = true
     /\ In (Py.lower t) denied) /\
  (let nbsp := Py.encode_point 160 in
   let kelvin := Py.encode_point 8490 in
   is_safe_command nbsp = false
   /\ is_safe_command (nbsp ++ "quit") = false
   /\ is_safe_command ("quit" ++ nbsp ++ "now") = false
   /\ is_safe_command (kelvin ++ "ill 1") = false
   /\ is_safe_command (nbsp ++ "quite") = true).
Proof.
  cbn zeta. split; [apply is_safe_command_blank|].
  split; [|split].
  - intros w t r -> Hw Ht Hn Hr. now apply is_safe_command_first_word.
  - split.
    + intros H. destruct (first_word command)
        as [Hb | [w [t [r [E [Hw [Ht [Hn Hr]]]]]]]]; [now left|].
      right. exists w, t, r. repeat split; try assumption.
      subst command. rewrite is_safe_command_first_word in H by assumption.
      apply negb_false_iff in H. now apply mem_In.
    + intros [Hb | [w [t [r [E [Hw [Ht [Hn [Hr Hin]]]]]]]]].
      * now apply is_safe_command_blank.
      * subst command. rewrite is_safe_command_first_word by assumption.
        apply negb_false_iff. now apply mem_In.
  - repeat split; vm_compute; reflexivity.
Qed.

(** C8, as stated: the label of "assistant" is "model", and the label of
    "model" is "user", so the mapping is not idempotent. *)
Lemma gemini_role_not_idempotent : ~ role_mapping_idempotent.
Proof. intros H. specialize (H "assistant"). discriminate H. Qed.

(** C8, amended.  The mapping is total with the two labels "model" and
    "user": "assistant" gets "model", every other role gets "user"; applied
    to a label it has produced it gives "user", so it is idempotent exactly
    on the roles other than "assistant". *)
Theorem gemini_role_spec (role : string) :
  (gemini_role role = "model" \/ gemini_role role = "user") /\
  (gemini_role role = "model" <-> role = "assistant") /\
  (gemini_role role = "user" <-> role <> "assistant") /\
  gemini_role (gemini_role role) = "user" /\
  (gemini_role (gemini_role role) = gemini_role role <-> role <> "assistant").
Proof.
  unfold gemini_role.
  destruct (String.eqb_spec role "assistant") as [E | E]; simpl;
    repeat split; auto; try discriminate; try congruence.
Qed.

(** ** The lines of a command block *)

Lemma strip_eqb_nil (s : string) : String.eqb (Py.strip s) "" = Py.all_space s.
Proof.
  destruct (String.eqb_spec (Py.strip s) "") as [E | E].
  - symmetry. now apply strip_nil_iff.
  - destruct (Py.all_space s) eqn:H; [|reflexivity].
    apply strip_nil_iff in H. contradiction.
Qed.

Lemma filter_map_strip (l : list string) :
  filter (fun cmd => negb (String.eqb cmd "")) (map Py.strip l)
  = map Py.strip (filter (fun line => negb (Py.all_space line)) l).
Proof.
  induction l as [|x l IH]; simpl; [reflexivity|].
  rewrite strip_eqb_nil. destruct (Py.all_space x); simpl; congruence.
Qed.

Lemma rstrip_app_space (s w : string) :
  Py.all_space w = true -> Py.rstrip (s ++ w) = Py.rstrip s.
Proof.
  intros Hw. induction s as [|c s IH].
  - now apply rstrip_nil_iff.
  - change (String c s ++ w) with (String c (s ++ w)). cbn [Py.rstrip].
    change (String c (s ++ w)) with (String c s ++ w).
    rewrite all_space_app_r by assumption.
    now rewrite IH.
Qed.

Lemma lstrip_app_word (s w : string) :
  Py.all_space w = true -> Py.all_space s = false ->
  Py.lstrip (s ++ w) = Py.lstrip s ++ w.
Proof.
  intros Hw. induction s as [|e r I IH|c r Z IH] using space_ind.
  - discriminate.
  - rewrite append_assoc, (all_space_char e), !(lstrip_char e) by assumption.
    exact IH.
  - intros _. rewrite (lstrip_word (String c r)) by assumption.
    apply lstrip_word. rewrite <- Z.
    apply space_len_app; [discriminate|]. now apply all_space_boundary.
Qed.

Lemma strip_app_space_r (s w : string) :
  Py.all_space w = true -> Py.strip (s ++ w) = Py.strip s.
Proof.
  intros Hw. destruct (Py.all_space s) eqn:Hs.
  - assert (H : Py.all_space (s ++ w) = true)
      by (rewrite all_space_app_l; assumption).
    apply strip_nil_iff in H. apply strip_nil_iff in Hs. congruence.
  - unfold Py.strip. rewrite lstrip_app_word by assumption.
    now apply rstrip_app_space.
Qed.

Lemma strip_char (e s : string) :
  In e Py.whitespace -> Py.strip (e ++ s) = Py.strip s.
Proof. intros H. unfold Py.strip. now rewrite (lstrip_char e). Qed.

Lemma split_on_not_nil (sep : ascii) (s : string) : Py.split_on sep s <> [].
Proof.
  destruct s as [|c s]; simpl; [discriminate|].
  destruct (Ascii.eqb c sep); [discriminate|].
  destruct (Py.split_on sep s); discriminate.
Qed.

Lemma split_on_cons (sep c : ascii) (s : string) :
  Py.split_on sep (String c s)
  = if Ascii.eqb c sep then "" :: Py.split_on sep s
    else Py.prepend (String c "") (Py.split_on sep s).
Proof.
  simpl. destruct (Ascii.eqb c sep); [reflexivity|].
  destruct (Py.split_on sep s); reflexivity.
Qed.

Lemma prepend_prepend (a b : string) (l : list string) :
  Py.prepend a (Py.prepend b l) = Py.prepend (a ++ b) l.
Proof. destruct l; simpl; now rewrite ?append_assoc. Qed.

Lemma prepend_nil (l : list string) : l <> [] -> Py.prepend "" l = l.
Proof. destruct l; [congruence|reflexivity]. Qed.

(** A text without the separator stays in front of the first piece. *)
Lemma split_on_app (sep : ascii) (p a : string) :
  Py.contains_char sep p = false ->
  Py.split_on sep (p ++ a) = Py.prepend p (Py.split_on sep a).
Proof.
  induction p as [|c p IH]; intros H.
  - simpl. symmetry. apply prepend_nil, split_on_not_nil.
  - simpl in H. apply orb_false_iff in H as [C H].
    change (String c p ++ a) with (String c (p ++ a)).
    rewrite split_on_cons, C, (IH H), prepend_prepend. reflexivity.
Qed.

(** A whitespace character is the line feed or has no line feed in it. *)
Lemma space_char_line (e : string) :
  In e Py.whitespace -> e = Py.LF \/ Py.contains_char "010" e = false.
Proof. intros H. each_space H; auto. Qed.

Lemma kept_lines_cons (x : string) (l : list string) :
  kept_lines (x :: l)
  = ((if Py.all_space x then [] else [Py.strip x]) ++ kept_lines l)%list.
Proof. unfold kept_lines. simpl. now destruct (Py.all_space x). Qed.

Lemma kept_blank_tail (w pre : string) :
  Py.all_space w = true ->
  kept_lines (Py.prepend pre (Py.split_on "010" w)) = kept_lines [pre].
Proof.
  intros Hw. revert pre.
  apply (all_space_ind
           (fun w => forall pre,
                kept_lines (Py.prepend pre (Py.split_on "010" w))
                = kept_lines [pre])); [| |exact Hw].
  - intros pre. simpl. now rewrite append_nil_r.
  - intros e w' I Hw' IH pre.
    destruct (space_char_line e I) as [-> | C].
    + change (Py.LF ++ w') with (String "010" w').
      rewrite split_on_cons. cbn [Ascii.eqb Bool.eqb Py.prepend].
      rewrite append_nil_r, !kept_lines_cons.
      rewrite <- (prepend_nil (Py.split_on "010" w'))
        by apply split_on_not_nil.
      rewrite (IH ""). reflexivity.
    + rewrite (split_on_app _ _ _ C), prepend_prepend, IH, !kept_lines_cons.
      assert (He : Py.all_space e = true).
      { rewrite <- (append_nil_r e). now rewrite (all_space_char e). }
      rewrite all_space_app_r by assumption.
      destruct (Py.all_space pre) eqn:P; [reflexivity|].
      now rewrite strip_app_space_r.
Qed.

Lemma kept_app_space_r (a w pre : string) :
  Py.all_space w = true ->
  kept_lines (Py.prepend pre (Py.split_on "010" (a ++ w)))
  = kept_lines (Py.prepend pre (Py.split_on "010" a)).
Proof.
  intros Hw. revert pre. induction a as [|c a IH]; intros pre.
  - simpl. rewrite append_nil_r. now apply kept_blank_tail.
  - change (String c a ++ w) with (String c (a ++ w)).
    rewrite !split_on_cons. destruct (Ascii.eqb c "010").
    + cbn [Py.prepend]. rewrite append_nil_r, !kept_lines_cons.
      specialize (IH ""). rewrite !prepend_nil in IH by apply split_on_not_nil.
      now rewrite IH.
    + rewrite !prepend_prepend. apply IH.
Qed.

Lemma kept_app_space_l (w a : string) :
  Py.all_space w = true ->
  kept_lines (Py.split_on "010" (w ++ a)) = kept_lines (Py.split_on "010" a).
Proof.
  apply (all_space_ind
           (fun w => kept_lines (Py.split_on "010" (w ++ a))
                     = kept_lines (Py.split_on "010" a))); [reflexivity|].
  intros e w' I Hw' IH. rewrite append_assoc.
  destruct (space_char_line e I) as [-> | C].
  - change (Py.LF ++ w' ++ a) with (String "010" (w' ++ a)).
    rewrite split_on_cons. cbn [Ascii.eqb Bool.eqb].
    rewrite kept_lines_cons. exact IH.
  - rewrite (split_on_app _ _ _ C), <- IH.
    destruct (Py.split_on "010" (w' ++ a)) as [|p ps] eqn:S.
    + now apply split_on_not_nil in S.
    + cbn [Py.prepend]. rewrite !kept_lines_cons.
      now rewrite (all_space_char e), (strip_char e).
Qed.

Lemma block_commands_kept (g : string) :
  block_commands g = spec_commands g.
Proof.
  unfold block_commands, spec_commands. rewrite filter_map_strip.
  fold (kept_lines (Py.split_on "010" (Py.strip g))).
  destruct (strip_split g) as [w1 [w2 [H1 [H2 E]]]].
  rewrite E at 2. rewrite (kept_app_space_l w1 _ H1).
  pose proof (kept_app_space_r (Py.strip g) w2 "" H2) as K.
  rewrite !prepend_nil in K by apply split_on_not_nil.
  now rewrite K.
Qed.

Lemma lstrip_head (s : string) : Py.space_len (Py.lstrip s) = 0.
Proof.
  induction s as [|e r I IH|c r Z IH] using space_ind.
  - reflexivity.
  - now rewrite (lstrip_char e).
  - now rewrite lstrip_word.
Qed.

Lemma rstrip_idem (s : string) : Py.rstrip (Py.rstrip s) = Py.rstrip s.
Proof.
  induction s as [|c s IH]; [reflexivity|]. cbn [Py.rstrip].
  destruct (Py.all_space (String c s)) eqn:A; [reflexivity|].
  cbn [Py.rstrip].
  assert (B : Py.all_space (String c (Py.rstrip s)) = false).
  { destruct (rstrip_split s) as [w [Hw E]].
    rewrite <- (all_space_app_r _ w Hw).
    change (String c (Py.rstrip s) ++ w) with (String c (Py.rstrip s ++ w)).
    now rewrite <- E. }
  now rewrite B, IH.
Qed.

Lemma strip_idem (s : string) : Py.strip (Py.strip s) = Py.strip s.
Proof.
  unfold Py.strip. pose proof (lstrip_head s) as H.
  set (x := Py.lstrip s) in *.
  assert (Z : Py.space_len (Py.rstrip x) = 0).
  { destruct (rstrip_split x) as [w [Hw E]].
    destruct (Py.rstrip x) as [|c y] eqn:R; [reflexivity|].
    rewrite <- H, E. symmetry.
    apply space_len_app; [discriminate|]. now apply all_space_boundary. }
  rewrite (lstrip_word _ Z). apply rstrip_idem.
Qed.

Lemma block_commands_trimmed (g cmd : string) :
  In cmd (block_commands g) -> cmd <> "" /\ Py.strip cmd = cmd.
Proof.
  unfold block_commands. intros H. apply filter_In in H as [H N].
  apply in_map_iff in H as [x [<- _]]. split.
  - intros E. rewrite E in N. discriminate.
  - apply strip_idem.
Qed.

(** ** Searching a text *)

(** [Py.find] finds every text that occurs. *)
Lemma includes_find (p s : string) : Py.includes p s -> Py.find p s <> None.
Proof.
  intros [a [b ->]]. induction a as [|c a IH].
  - destruct p; simpl; [destruct b; discriminate|].
    change (String a p ++ b) with (String a (p ++ b)).
    cbn [Py.find Py.strip_prefix]. rewrite Ascii.eqb_refl, strip_prefix_app.
    discriminate.
  - change (String c a ++ p ++ b) with (String c (a ++ p ++ b)).
    cbn [Py.find].
    destruct (Py.strip_prefix p (String c (a ++ p ++ b)));
      [discriminate|].
    destruct (Py.find p (a ++ p ++ b)) as [[x y]|];
      [discriminate|contradiction].
Qed.

(** [Py.find] splits the text at an occurrence of [p], *)
Lemma find_sound (p s a b : string) :
  Py.find p s = Some (a, b) -> s = a ++ p ++ b.
Proof.
  revert a b. induction s as [|c s IH]; intros a b H; cbn [Py.find] in H.
  - destruct (Py.strip_prefix p "") eqn:E; [|discriminate].
    injection H as <- <-. now apply strip_prefix_sound in E.
  - destruct (Py.strip_prefix p (String c s)) eqn:E.
    + injection H as <- <-. now apply strip_prefix_sound in E.
    + destruct (Py.find p s) as [[x y]|]; [|discriminate].
      injection H as <- <-. simpl. f_equal. now apply IH.
Qed.

(** and at the first one. *)
Lemma find_first (p s a b a' b' : string) :
  Py.find p s = Some (a, b) -> s = a' ++ p ++ b' ->
  String.length a <= String.length a'.
Proof.
  revert a a'. induction s as [|c s IH]; intros a a' H E; cbn [Py.find] in H.
  - destruct (Py.strip_prefix p ""); [|discriminate].
    injection H as <- _. simpl. lia.
  - destruct (Py.strip_prefix p (String c s)) eqn:S.
    + injection H as <- _. simpl. lia.
    + destruct (Py.find p s) as [[x y]|] eqn:F; [|discriminate].
      injection H as <- <-. destruct a' as [|c' a'].
      * simpl in E. rewrite E, strip_prefix_app in S. discriminate.
      * simpl in E. injection E as _ E. simpl.
        apply le_n_S. now apply (IH x a').
Qed.

(** A block found by [Py.search_block]: the text has the opening literal,
    the block, a fence; no opening literal starts earlier and no fence ends
    the block earlier (leftmost match, lazy group). *)
Lemma search_block_spec (tag response body : string) :
  Py.search_block tag response = Some body ->
  let opening := Py.fence ++ tag ++ Py.LF in
  exists pre post,
    response = pre ++ opening ++ body ++ Py.fence ++ post
    /\ (forall pre' rest',
           response = pre' ++ opening ++ rest' ->
           String.length pre <= String.length pre')
    /\ (forall body' post',
           body ++ Py.fence ++ post = body' ++ Py.fence ++ post' ->
           String.length body <= String.length body').
Proof.
  unfold Py.search_block. cbn zeta.
  destruct (Py.find (Py.fence ++ tag ++ Py.LF) response)
    as [[pre rest]|] eqn:F; [|discriminate].
  destruct (Py.find Py.fence rest) as [[b post]|] eqn:G; [|discriminate].
  intros [= <-]. exists pre, post.
  pose proof (find_sound _ _ _ _ F) as E1.
  pose proof (find_sound _ _ _ _ G) as E2.
  split; [now rewrite <- E2|]. split.
  - intros pre' rest' E. eapply find_first; eassumption.
  - intros body' post' E. rewrite <- E2 in E.
    eapply find_first; eassumption.
Qed.

(** Without a match, the opening literal does not occur, or no fence comes
    after its first occurrence. *)
Lemma search_block_none (tag response : string) :
  Py.search_block tag response = None ->
  ~ Py.includes (Py.fence ++ tag ++ Py.LF) response
  \/ exists pre rest,
      response = pre ++ (Py.fence ++ tag ++ Py.LF) ++ rest
      /\ ~ Py.includes Py.fence rest.
Proof.
  unfold Py.search_block.
  destruct (Py.find (Py.fence ++ tag ++ Py.LF) response)
    as [[pre rest]|] eqn:F.
  - destruct (Py.find Py.fence rest) as [[b post]|] eqn:G; [discriminate|].
    intros _. right. exists pre, rest. split; [now apply find_sound|].
    intros H. now apply includes_find in H.
  - intros _. left. intros H. now apply includes_find in H.
Qed.

(** ** The event log *)

Open Scope list_scope.

Lemma gdb_calls_app (a b : list event) :
  gdb_calls (a ++ b) = gdb_calls a ++ gdb_calls b.
Proof. apply flat_map_app. Qed.

Lemma posts_app (a b : list event) : posts (a ++ b) = posts a ++ posts b.
Proof. apply flat_map_app. Qed.

Lemma processed_app (a b : list event) :
  processed (a ++ b) = processed a ++ processed b.
Proof. apply flat_map_app. Qed.

Lemma map_fst_combine {A B} (l : list A) (l' : list B) :
  length l' = length l -> map fst (combine l l') = l.
Proof.
  revert l'. induction l as [|x l IH]; intros [|y l'] H; cbn in *;
    try discriminate; try reflexivity.
  f_equal. apply IH. lia.
Qed.

(** ** MCPClient.query *)

Ltac run_query :=
  unfold query, bind, add_message, requests_post, raise, ret;
  change (gemini_role "user") with "user";
  change (gemini_role "assistant") with "model";
  cbn [messages trace].

(** One request is posted, carrying the history with the prompt appended;
    the answer is appended only when the call returns. *)
Lemma query_spec (message : string) (st : State) :
  let request := messages st ++ [Message "user" (JStr message)] in
  exists res,
    query message st
    = (res,
       mkState (match res with
                | Ok v => request ++ [Message "model" v]
                | Raise _ => request
                end)
               (trace st ++ [Post request (http_post (trace st) request)])).
Proof.
  intros request. run_query. fold request.
  destruct (http_post (trace st) request) as [e | code body [result | e]].
  - eexists (Raise _). reflexivity.
  - destruct (negb (code =? 200)%Z); [eexists (Raise _); reflexivity|].
    destruct (response_text result) as [v | e].
    + exists (Ok v). reflexivity.
    + destruct (is_lookup_error e); eexists (Raise _); reflexivity.
  - destruct (negb (code =? 200)%Z); eexists (Raise _); reflexivity.
Qed.

Lemma query_success (message body : string) (result v : json) (st : State) :
  let request := messages st ++ [Message "user" (JStr message)] in
  http_post (trace st) request = Response 200 body (inl result) ->
  response_text result = inl v ->
  query message st
  = (Ok v,
     mkState (request ++ [Message "model" v])
             (trace st ++ [Post request (Response 200 body (inl result))])).
Proof.
  intros request H T.
  run_query. fold request. rewrite H. simpl. rewrite T.
  reflexivity.
Qed.

(** A refused request: the error text ends with the body of the answer. *)
Lemma query_refused (message body : string) (code : Z) (d : json + exn)
      (st : State) :
  let request := messages st ++ [Message "user" (JStr message)] in
  http_post (trace st) request = Response code body d ->
  code <> 200%Z ->
  query message st
  = (Raise (Exception ("API 오류: " ++ Py.str_of_Z code ++ " - " ++ body)),
     mkState request (trace st ++ [Post request (Response code body d)])).
Proof.
  intros request H N.
  run_query. fold request. rewrite H.
  apply Z.eqb_neq in N. rewrite N. reflexivity.
Qed.

(** A missing key or index: the error text ends with the decoded answer. *)
Lemma query_lookup_error (message body : string) (result : json) (e : exn)
      (st : State) :
  let request := messages st ++ [Message "user" (JStr message)] in
  http_post (trace st) request = Response 200 body (inl result) ->
  response_text result = inr e -> is_lookup_error e = true ->
  query message st
  = (Raise (Exception ("API 응답 파싱 오류: " ++ str_exn e ++ " - "
                       ++ repr_json result)),
     mkState request
             (trace st ++ [Post request (Response 200 body (inl result))])).
Proof.
  intros request H T L.
  run_query. fold request. rewrite H. simpl. rewrite T, L.
  reflexivity.
Qed.

(** The two errors [query] raises itself carry what the API answered. *)
Lemma query_wrapped_errors_carry_payload (message body : string) (code : Z)
      (d : json + exn) (st : State) :
  let request := messages st ++ [Message "user" (JStr message)] in
  http_post (trace st) request = Response code body d ->
  (code <> 200%Z ->
   exists msg, fst (query message st) = Raise (Exception msg)
               /\ Py.includes body msg)
  /\ (forall result e,
         code = 200%Z -> d = inl result -> response_text result = inr e ->
         is_lookup_error e = true ->
         exists msg, fst (query message st) = Raise (Exception msg)
                     /\ Py.includes (repr_json result) msg).
Proof.
  intros request H. split.
  - intros N. rewrite (query_refused message body code d st H N).
    eexists. split; [reflexivity|].
    exists ("API 오류: " ++ Py.str_of_Z code ++ " - ")%string, ""%string.
    now rewrite append_nil_r, !append_assoc.
  - intros result e -> -> T L.
    rewrite (query_lookup_error message body result e st H T L).
    eexists. split; [reflexivity|].
    exists ("API 응답 파싱 오류: " ++ str_exn e ++ " - ")%string, ""%string.
    now rewrite append_nil_r, !append_assoc.
Qed.

(** Any other exception of the lookup, and one raised by [requests.post] or
    by [response.json()], leaves [query] as it is. *)
Lemma query_other_errors_pass (message : string) (st : State) :
  let request := messages st ++ [Message "user" (JStr message)] in
  (forall e, http_post (trace st) request = PostRaises e ->
             fst (query message st) = Raise e)
  /\ (forall body e,
         http_post (trace st) request = Response 200 body (inr e) ->
         fst (query message st) = Raise e)
  /\ (forall body result e,
         http_post (trace st) request = Response 200 body (inl result) ->
         response_text result = inr e -> is_lookup_error e = false ->
         fst (query message st) = Raise e).
Proof.
  intros request. repeat split.
  - intros e H. run_query. fold request. now rewrite H.
  - intros body e H. run_query. fold request. now rewrite H.
  - intros body result e H T L. run_query. fold request.
    rewrite H. simpl. now rewrite T, L.
Qed.

(** ** _process_agent_response *)

Lemma report_blocks_spec (s : string) (st : State) :
  exists ev,
    report_blocks s st
    = (Ok (has_block "complete" (JStr s)),
       mkState (messages st) (trace st ++ ev))
    /\ gdb_calls ev = [] /\ posts ev = [] /\ processed ev = []
    /\ (forall c, Py.search_block "complete" s = Some c ->
                  In (Print (Py.strip c)) ev).
Proof.
  destruct st as [ms tr].
  unfold report_blocks, has_block, bind, print, emit, ret. cbn [messages trace].
  destruct (Py.search_block "analysis" s);
    destruct (Py.search_block "next-step" s);
    destruct (Py.search_block "complete" s); cbn [messages trace];
    rewrite <- ?app_assoc;
    first [ exists []; rewrite app_nil_r; repeat split; try reflexivity;
            discriminate
          | eexists; split; [reflexivity | repeat split; try reflexivity;
                             try discriminate;
                             intros c' [= <-]; cbn; auto 10] ].
Qed.

Lemma run_commands_spec (commands : list string) :
  forall (results : list string) (st : State),
    let cmds := filter (fun cmd => negb (String.eqb cmd ""))
                       (map Py.strip commands) in
    exists rets ev,
      run_commands commands results st
      = (Ok (results ++ records_of cmds rets),
         mkState (messages st) (trace st ++ ev))
      /\ gdb_calls ev = combine (filter is_safe_command cmds) rets
      /\ length rets = length (filter is_safe_command cmds)
      /\ posts ev = [] /\ processed ev = [].
Proof.
  induction commands as [|cmd rest IH]; intros results st; cbn zeta.
  - exists [], []. simpl. rewrite !app_nil_r. destruct st. repeat split.
  - cbn [map filter run_commands].
    destruct (String.eqb (Py.strip cmd) "") eqn:E; cbn [negb].
    + apply IH.
    + cbn [filter records_of]. unfold bind at 1. unfold print, emit.
      cbn [messages trace].
      destruct (is_safe_command (Py.strip cmd)) eqn:S.
      * unfold bind at 1. unfold execute_command. cbn [messages trace].
        unfold bind at 1. cbn [messages trace].
        set (st3 := mkState _ _).
        destruct (IH (results ++
                        [executed_record (Py.strip cmd)
                           (gdb_output (gdb_execute
                              (trace st ++ [Print ("실행: " ++ Py.strip cmd)])
                              (Py.strip cmd)))]) st3)
          as [rets [ev [R [G [L [P Q]]]]]].
        eexists (_ :: rets), (_ :: _ :: _ :: ev).
        rewrite R. subst st3. cbn [messages trace]. rewrite <- !app_assoc.
        split; [reflexivity|]. unfold gdb_calls, posts, processed in *.
        cbn. rewrite G, L, P, Q. repeat split.
      * unfold bind at 1. cbn [messages trace]. set (st3 := mkState _ _).
        destruct (IH (results ++ [unsafe_record (Py.strip cmd)]) st3)
          as [rets [ev [R [G [L [P Q]]]]]].
        exists rets, (Print ("실행: " ++ Py.strip cmd)
                      :: Print (unsafe_record (Py.strip cmd)) :: ev).
        rewrite R. subst st3. cbn [messages trace]. rewrite <- !app_assoc.
        split; [reflexivity|]. unfold gdb_calls, posts, processed in *.
        cbn. rewrite G, L, P, Q. repeat split.
Qed.

Lemma execute_block_none (s : string) (st : State) :
  Py.search_block "gdb-command" s = None -> execute_block s st = (Ok tt, st).
Proof. intros H. unfold execute_block. now rewrite H. Qed.

Lemma execute_block_some (s g : string) (st : State) :
  Py.search_block "gdb-command" s = Some g ->
  exists rets ev_cmd qres,
    let cmds := block_commands g in
    let prompt :=
      results_prompt (Py.join (Py.LF ++ Py.LF) (records_of cmds rets)) in
    let request := messages st ++ [Message "user" (JStr prompt)] in
    let tr := trace st
              ++ Print (Py.LF ++ "[AI 에이전트가 명령어 실행 중...]") :: ev_cmd in
    execute_block s st
    = (match qres with Ok _ => Ok tt | Raise e => Raise e end,
       mkState (match qres with
                | Ok v => request ++ [Message "model" v]
                | Raise _ => request
                end)
               (tr ++ [Post request (http_post tr request)]))
    /\ gdb_calls ev_cmd = combine (filter is_safe_command cmds) rets
    /\ length rets = length (filter is_safe_command cmds)
    /\ posts ev_cmd = [] /\ processed ev_cmd = [].
Proof.
  intros H. unfold execute_block. rewrite H.
  unfold bind at 1. unfold print, emit. cbn [messages trace].
  unfold bind at 1.
  destruct (run_commands_spec (Py.split_on "010" (Py.strip g)) []
              (mkState (messages st)
                 (trace st ++ [Print (Py.LF ++ "[AI 에이전트가 명령어 실행 중...]")])))
    as [rets [ev [R [G [L [P Q]]]]]].
  cbn [messages trace] in R. rewrite R. fold (block_commands g) in *.
  cbn [app]. unfold bind.
  match goal with
  | |- context [query ?m ?st1] => destruct (query_spec m st1) as [qres E]
  end.
  cbn [messages trace] in E. rewrite E.
  exists rets, ev, qres. cbn zeta. rewrite <- !app_assoc. cbn [app].
  split; [|auto]. destruct qres; reflexivity.
Qed.

(** A response with a [gdb-command] block: the call, the header, the events
    of the commands, one request with the records, and then only prints. *)
Lemma process_with_commands (s g : string) (st : State) :
  Py.search_block "gdb-command" s = Some g ->
  exists rets ev_cmd qres tail,
    let cmds := block_commands g in
    let prompt :=
      results_prompt (Py.join (Py.LF ++ Py.LF) (records_of cmds rets)) in
    let request := messages st ++ [Message "user" (JStr prompt)] in
    let tr := trace st
              ++ Process (JStr s)
              :: Print (Py.LF ++ "[AI 에이전트가 명령어 실행 중...]") :: ev_cmd in
    process_agent_response (JStr s) st
    = (match qres with
       | Ok _ => Ok (has_block "complete" (JStr s))
       | Raise e => Raise e
       end,
       mkState (match qres with
                | Ok v => request ++ [Message "model" v]
                | Raise _ => request
                end)
               (tr ++ Post request (http_post tr request) :: tail))
    /\ gdb_calls ev_cmd = combine (filter is_safe_command cmds) rets
    /\ length rets = length (filter is_safe_command cmds)
    /\ posts ev_cmd = [] /\ processed ev_cmd = []
    /\ gdb_calls tail = [] /\ posts tail = [] /\ processed tail = []
    /\ (forall e, qres = Raise e -> tail = [])
    /\ (forall v c, qres = Ok v -> Py.search_block "complete" s = Some c ->
                    In (Print (Py.strip c)) tail).
Proof.
  intros H. unfold process_agent_response.
  unfold bind at 1. unfold emit. cbn [messages trace]. unfold bind at 1.
  destruct (execute_block_some s g
              (mkState (messages st) (trace st ++ [Process (JStr s)])) H)
    as [rets [ev [qres [E [G [L [P Q]]]]]]].
  cbn zeta in E. cbn [messages trace] in E. rewrite E.
  destruct qres as [v | e].
  - match goal with
    | |- context [report_blocks s ?st1] =>
        destruct (report_blocks_spec s st1) as [tail [R [G' [P' [Q' C']]]]]
    end.
    cbn [messages trace] in R. rewrite R.
    exists rets, ev, (Ok v), tail. cbn zeta. rewrite <- !app_assoc. cbn [app].
    repeat split; auto. discriminate.
  - exists rets, ev, (Raise e), []. cbn zeta. rewrite <- !app_assoc. cbn [app].
    repeat split; auto. discriminate.
Qed.

Lemma process_without_commands (s : string) (st : State) :
  Py.search_block "gdb-command" s = None ->
  exists tail,
    process_agent_response (JStr s) st
    = (Ok (has_block "complete" (JStr s)),
       mkState (messages st) (trace st ++ Process (JStr s) :: tail))
    /\ gdb_calls tail = [] /\ posts tail = [] /\ processed tail = [].
Proof.
  intros H. unfold process_agent_response.
  unfold bind at 1. unfold emit. cbn [messages trace]. unfold bind at 1.
  rewrite execute_block_none by assumption.
  match goal with
  | |- context [report_blocks s ?st1] =>
      destruct (report_blocks_spec s st1) as [tail [R [G [P [Q _]]]]]
  end.
  cbn [messages trace] in R. rewrite R. exists tail.
  rewrite <- app_assoc. cbn [app]. auto.
Qed.

Lemma process_not_text (r : json) (st : State) :
  (forall s, r <> JStr s) ->
  process_agent_response r st
  = (Raise (TypeError "expected string or bytes-like object"),
     mkState (messages st) (trace st ++ [Process r])).
Proof.
  intros N. unfold process_agent_response, bind, emit, raise.
  destruct r; try reflexivity. now destruct (N s).
Qed.

(** Every call: the response is logged once, the history only grows, the
    debugger gets the safe commands of the block, one request is sent when
    there is a block, and a returned signal is the presence of a [complete]
    block. *)
Lemma process_spec (r : json) (st : State) :
  exists res ev extra,
    process_agent_response r st
    = (res, mkState (messages st ++ extra) (trace st ++ Process r :: ev))
    /\ processed ev = []
    /\ map fst (gdb_calls ev) = safe_commands_of r
    /\ length (posts ev) = (if has_block "gdb-command" r then 1 else 0)
    /\ (forall b, res = Ok b -> b = has_block "complete" r)
    /\ (forall e, res = Raise e -> may_raise r).
Proof.
  destruct r as [| | | |s| |];
    try (exists (Raise (TypeError "expected string or bytes-like object")),
           [], []; rewrite process_not_text by discriminate;
         rewrite app_nil_r; repeat split; auto; try discriminate;
         intros _ _; right; discriminate).
  unfold safe_commands_of, has_block.
  destruct (Py.search_block "gdb-command" s) as [g|] eqn:H.
  - destruct (process_with_commands s g st H)
      as [rets [ev [qres [tail [E [G [L [P [Q [G' [P' [Q' [T C]]]]]]]]]]]]].
    cbn zeta in E. rewrite E.
    eexists _, (Print _ :: ev ++ Post _ _ :: tail),
      (_ :: match qres with Ok v => [Message "model" v] | _ => [] end).
    split.
    + f_equal. f_equal.
      * destruct qres; rewrite <- ?app_assoc; reflexivity.
      * rewrite <- app_assoc. reflexivity.
    + change (Print ?x :: ev ++ ?y) with ([Print x] ++ ev ++ y).
      rewrite !processed_app, !posts_app, !gdb_calls_app.
      change (Post ?c ?r :: tail) with ([Post c r] ++ tail).
      rewrite !processed_app, !posts_app, !gdb_calls_app.
      rewrite G, G', P, P', Q, Q'.
      cbn [gdb_calls posts processed flat_map app length]. rewrite app_nil_r.
      split; [reflexivity|]. split; [now apply map_fst_combine|].
      split; [reflexivity|]. split.
      * intros b. destruct qres; intros [= <-]. reflexivity.
      * intros _ _. left. cbn. now rewrite H.
  - destruct (process_without_commands s st H) as [tail [E [G [P Q]]]].
    rewrite E. exists (Ok (has_block "complete" (JStr s))), tail, [].
    rewrite app_nil_r, G, P. repeat split; auto; try discriminate.
    intros b [= <-]. reflexivity.
Qed.

(** ** A request and a block, exactly *)

Lemma answer_of_reply (r : http_result) :
  reply_of r = match answer_of r with
               | Ok v => Some v
               | Raise _ => None
               end.
Proof.
  destruct r as [e | code body [payload | e]]; cbn; [reflexivity| |].
  - destruct (code =? 200)%Z; [|reflexivity].
    destruct (response_text payload) as [v | e]; [reflexivity|].
    now destruct (is_lookup_error e).
  - now destruct (code =? 200)%Z.
Qed.

(** [query] posts the history with the prompt appended, returns or raises
    what [answer_of] says of the answer, and keeps the answer's text. *)
Lemma query_exact (message : string) (st : State) :
  let request := messages st ++ [Message "user" (JStr message)] in
  let r := http_post (trace st) request in
  query message st
  = (answer_of r,
     mkState (request ++ reply_messages r) (trace st ++ [Post request r])).
Proof.
  cbn zeta. run_query. unfold reply_messages, reply_of, answer_of.
  destruct (http_post (trace st)
              (messages st ++ [Message "user" (JStr message)]))
    as [e | code body [payload | e]].
  - now rewrite app_nil_r.
  - destruct (code =? 200)%Z; cbn [negb]; [|now rewrite app_nil_r].
    destruct (response_text payload) as [v | e]; [reflexivity|].
    destruct (is_lookup_error e); now rewrite app_nil_r.
  - destruct (code =? 200)%Z; cbn [negb]; now rewrite app_nil_r.
Qed.

(** The loop over the pieces of a block does what [handle_commands] says on
    the pieces that are not blank, trimmed. *)
Lemma run_commands_exact (commands : list string) :
  forall (results : list string) (st : State),
    let h := handle_commands (trace st) (kept_lines commands) in
    run_commands commands results st
    = (Ok (results ++ snd h), mkState (messages st) (trace st ++ fst h)).
Proof.
  induction commands as [|cmd rest IH]; intros results st; cbn zeta.
  - cbn. rewrite !app_nil_r. now destruct st.
  - rewrite kept_lines_cons. cbn [run_commands].
    rewrite strip_eqb_nil. destruct (Py.all_space cmd); [apply IH|].
    cbn [app handle_commands]. unfold bind at 1. unfold print, emit.
    cbn [messages trace].
    destruct (is_safe_command (Py.strip cmd)).
    + unfold bind at 1. unfold execute_command. cbn [messages trace].
      unfold bind at 1. cbn [messages trace].
      rewrite IH. cbn [messages trace fst snd].
      unfold executed_record, gdb_output, shown.
      rewrite <- !app_assoc. cbn [app]. reflexivity.
    + unfold bind at 1. cbn [messages trace].
      rewrite IH. cbn [messages trace fst snd]. unfold unsafe_record.
      rewrite <- !app_assoc. cbn [app]. reflexivity.
Qed.

(** A response with a [gdb-command] block, event by event: the call is
    logged, the header is printed, the lines of the block that are not
    blank are handled, trimmed and in order, and one request carries the
    records; what that request is answered decides between the completion
    signal and the exception. *)
Lemma process_block_exact (s g : string) (st : State) :
  Py.search_block "gdb-command" s = Some g ->
  let header := [Process (JStr s);
                 Print (Py.LF ++ "[AI 에이전트가 명령어 실행 중...]")] in
  let h := handle_commands (trace st ++ header) (spec_commands g) in
  let request :=
    messages st ++ [Message "user" (JStr (feedback_prompt (snd h)))] in
  let r := http_post (trace st ++ header ++ fst h) request in
  exists tail,
    process_agent_response (JStr s) st
    = (match answer_of r with
       | Ok _ => Ok (has_block "complete" (JStr s))
       | Raise e => Raise e
       end,
       mkState (request ++ reply_messages r)
               (trace st ++ header ++ fst h ++ Post request r :: tail))
    /\ gdb_calls tail = [] /\ posts tail = [] /\ processed tail = []
    /\ (forall e, answer_of r = Raise e -> tail = [])
    /\ (forall v c, answer_of r = Ok v ->
                    Py.search_block "complete" s = Some c ->
                    In (Print (Py.strip c)) tail).
Proof.
  intros H. cbn zeta. unfold process_agent_response.
  unfold bind at 1. unfold emit. cbn [messages trace]. unfold bind at 1.
  unfold execute_block. rewrite H.
  unfold bind at 1. unfold print, emit. cbn [messages trace].
  unfold bind at 1. rewrite run_commands_exact. cbn [messages trace app].
  fold (block_commands g) (kept_lines (Py.split_on "010" (Py.strip g))).
  assert (K : kept_lines (Py.split_on "010" (Py.strip g)) = spec_commands g).
  { rewrite <- block_commands_kept. unfold block_commands.
    now rewrite filter_map_strip. }
  rewrite K. rewrite <- !app_assoc. cbn [app].
  set (h := handle_commands _ (spec_commands g)).
  unfold bind at 1. unfold results_prompt.
  fold (feedback_prompt (snd h)).
  rewrite query_exact. cbn [messages trace].
  set (request := messages st ++ [Message "user" (JStr (feedback_prompt (snd h)))]).
  set (r := http_post _ request).
  destruct (answer_of r) as [v | e] eqn:A.
  - unfold ret at 1.
    match goal with
    | |- context [report_blocks s ?st1] =>
        destruct (report_blocks_spec s st1) as [tail [R [G [P [Q C]]]]]
    end.
    cbn [messages trace] in R. rewrite R. exists tail.
    subst request. rewrite <- !app_assoc. cbn [app].
    split; [reflexivity|]. repeat split; auto; try discriminate.
  - exists []. subst request. rewrite <- !app_assoc. cbn [app].
    split; [reflexivity|]. repeat split; auto; discriminate.
Qed.

(** ** The loop *)

Lemma calls_match_app (first : bool) (a b : list event) :
  calls_match first a -> calls_match false b -> calls_match first (a ++ b).
Proof.
  unfold calls_match. intros [A1 A2] [B1 B2].
  rewrite gdb_calls_app, posts_app, processed_app, map_app, flat_map_app,
    filter_app, !length_app, A1, B1, A2, B2.
  split; [reflexivity|]. cbn. lia.
Qed.

Lemma calls_match_print (first : bool) (line : string) (ev : list event) :
  calls_match first ev -> calls_match first (Print line :: ev).
Proof. intros H. exact H. Qed.

Lemma calls_match_process (r : json) (ev : list event) :
  processed ev = [] ->
  map fst (gdb_calls ev) = safe_commands_of r ->
  length (posts ev) = (if has_block "gdb-command" r then 1 else 0) ->
  calls_match false (Process r :: ev).
Proof.
  intros Q G P. unfold calls_match.
  change (gdb_calls (Process r :: ev)) with (gdb_calls ev).
  change (posts (Process r :: ev)) with (posts ev).
  change (processed (Process r :: ev)) with (r :: processed ev).
  rewrite Q, G, P. cbn. rewrite app_nil_r.
  split; [reflexivity|]. now destruct (has_block "gdb-command" r).
Qed.

Lemma while_loop_step (req : string) (fuel i : nat) (st : State) :
  i < max_iterations ->
  while_loop req (S fuel) i st
  = (done <- loop_body req (S i) ;;
     if done : bool then ret (Some (Completed, S i))
     else check_exhausted (S i) ;; while_loop req fuel (S i)) st.
Proof.
  intros H. cbn [while_loop]. apply Nat.ltb_lt in H. now rewrite H.
Qed.

Lemma while_loop_done (req : string) (fuel i : nat) (st : State) :
  max_iterations <= i ->
  while_loop req fuel i st = (Ok (Some (Exhausted, i)), st).
Proof.
  intros H. apply Nat.ltb_ge in H.
  destruct fuel; cbn [while_loop]; now rewrite H.
Qed.

(** One pass: the banner, then at most one response is processed; the
    signal is the presence of a [complete] block in it; a pass that returns
    leaves a history that is not empty. *)
Lemma loop_body_spec (req : string) (i : nat) (st : State) :
  (i <> 1 -> messages st <> []) ->
  exists res ev extra,
    loop_body req i st
    = (res, mkState (messages st ++ extra)
                    (trace st ++ Print (step_banner i) :: ev))
    /\ length (processed ev) <= 1
    /\ (forall b, res = Ok b ->
                  (exists r, processed ev = [r] /\ b = has_block "complete" r)
                  /\ messages st ++ extra <> [])
    /\ (forall e, res = Raise e ->
                  (i = 1 /\ processed ev = [])
                  \/ exists r, processed ev = [r] /\ may_raise r)
    /\ calls_match (Nat.eqb i 1) ev.
Proof.
  intros Hst. unfold loop_body. unfold bind at 1. unfold print, emit. cbn [messages trace].
  unfold bind. unfold next_response.
  destruct (Nat.eqb_spec i 1) as [I1 | I1].
  - match goal with
    | |- context [query req ?st1] => destruct (query_spec req st1) as [q E]
    end.
    cbn [messages trace] in E. rewrite E. destruct q as [v | e].
    + match goal with
      | |- context [process_agent_response v ?st2] =>
          destruct (process_spec v st2)
            as [res [ev [extra [P [Q [G [N [B X]]]]]]]]
      end.
      cbn [messages trace] in P. rewrite P.
      eexists res, (Post _ _ :: Process v :: ev), (_ :: _ :: extra).
      split; [rewrite <- !app_assoc; reflexivity|].
      change (processed (Post ?c ?x :: Process v :: ev))
        with (v :: processed ev).
      rewrite Q. split; [cbn; lia|]. split; [|split].
      * intros b Hb. split; [exists v; split; auto|].
        intros Z. apply app_eq_nil in Z as [_ Z]. discriminate.
      * intros e He. right. exists v. split; [reflexivity|]. eapply X, He.
      * pose proof (calls_match_process v ev Q G N) as [M1 M2].
        split; [exact M1|]. cbn [posts flat_map app length] in *.
        unfold posts in *. cbn [flat_map app length] in *. rewrite M2.
        reflexivity.
    + eexists (Raise e), [Post _ _], [_].
      rewrite <- !app_assoc.
      split; [reflexivity|]. split; [cbn; lia|].
      split; [discriminate|]. split; [auto|]. split; reflexivity.
  - unfold last_message_text. cbn [messages trace].
    destruct (rev (messages st)) as [|m ms] eqn:R.
    + apply (f_equal (@rev message)) in R. rewrite rev_involutive in R.
      now destruct (Hst I1).
    + match goal with
      | |- context [process_agent_response ?v ?st2] =>
          destruct (process_spec v st2)
            as [res [ev [extra [P [Q [G [N [B X]]]]]]]]
      end.
      cbn [messages trace] in P. rewrite P.
      exists res, (Process (text m) :: ev), extra.
      split; [rewrite <- !app_assoc; reflexivity|].
      change (processed (Process (text m) :: ev))
        with (text m :: processed ev).
      rewrite Q. split; [cbn; lia|]. split; [|split].
      * intros b Hb. split; [exists (text m); split; auto|].
        intros Z. apply app_eq_nil in Z as [Z _].
        rewrite Z in R. discriminate.
      * intros e He. right. exists (text m). split; [reflexivity|].
        eapply X, He.
      * now apply calls_match_process.
Qed.

Lemma check_exhausted_spec (i : nat) (st : State) :
  exists ev,
    check_exhausted i st = (Ok tt, mkState (messages st) (trace st ++ ev))
    /\ processed ev = []
    /\ (max_iterations <= i -> In (Print exhausted_notice) ev)
    /\ calls_match false ev.
Proof.
  unfold check_exhausted. destruct (Nat.leb_spec max_iterations i).
  - exists [Print exhausted_notice]. repeat split; cbn; auto.
  - exists []. destruct st. cbn. rewrite app_nil_r. repeat split. lia.
Qed.

Lemma removelast_cons_lacks (r : json) (l : list json) :
  lacks_complete r -> Forall lacks_complete (removelast l) ->
  Forall lacks_complete (removelast (r :: l)).
Proof.
  intros Hr Hl. destruct l as [|x l]; [constructor|].
  change (removelast (r :: x :: l)) with (r :: removelast (x :: l)).
  now constructor.
Qed.

(** The loop with enough fuel, from any counter and state. *)
Lemma while_loop_spec (req : string) (fuel : nat) :
  forall (i : nat) (st : State),
    max_iterations - i <= fuel ->
    (1 <= i -> messages st <> []) ->
    exists res ev extra,
      while_loop req fuel i st
      = (res, mkState (messages st ++ extra) (trace st ++ ev))
      /\ run_outcome i res ev
      /\ calls_match (Nat.eqb i 0) ev.
Proof.
  assert (Stop : forall fuel i st,
             max_iterations <= i ->
             exists res ev extra,
               while_loop req fuel i st
               = (res, mkState (messages st ++ extra) (trace st ++ ev))
               /\ run_outcome i res ev
               /\ calls_match (Nat.eqb i 0) ev).
  { intros f i st Hi. exists (Ok (Some (Exhausted, i))), [], [].
    rewrite while_loop_done by lia. destruct st. cbn [messages trace].
    rewrite !app_nil_r. split; [reflexivity|]. split.
    - cbn. repeat split; auto; lia.
    - destruct (Nat.eqb_spec i 0); [unfold max_iterations in Hi; lia|].
      split; reflexivity. }
  induction fuel as [|fuel IH]; intros i st F Hst; [apply Stop; lia|].
  destruct (Nat.lt_ge_cases i max_iterations) as [Hi | Hi];
    [|now apply Stop].
  rewrite while_loop_step by assumption. unfold bind at 1.
  destruct (loop_body_spec req (S i) st ltac:(intros; apply Hst; lia))
    as [b [ev [extra [E [L [B [X M]]]]]]].
  change (Nat.eqb (S i) 1) with (Nat.eqb i 0) in M.
  apply (calls_match_print _ (step_banner (S i))) in M.
  rewrite E. destruct b as [[|] | e].
  - (* the response had a complete block *)
    destruct (B true eq_refl) as [[r [P C]] _].
    eexists _, _, _. split; [reflexivity|]. split; [|exact M].
    unfold run_outcome.
    change (processed (Print (step_banner (S i)) :: ev)) with (processed ev).
    rewrite P.
    split; [lia|]. split; [cbn [length]; lia|].
    exists [], r. repeat split; auto.
  - (* no complete block: next pass *)
    destruct (B false eq_refl) as [[r [P C]] NE].
    unfold bind.
    match goal with
    | |- context [check_exhausted _ ?st1] =>
        destruct (check_exhausted_spec (S i) st1) as [ev1 [E1 [P1 [N1 M1]]]]
    end.
    cbn [messages trace] in E1. rewrite E1.
    match goal with
    | |- context [while_loop req fuel (S i) ?st2] =>
        destruct (IH (S i) st2 ltac:(lia) ltac:(intros _; exact NE))
          as [res [ev2 [extra2 [E2 [O M2]]]]]
    end.
    cbn [messages trace] in E2. rewrite E2.
    change (Nat.eqb (S i) 0) with false in M2.
    exists res, ((Print (step_banner (S i)) :: ev) ++ ev1 ++ ev2),
      (extra ++ extra2).
    split; [now rewrite <- !app_assoc|].
    split; [|now repeat apply calls_match_app].
    assert (PE : processed ((Print (step_banner (S i)) :: ev) ++ ev1 ++ ev2)
                 = r :: processed ev2).
    { rewrite !processed_app, P1.
      change (processed (Print (step_banner (S i)) :: ev))
        with (processed ev).
      now rewrite P. }
    assert (Lr : lacks_complete r) by (unfold lacks_complete; congruence).
    unfold run_outcome in *. rewrite PE.
    destruct res as [[[[|] n]|] | e].
    + destruct O as [[O1 O2] [O3 [rs [r' [O4 [O5 O6]]]]]].
      split; [lia|]. split; [cbn [length]; lia|].
      exists (r :: rs), r'. rewrite O4. repeat split; auto.
    + destruct O as [O1 [O2 [O3 O4]]].
      pose proof (Nat.max_spec (S i) max_iterations) as K.
      pose proof (Nat.max_spec i max_iterations) as K'.
      split; [lia|]. split; [cbn [length]; lia|]. split; [now constructor|].
      intros _. destruct (Nat.eq_dec (S i) max_iterations) as [Q | Q].
      * apply in_or_app. right. apply in_or_app. left. apply N1. lia.
      * apply in_or_app. right. apply in_or_app. right. apply O4. lia.
    + exact O.
    + destruct O as [O1 [O2 [[O3 _] | [rs [r' [O3 O4]]]]]]; [discriminate|].
      split; [cbn [length]; lia|].
      split; [now apply removelast_cons_lacks|].
      right. exists (r :: rs), r'. rewrite O3. auto.
  - (* an exception *)
    eexists _, _, _. split; [reflexivity|]. split; [|exact M].
    unfold run_outcome.
    change (processed (Print (step_banner (S i)) :: ev)) with (processed ev).
    split; [lia|]. split.
    + destruct (processed ev) as [|x [|y l]]; cbn in L; try lia; constructor.
    + destruct (X e eq_refl) as [[I1 Z] | [r [Z R]]]; [left; split; [lia|auto]|].
      right. exists [], r. auto.
Qed.

Lemma new_events_app (st : State) (ms : list message) (ev : list event) :
  new_events st (mkState ms (trace st ++ ev)) = ev.
Proof.
  unfold new_events. cbn [trace]. rewrite skipn_app, skipn_all, Nat.sub_diag.
  reflexivity.
Qed.

Lemma run_outcome_print (i : nat) (x : option (loop_exit * nat))
      (ev : list event) (line : string) :
  run_outcome i (Ok x) ev -> run_outcome i (Ok x) (ev ++ [Print line]).
Proof.
  unfold run_outcome. rewrite processed_app. cbn. rewrite app_nil_r.
  destruct x as [[[|] n]|]; auto.
  intros [A [B [C D]]]. repeat split; auto.
  intros H. apply in_or_app. left. auto.
Qed.

(** A whole run, from any state: the history is reset, the loop runs with
    enough fuel, and the closing line is printed when the loop returns. *)
Lemma invoke_agent_spec (req : string) (st : State) :
  exists res ev ms,
    invoke_agent req st = (res, mkState ms (trace st ++ ev))
    /\ run_outcome 0 res ev
    /\ calls_match true ev.
Proof.
  unfold invoke_agent, seed_session. unfold bind at 1 2 3. unfold add_message.
  cbn [messages trace]. unfold bind at 1.
  match goal with
  | |- context [while_loop req max_iterations 0 ?st1] =>
      destruct (while_loop_spec req max_iterations 0 st1
                  ltac:(lia) ltac:(lia))
        as [res [ev [extra [E [O M]]]]]
  end.
  cbn [messages trace] in E. rewrite E. destruct res as [x | e].
  - unfold bind, print, emit, ret. cbn [messages trace].
    eexists (Ok x), (ev ++ [_]), _. rewrite (app_assoc (trace st) ev).
    split; [reflexivity|]. split; [now apply run_outcome_print|].
    apply calls_match_app; [exact M|]. split; reflexivity.
  - eexists (Raise e), ev, _. split; [reflexivity|]. split; assumption.
Qed.

(** ** What a run raises *)

Lemma raised_by_app (e : exn) (a b : list event) :
  raised_by e b -> raised_by e (a ++ b).
Proof.
  intros [[ev' [c [r [-> A]]]] | [ev' [v [-> [N E]]]]]; [left | right].
  - exists (a ++ ev'), c, r. now rewrite app_assoc.
  - exists (a ++ ev'), v. now rewrite app_assoc.
Qed.

Lemma faulting_ret {A} (a : A) : faulting (ret a).
Proof.
  intros st N. exists (Ok a), [], (messages st). rewrite app_nil_r.
  destruct st. repeat split; [exact N|discriminate].
Qed.

Lemma faulting_bind {A B} (m : M A) (k : A -> M B) :
  faulting m -> (forall a, faulting (k a)) -> faulting (bind m k).
Proof.
  intros Hm Hk st N. destruct (Hm st N) as [res [ev [ms [E [N1 F]]]]].
  unfold bind. rewrite E. destruct res as [a | e].
  - destruct (Hk a (mkState ms (trace st ++ ev)) N1)
      as [res2 [ev2 [ms2 [E2 [N2 F2]]]]].
    cbn [messages trace] in E2. rewrite E2.
    exists res2, (ev ++ ev2), ms2. rewrite app_assoc.
    repeat split; [exact N2|]. intros e He. now apply raised_by_app, F2.
  - exists (Raise e), ev, ms. repeat split; [exact N1|].
    intros e' [= <-]. now apply F.
Qed.

Lemma faulting_emit (e : event) : faulting (emit e).
Proof.
  intros st N. exists (Ok tt), [e], (messages st).
  repeat split; [exact N|discriminate].
Qed.

Lemma faulting_print (line : string) : faulting (print line).
Proof. apply faulting_emit. Qed.

Lemma faulting_query (message : string) : faulting (query message).
Proof.
  intros st N. rewrite query_exact. eexists _, [_], _.
  split; [reflexivity|]. split.
  - intros Z. apply app_eq_nil in Z as [Z _]. apply app_eq_nil in Z as [Z _].
    contradiction.
  - intros e He. left. eexists [], _, _. split; [reflexivity|exact He].
Qed.

Lemma faulting_process (response : json) :
  faulting (process_agent_response response).
Proof.
  intros st N.
  destruct response as [| | | |s| |];
    try (rewrite process_not_text by discriminate;
         eexists _, [_], _; split; [reflexivity|]; split; [exact N|];
         intros e [= <-]; right; eexists [], _;
         repeat split; discriminate).
  destruct (Py.search_block "gdb-command" s) as [g|] eqn:H.
  - destruct (process_block_exact s g st H) as [tail [E [_ [_ [_ [T _]]]]]].
    cbn zeta in E. rewrite E. eexists _, _, _.
    split; [reflexivity|]. split.
    + intros Z. apply app_eq_nil in Z as [Z _].
      apply app_eq_nil in Z as [Z _]. contradiction.
    + intros e He. destruct (answer_of _) as [v | e'] eqn:A; [discriminate|].
      injection He as ->. rewrite (T e eq_refl). left.
      eexists (_ ++ _), _, _. rewrite <- app_assoc. split; [reflexivity|exact A].
  - destruct (process_without_commands s st H) as [tail [E _]].
    rewrite E. eexists _, _, _. split; [reflexivity|].
    split; [exact N|discriminate].
Qed.

Lemma faulting_next_response (req : string) (i : nat) :
  faulting (next_response req i).
Proof.
  unfold next_response. destruct (Nat.eqb i 1); [apply faulting_query|].
  intros st N. unfold last_message_text.
  destruct (rev (messages st)) as [|m ms] eqn:R.
  - apply (f_equal (@rev message)) in R. rewrite rev_involutive in R.
    contradiction.
  - exists (Ok (text m)), [], (messages st). rewrite app_nil_r.
    destruct st. repeat split; [exact N|discriminate].
Qed.

Lemma faulting_while_loop (req : string) (fuel : nat) :
  forall i, faulting (while_loop req fuel i).
Proof.
  induction fuel as [|fuel IH]; intros i; cbn [while_loop];
    destruct (Nat.ltb i max_iterations); try apply faulting_ret.
  apply faulting_bind.
  - unfold loop_body. apply faulting_bind; [apply faulting_print|].
    intros _. apply faulting_bind; [apply faulting_next_response|].
    intros r. apply faulting_process.
  - intros [|]; [apply faulting_ret|].
    apply faulting_bind; [|intros _; apply IH].
    unfold check_exhausted.
    destruct (Nat.leb max_iterations (S i));
      [apply faulting_print|apply faulting_ret].
Qed.

(** A run that returns ends with its closing line; a run that raises ends
    with the request or the response that made it raise. *)
Lemma invoke_agent_faults (req : string) (st : State) :
  exists res ev ms,
    invoke_agent req st = (res, mkState ms (trace st ++ ev))
    /\ (forall e, res = Raise e -> raised_by e ev)
    /\ (forall x, res = Ok x ->
                  exists ev', ev = ev' ++ [Print (Py.LF ++ "=== AI 에이전트 완료 ===")]).
Proof.
  unfold invoke_agent, seed_session. unfold bind at 1 2 3. unfold add_message.
  cbn [messages trace]. unfold bind at 1.
  match goal with
  | |- context [while_loop req max_iterations 0 ?st1] =>
      destruct (faulting_while_loop req max_iterations 0 st1
                  ltac:(discriminate))
        as [res [ev [ms [E [_ F]]]]]
  end.
  cbn [messages trace] in E. rewrite E. destruct res as [x | e].
  - unfold bind, print, emit, ret. cbn [messages trace].
    exists (Ok x), (ev ++ [Print (Py.LF ++ "=== AI 에이전트 완료 ===")]), ms.
    rewrite app_assoc. split; [reflexivity|]. split; [discriminate|].
    intros _ _. now exists ev.
  - exists (Raise e), ev, ms. split; [reflexivity|].
    split; [exact F|discriminate].
Qed.

Lemma raised_by_unique (e e' : exn) (ev : list event) :
  raised_by e ev -> raised_by e' ev -> e = e'.
Proof.
  intros [[a [c [r [-> A]]]] | [a [v [-> [N ->]]]]]
         [[a' [c' [r' [E A']]]] | [a' [v' [E [N' ->]]]]];
    apply app_inj_tail in E as [_ E]; try discriminate; [|reflexivity].
  injection E as _ <-. congruence.
Qed.

(** C1, amended.  Every run ends, with fuel to spare, in one of three ways:
    the loop is left by [break] right after the first response with a
    [complete] block, or by its condition after exactly 10 passes none of
    which saw a [complete] block and with the notice printed, or an
    exception ends it.  The run raises [e] exactly when its last event is
    a request whose answer makes [query] raise [e] (the request failed) or
    the processing of a response that is not text, which raises the
    [TypeError] of [re.search]; so a run all of whose requests are answered
    and all of whose responses are text raises nothing.  A run that raises
    nothing and in which no processed response has a [complete] block makes
    exactly 10 passes, prints the notice and leaves the loop by its
    condition. *)
Theorem agent_run_outcomes (user_request : string) (st : State) :
  let out := invoke_agent user_request st in
  let ev := new_events st (snd out) in
  run_outcome 0 (fst out) ev
  /\ (forall e, fst out = Raise e <-> raised_by e ev)
  /\ (Forall (fun p => exists v, answer_of (snd p) = Ok v) (posts ev) ->
      Forall (fun response => exists s, response = JStr s) (processed ev) ->
      exists how n, fst out = Ok (Some (how, n)))
  /\ ((exists x, fst out = Ok x) ->
      Forall lacks_complete (processed ev) ->
      fst out = Ok (Some (Exhausted, 10))
      /\ length (processed ev) = 10
      /\ In (Print (Py.LF ++ "최대 반복 횟수에 도달했습니다. 작업이 완료되지 않았을 수 있습니다."))
            ev).
Proof.
  cbn zeta.
  destruct (invoke_agent_spec user_request st) as [res [ev [ms [E [O _]]]]].
  destruct (invoke_agent_faults user_request st)
    as [res' [ev' [ms' [E' [F K]]]]].
  rewrite E in E'. injection E' as <- <- E'. apply app_inv_head in E'.
  subst ev'. rewrite E. cbn [fst snd]. rewrite new_events_app.
  assert (I : forall e, res = Raise e <-> raised_by e ev).
  { intros e. split; [apply F|]. intros R. destruct res as [x | e'].
    - destruct (K x eq_refl) as [a ->].
      destruct R as [[b [c [r [R _]]]] | [b [v [R _]]]];
        apply app_inj_tail in R as [_ R]; discriminate.
    - f_equal. exact (raised_by_unique e' e ev (F e' eq_refl) R). }
  split; [exact O|]. split; [exact I|]. split.
  - intros Hp Ht. destruct res as [[[how n]|] | e].
    + now exists how, n.
    + contradiction.
    + exfalso. destruct (F e eq_refl) as [[a [c [r [-> A]]]] | [a [v [-> [N _]]]]].
      * rewrite posts_app in Hp. apply Forall_app in Hp as [_ Hp].
        inversion Hp as [|? ? [v V] _]; subst. cbn [snd] in V. congruence.
      * rewrite processed_app in Ht. apply Forall_app in Ht as [_ Ht].
        inversion Ht as [|? ? [s' S] _]; subst. now destruct (N s').
  - intros [x ->] L. unfold run_outcome in O.
    destruct x as [[[|] n]|]; [| |contradiction].
    + destruct O as [_ [_ [rs [r [P [C _]]]]]]. rewrite P in L.
      apply Forall_app in L as [_ L]. inversion L as [|? ? L1 _]; subst.
      unfold lacks_complete in L1. congruence.
    + destruct O as [-> [L' [_ N]]]. cbn in L' |- *.
      repeat split; auto. apply N. unfold max_iterations. lia.
Qed.

Lemma block_commands_blank (g : string) :
  Py.all_space g = true -> block_commands g = [].
Proof.
  intros H. unfold block_commands. apply strip_nil_iff in H. rewrite H.
  reflexivity.
Qed.

Lemma handle_commands_spec (cmds : list string) :
  forall tr,
    let h := handle_commands tr cmds in
    length (snd h) = length cmds
    /\ map fst (gdb_calls (fst h)) = filter is_safe_command cmds
    /\ posts (fst h) = [] /\ processed (fst h) = [].
Proof.
  induction cmds as [|cmd rest IH]; intros tr; cbn zeta;
    [repeat split|].
  cbn [handle_commands filter]. destruct (is_safe_command cmd).
  - destruct (IH (tr ++ [Print ("실행: " ++ cmd);
                         GdbExecute cmd
                           (gdb_execute (tr ++ [Print ("실행: " ++ cmd)]) cmd);
                         Print (shown (gdb_execute
                                         (tr ++ [Print ("실행: " ++ cmd)])
                                         cmd))]))
      as [L [G [P Q]]].
    cbn [fst snd length]. rewrite gdb_calls_app, posts_app, processed_app.
    rewrite map_app, G, P, Q, L. repeat split.
  - destruct (IH (tr ++ [Print ("실행: " ++ cmd);
                         Print ("안전하지 않은 명령어입니다: " ++ cmd)]))
      as [L [G [P Q]]].
    cbn [fst snd length]. rewrite gdb_calls_app, posts_app, processed_app.
    rewrite map_app, G, P, Q, L. repeat split.
Qed.

(** The events a response with a [gdb-command] block adds to the log. *)
Lemma process_block_events (s g : string) (st : State) :
  Py.search_block "gdb-command" s = Some g ->
  let cmds := map Py.strip
                  (filter (fun line => negb (Py.all_space line))
                          (Py.split_on "010" g)) in
  let header := [Process (JStr s);
                 Print (Py.LF ++ "[AI 에이전트가 명령어 실행 중...]")] in
  let h := handle_commands (trace st ++ header) cmds in
  let prompt := ("명령어 실행 결과:" ++ Py.LF ++ Py.LF
                 ++ Py.join (Py.LF ++ Py.LF) (snd h))%string in
  let request := messages st ++ [Message "user" (JStr prompt)] in
  let r := http_post (trace st ++ header ++ fst h) request in
  let out := process_agent_response (JStr s) st in
  let ev := new_events st (snd out) in
  exists tail,
    ev = header ++ fst h ++ Post request r :: tail
    /\ fst out = match answer_of r with
                 | Ok _ => Ok (has_block "complete" (JStr s))
                 | Raise e => Raise e
                 end
    /\ messages (snd out) = request ++ reply_messages r
    /\ posts ev = [(request, r)]
    /\ processed ev = [JStr s]
    /\ map fst (gdb_calls ev) = filter is_safe_command cmds
    /\ gdb_calls tail = [] /\ posts tail = []
    /\ (forall e, answer_of r = Raise e -> tail = [])
    /\ (forall v c, answer_of r = Ok v ->
                    Py.search_block "complete" s = Some c ->
                    In (Print (Py.strip c)) tail).
Proof.
  intros H. cbn zeta.
  destruct (process_block_exact s g st H) as [tail [E [G [P [Q [T C]]]]]].
  cbn zeta in E. unfold spec_commands, kept_lines, feedback_prompt in E.
  rewrite E. cbn [fst snd messages]. rewrite new_events_app.
  exists tail. split; [reflexivity|]. split; [reflexivity|].
  split; [reflexivity|].
  match goal with
  | |- context [handle_commands ?tr ?cmds] =>
      destruct (handle_commands_spec cmds tr) as [_ [G' [P' Q']]]
  end.
  cbn zeta in G', P', Q'.
  rewrite !gdb_calls_app, !posts_app, !processed_app, !map_app.
  change (posts (Post ?c ?x :: tail)) with ((c, x) :: posts tail).
  change (gdb_calls (Post ?c ?x :: tail)) with (gdb_calls tail).
  change (processed (Post ?c ?x :: tail)) with (processed tail).
  rewrite G, G', P, P', Q, Q'.
  cbn [gdb_calls posts processed flat_map app map]. rewrite !app_nil_r.
  repeat split; auto.
Qed.

(** C9.  The commands of a [gdb-command] block are its lines (the pieces
    between line feeds) with the blank ones dropped and the others trimmed,
    in the order of the text: these are the commands the call handles, one
    after the other, right after the header, each with its record, the safe
    ones going to the debugger in that order; every command is non-empty
    and has no whitespace at either end.  A block with the three lines
    ["  info locals  "], [""] and [" bt"] makes the call handle the two
    commands ["info locals"] and ["bt"], in this order. *)
Theorem block_commands_spec :
  (forall (s g : string) (st : State),
      Py.search_block "gdb-command" s = Some g ->
      let lines := Py.split_on "010" g in
      let cmds := map Py.strip
                      (filter (fun line => negb (Py.all_space line)) lines) in
      let header := [Process (JStr s);
                     Print (Py.LF ++ "[AI 에이전트가 명령어 실행 중...]")] in
      let h := handle_commands (trace st ++ header) cmds in
      let ev := new_events st (snd (process_agent_response (JStr s) st)) in
      (exists request r tail,
          ev = header ++ fst h ++ Post request r :: tail
          /\ gdb_calls tail = [])
      /\ length (snd h) = length cmds
      /\ map fst (gdb_calls ev) = filter is_safe_command cmds
      /\ Forall (fun cmd => cmd <> "" /\ Py.strip cmd = cmd) cmds) /\
  (forall (st : State),
      let response :=
        ("run these: ```gdb-command" ++ Py.LF ++ "  info locals  " ++ Py.LF
         ++ Py.LF ++ " bt" ++ Py.LF ++ "``` then report")%string in
      let ev :=
        new_events st (snd (process_agent_response (JStr response) st)) in
      Py.search_block "gdb-command" response
      = Some ("  info locals  " ++ Py.LF ++ Py.LF ++ " bt" ++ Py.LF)%string
      /\ exists r1 r2 request r tail,
          ev = [Process (JStr response);
                Print (Py.LF ++ "[AI 에이전트가 명령어 실행 중...]");
                Print "실행: info locals"; GdbExecute "info locals" r1;
                Print (shown r1);
                Print "실행: bt"; GdbExecute "bt" r2; Print (shown r2);
                Post request r] ++ tail
          /\ gdb_calls tail = []).
Proof.
  split.
  - intros s g st H. cbn zeta.
    destruct (process_block_events s g st H)
      as [tail [E [_ [_ [_ [_ [G [G' _]]]]]]]].
    cbn zeta in E, G.
    split; [eexists _, _, tail; split; [exact E|exact G']|].
    split; [apply handle_commands_spec|]. split; [exact G|].
    apply Forall_forall. intros cmd I.
    apply (block_commands_trimmed g). rewrite block_commands_kept. exact I.
  - intros st. cbn zeta.
    assert (H : Py.search_block "gdb-command"
                  ("run these: ```gdb-command" ++ Py.LF ++ "  info locals  "
                   ++ Py.LF ++ Py.LF ++ " bt" ++ Py.LF ++ "``` then report")
                = Some ("  info locals  " ++ Py.LF ++ Py.LF ++ " bt"
                        ++ Py.LF)%string)
      by (vm_compute; reflexivity).
    split; [exact H|].
    destruct (process_block_events _ _ st H)
      as [tail [E [_ [_ [_ [_ [_ [G' _]]]]]]]].
    cbn zeta in E. rewrite E.
    assert (K : map Py.strip
                  (filter (fun line => negb (Py.all_space line))
                     (Py.split_on "010"
                        ("  info locals  " ++ Py.LF ++ Py.LF ++ " bt"
                         ++ Py.LF)))
                = ["info locals"; "bt"]) by (vm_compute; reflexivity).
    rewrite K.
    assert (S1 : is_safe_command "info locals" = true)
      by (vm_compute; reflexivity).
    assert (S2 : is_safe_command "bt" = true) by (vm_compute; reflexivity).
    cbn [handle_commands]. rewrite S1, S2. cbn [fst snd app].
    eexists _, _, _, _, tail. split; [reflexivity|exact G'].
Qed.

(** C6.  A response with a [gdb-command] block: the commands of the block
    (its lines that are not blank, trimmed) are taken in order and each is
    checked with the safety filter; a safe one is passed to the debugger
    and its record is the command with the debugger's answer, any other is
    not passed on and its record is the rejection text; the records joined
    by blank lines, after the results header, are sent to the model in one
    request, the only one of the call, after the commands; the call logs
    no other response, and what the request is answered decides between
    the completion signal and the exception.  In a run the final counter
    is the number of responses processed, whatever the number of
    requests. *)
Theorem command_block_feedback :
  (forall (s g : string) (st : State),
      Py.search_block "gdb-command" s = Some g ->
      let cmds := map Py.strip
                      (filter (fun line => negb (Py.all_space line))
                              (Py.split_on "010" g)) in
      let header := [Process (JStr s);
                     Print (Py.LF ++ "[AI 에이전트가 명령어 실행 중...]")] in
      let h := handle_commands (trace st ++ header) cmds in
      let prompt := ("명령어 실행 결과:" ++ Py.LF ++ Py.LF
                     ++ Py.join (Py.LF ++ Py.LF) (snd h))%string in
      let request := messages st ++ [Message "user" (JStr prompt)] in
      let r := http_post (trace st ++ header ++ fst h) request in
      let out := process_agent_response (JStr s) st in
      let ev := new_events st (snd out) in
      exists tail,
        ev = header ++ fst h ++ Post request r :: tail
        /\ length (snd h) = length cmds
        /\ map fst (gdb_calls ev) = filter is_safe_command cmds
        /\ posts ev = [(request, r)]
        /\ processed ev = [JStr s]
        /\ fst out = match answer_of r with
                     | Ok _ => Ok (has_block "complete" (JStr s))
                     | Raise e => Raise e
                     end) /\
  (forall (tr : list event) (cmd : string) (rest : list string),
      let h := handle_commands tr (cmd :: rest) in
      let said := Print ("실행: " ++ cmd) in
      if is_safe_command cmd then
        exists r events records,
          r = gdb_execute (tr ++ [said]) cmd
          /\ h = (said :: GdbExecute cmd r :: Print (shown r) :: events,
                  ("명령어: " ++ cmd ++ Py.LF ++ "결과:" ++ Py.LF
                   ++ shown r)%string :: records)
          /\ (shown r = match r with
                        | inl out => out
                        | inr err => ("명령어 실행 오류: " ++ err)%string
                        end)
      else
        exists events records,
          h = (said :: Print ("안전하지 않은 명령어입니다: " ++ cmd) :: events,
               ("안전하지 않은 명령어입니다: " ++ cmd)%string :: records)) /\
  (forall (user_request : string) (st : State) how n,
      let out := invoke_agent user_request st in
      fst out = Ok (Some (how, n)) ->
      n = length (processed (new_events st (snd out)))).
Proof.
  split; [|split].
  - intros s g st H. cbn zeta.
    destruct (process_block_events s g st H)
      as [tail [E [F [_ [P [Q [G _]]]]]]].
    cbn zeta in E, F, P, Q, G. exists tail.
    split; [exact E|]. split; [apply handle_commands_spec|].
    repeat split; assumption.
  - intros tr cmd rest. cbn zeta. cbn [handle_commands].
    destruct (is_safe_command cmd).
    + eexists _, _, _. split; [reflexivity|]. split; reflexivity.
    + eexists _, _. reflexivity.
  - intros req st how n. cbn zeta.
    destruct (invoke_agent_spec req st) as [res [ev [ms [E [O _]]]]].
    rewrite E. cbn [fst snd]. rewrite new_events_app. intros ->.
    unfold run_outcome in O. destruct how.
    + destruct O as [_ [L _]]. lia.
    + destruct O as [_ [L _]]. lia.
Qed.

(** C10.  A [gdb-command] block whose text is blank (only whitespace,
    line feeds included) has no command: nothing is passed to the debugger,
    and still one request is sent, whose prompt is the results header with
    an empty record section. *)
Theorem blank_block_feedback (s g : string) (st : State) :
  Py.search_block "gdb-command" s = Some g ->
  Py.all_space g = true ->
  let out := process_agent_response (JStr s) st in
  let ev := new_events st (snd out) in
  block_commands g = []
  /\ gdb_calls ev = []
  /\ map fst (posts ev)
     = [messages st
        ++ [Message "user" (JStr ("명령어 실행 결과:" ++ Py.LF ++ Py.LF))]]
  /\ processed ev = [JStr s].
Proof.
  intros H B. cbn zeta.
  destruct (process_with_commands s g st H)
    as [rets [ev [qres [tail [E [G [L [P [Q [G' [P' [Q' [T C]]]]]]]]]]]]].
  cbn zeta in E. rewrite E. cbn [snd]. rewrite <- app_assoc.
  rewrite new_events_app. cbn [app].
  rewrite (block_commands_blank g B) in *. cbn [filter combine records_of] in *.
  split; [reflexivity|].
  change (Process ?a :: Print ?b :: ev ++ ?c :: tail)
    with ([Process a; Print b] ++ ev ++ [c] ++ tail).
  rewrite !gdb_calls_app, !posts_app, !processed_app, G, G', P, P', Q, Q'.
  repeat split.
Qed.

(** ** The first pass and the later ones *)

Lemma has_block_text (tag : string) (r : json) :
  has_block tag r = true -> exists s, r = JStr s.
Proof. destruct r; try discriminate. eauto. Qed.

Lemma safe_commands_of_none (r : json) :
  has_block "gdb-command" r = false -> safe_commands_of r = [].
Proof.
  destruct r; try reflexivity. cbn.
  destruct (Py.search_block "gdb-command" s); [discriminate|reflexivity].
Qed.

Lemma invoke_agent_first_pass (req : string) (st : State) :
  invoke_agent req st
  = (r <- (done <- (v <- query req ;; process_agent_response v) ;;
           if done : bool then ret (Some (Completed, 1))
           else check_exhausted 1 ;;
                while_loop req (pred max_iterations) 1) ;;
     print (Py.LF ++ "=== AI 에이전트 완료 ===") ;;
     ret r)
      (mkState [Message "user" (JStr system_message);
                Message "model" (JStr ack_message)]
               (trace st ++ [Print (step_banner 1)])).
Proof. reflexivity. Qed.

(** The run up to the end of its first pass. *)
Lemma first_pass_exact (req : string) (st : State) :
  let c1 := [Message "user" (JStr system_message);
             Message "model" (JStr ack_message);
             Message "user" (JStr req)] in
  let tr1 := trace st ++ [Print (step_banner 1)] in
  let r1 := http_post tr1 c1 in
  let st2 := mkState (c1 ++ reply_messages r1) (tr1 ++ [Post c1 r1]) in
  match answer_of r1 with
  | Raise e => invoke_agent req st = (Raise e, st2)
  | Ok v =>
      match process_agent_response v st2 with
      | (Raise e, st3) => invoke_agent req st = (Raise e, st3)
      | (Ok true, st3) =>
          invoke_agent req st
          = (Ok (Some (Completed, 1)),
             mkState (messages st3)
                     (trace st3 ++ [Print (Py.LF ++ "=== AI 에이전트 완료 ===")]))
      | (Ok false, st3) =>
          exists res ev ms,
            invoke_agent req st = (res, mkState ms (trace st3 ++ ev))
      end
  end.
Proof.
  cbn zeta.
  set (c1 := [Message "user" (JStr system_message);
              Message "model" (JStr ack_message);
              Message "user" (JStr req)]).
  set (r1 := http_post (trace st ++ [Print (step_banner 1)]) c1).
  set (st2 := mkState (c1 ++ reply_messages r1)
                      ((trace st ++ [Print (step_banner 1)]) ++ [Post c1 r1])).
  set (rest := fun done : bool =>
                 x <- (if done then ret (Some (Completed, 1))
                       else check_exhausted 1 ;;
                            while_loop req (pred max_iterations) 1) ;;
                 print (Py.LF ++ "=== AI 에이전트 완료 ===") ;; ret x).
  assert (E0 : invoke_agent req st
               = match answer_of r1 with
                 | Ok v => (done <- process_agent_response v ;; rest done) st2
                 | Raise e => (Raise e, st2)
                 end).
  { rewrite invoke_agent_first_pass. unfold bind at 1 2 3.
    rewrite query_exact. cbn [messages trace].
    change ([Message "user" (JStr system_message);
             Message "model" (JStr ack_message)]
            ++ [Message "user" (JStr req)]) with c1.
    fold r1. fold st2.
    destruct (answer_of r1) as [v | e]; [|reflexivity].
    unfold rest, bind.
    destruct (process_agent_response v st2) as [[done | e] st3]; reflexivity. }
  destruct (answer_of r1) as [v | e]; [|exact E0].
  assert (N : messages st2 <> []) by (cbn; discriminate).
  destruct (faulting_process v st2 N) as [res [ev [ms [E [N3 _]]]]].
  assert (E1 : invoke_agent req st
               = match res with
                 | Ok done => rest done (mkState ms (trace st2 ++ ev))
                 | Raise e => (Raise e, mkState ms (trace st2 ++ ev))
                 end).
  { rewrite E0. unfold bind at 1. rewrite E. now destruct res. }
  rewrite E. destruct res as [[|] | e].
  - rewrite E1. reflexivity.
  - assert (F : faulting (rest false)).
    { apply faulting_bind.
      - apply faulting_bind; [|intros _; apply faulting_while_loop].
        unfold check_exhausted.
        destruct (Nat.leb max_iterations 1);
          [apply faulting_print|apply faulting_ret].
      - intros x. apply faulting_bind; [apply faulting_print|].
        intros _. apply faulting_ret. }
    destruct (F (mkState ms (trace st2 ++ ev)) N3)
      as [res2 [ev2 [ms2 [E2 _]]]].
    cbn [messages trace] in E2. exists res2, ev2, ms2.
    cbn [trace]. rewrite E1. exact E2.
  - exact E1.
Qed.

Lemma reply_messages_ok (r : http_result) (v : json) :
  answer_of r = Ok v -> reply_messages r = [Message "model" v].
Proof.
  intros A. unfold reply_messages. now rewrite answer_of_reply, A.
Qed.

(** C3, amended.  A run whose first response has a [complete] block
    processes that response only.  Without a [gdb-command] block in it, no
    debugger command is run, the first request is the only one and the loop
    is left by [break] with the counter at 1.  With a [gdb-command] block,
    the safe commands of the block are run and a second request carries
    the records, one per command; when that request is answered the loop
    is left by [break] with the counter at 1, and when it fails the run
    ends with the exception [query] raises for it. *)
Theorem first_response_complete (user_request : string) (st : State) :
  let out := invoke_agent user_request st in
  let ev := new_events st (snd out) in
  forall response,
    hd_error (processed ev) = Some response ->
    has_block "complete" response = true ->
    processed ev = [response]
    /\ (has_block "gdb-command" response = false ->
        fst out = Ok (Some (Completed, 1))
        /\ gdb_calls ev = [] /\ length (posts ev) = 1)
    /\ (forall s g,
           response = JStr s -> Py.search_block "gdb-command" s = Some g ->
           let cmds := map Py.strip
                           (filter (fun line => negb (Py.all_space line))
                                   (Py.split_on "010" g)) in
           exists c1 r1 records r2,
             let prompt := ("명령어 실행 결과:" ++ Py.LF ++ Py.LF
                            ++ Py.join (Py.LF ++ Py.LF) records)%string in
             posts ev
             = [(c1, r1);
                (c1 ++ [Message "model" response;
                        Message "user" (JStr prompt)], r2)]
             /\ answer_of r1 = Ok response
             /\ length records = length cmds
             /\ map fst (gdb_calls ev) = filter is_safe_command cmds
             /\ fst out = match answer_of r2 with
                          | Ok _ => Ok (Some (Completed, 1))
                          | Raise e => Raise e
                          end).
Proof.
  cbn zeta. intros response.
  pose proof (first_pass_exact user_request st) as F. cbn zeta in F.
  set (c1 := [Message "user" (JStr system_message);
              Message "model" (JStr ack_message);
              Message "user" (JStr user_request)]) in *.
  set (r1 := http_post (trace st ++ [Print (step_banner 1)]) c1) in *.
  destruct (answer_of r1) as [v | e] eqn:A1.
  2:{ rewrite F. cbn [fst snd]. rewrite <- app_assoc, new_events_app.
      discriminate. }
  rewrite (reply_messages_ok r1 v A1) in F.
  set (st2 := mkState (c1 ++ [Message "model" v])
                      ((trace st ++ [Print (step_banner 1)]) ++ [Post c1 r1]))
    in *.
  assert (T : forall res ms evp,
             invoke_agent user_request st
             = (res, mkState ms (trace st2 ++ Process v :: evp)) ->
             new_events st (snd (invoke_agent user_request st))
             = Print (step_banner 1) :: Post c1 r1 :: Process v :: evp).
  { intros res ms evp ->. cbn [snd]. unfold st2. cbn [trace].
    rewrite <- !app_assoc. now rewrite new_events_app. }
  destruct v as [| | | |s| |];
    try (rewrite process_not_text in F by discriminate;
         rewrite (T _ _ [] F); intros [= <-]; discriminate).
  destruct (Py.search_block "gdb-command" s) as [g|] eqn:G.
  - destruct (process_block_exact s g st2 G) as [tail [E [Gt [Pt [Qt [Tl _]]]]]].
    cbn zeta in E.
    match type of E with
    | context [handle_commands ?tr ?cmds] =>
        destruct (handle_commands_spec cmds tr) as [Lh [Gh [Ph Qh]]];
        set (h := handle_commands tr cmds) in *
    end.
    cbn zeta in Lh, Gh, Ph, Qh.
    set (request := messages st2 ++ [Message "user" (JStr (feedback_prompt (snd h)))]) in *.
    set (r2 := http_post _ request) in *.
    rewrite E in F.
    assert (EV : forall res ms rest,
               invoke_agent user_request st
               = (res, mkState ms
                         ((trace st2
                           ++ [Process (JStr s);
                               Print (Py.LF ++ "[AI 에이전트가 명령어 실행 중...]")]
                           ++ fst h ++ Post request r2 :: tail) ++ rest)) ->
               processed rest = [] -> posts rest = [] -> gdb_calls rest = [] ->
               let ev := new_events st (snd (invoke_agent user_request st)) in
               processed ev = [JStr s]
               /\ posts ev = [(c1, r1); (request, r2)]
               /\ map fst (gdb_calls ev)
                  = filter is_safe_command (spec_commands g)).
    { intros res ms rest I Qr Pr Gr. cbn zeta.
      rewrite <- !app_assoc in I. cbn [app] in I. rewrite (T _ _ _ I).
      change (Print ?a :: Post ?c ?x :: Process ?y :: Print ?b :: ?l)
        with ([Print a; Post c x; Process y; Print b] ++ l).
      rewrite !processed_app, !posts_app, !gdb_calls_app, !map_app.
      change (posts (Post ?c ?x :: ?l)) with ((c, x) :: posts l).
      change (gdb_calls (Post ?c ?x :: ?l)) with (gdb_calls l).
      change (processed (Post ?c ?x :: ?l)) with (processed l).
      rewrite !processed_app, !posts_app, !gdb_calls_app, !map_app.
      rewrite Qh, Ph, Gh, Qt, Pt, Gt, Qr, Pr, Gr.
      cbn [processed posts gdb_calls flat_map app map].
      rewrite !app_nil_r. repeat split. }
    destruct (answer_of r2) as [v2 | e2] eqn:A2.
    + destruct (has_block "complete" (JStr s)) eqn:C.
      * cbn [messages trace] in F.
        destruct (EV _ _ [Print (Py.LF ++ "=== AI 에이전트 완료 ===")] F
                    eq_refl eq_refl eq_refl) as [Q [P M]].
        intros Hr Hc. rewrite Q in Hr. injection Hr as <-.
        split; [exact Q|]. split.
        -- cbn. rewrite G. discriminate.
        -- intros s' g' [= <-] G'. rewrite G in G'. injection G' as <-.
           cbn zeta. exists c1, r1, (snd h), r2. rewrite P, M, A2, F.
           split; [|split; [exact A1|split; [exact Lh|split; reflexivity]]].
           unfold request, st2, feedback_prompt. cbn [messages].
           now rewrite <- app_assoc.
      * destruct F as [res [ev' [ms I]]].
        intros Hr Hc. exfalso.
        assert (Q : hd_error (processed (new_events st
                                (snd (invoke_agent user_request st))))
                    = Some (JStr s)).
        { cbn [messages trace] in I. rewrite <- !app_assoc in I.
          cbn [app] in I. now rewrite (T _ _ _ I). }
        rewrite Q in Hr. injection Hr as <-. congruence.
    + rewrite (Tl e2 eq_refl) in *.
      replace (trace st2
               ++ [Process (JStr s);
                   Print (Py.LF ++ "[AI 에이전트가 명령어 실행 중...]")]
               ++ fst h ++ [Post request r2])
        with ((trace st2
               ++ [Process (JStr s);
                   Print (Py.LF ++ "[AI 에이전트가 명령어 실행 중...]")]
               ++ fst h ++ [Post request r2]) ++ []) in F
        by apply app_nil_r.
      destruct (EV _ _ [] F eq_refl eq_refl eq_refl) as [Q [P M]].
      intros Hr Hc. rewrite Q in Hr. injection Hr as <-.
      split; [exact Q|]. split.
      * cbn. rewrite G. discriminate.
      * intros s' g' [= <-] G'. rewrite G in G'. injection G' as <-.
        cbn zeta. exists c1, r1, (snd h), r2. rewrite P, M, A2, F.
        split; [|split; [exact A1|split; [exact Lh|split; reflexivity]]].
        unfold request, st2, feedback_prompt. cbn [messages].
        now rewrite <- app_assoc.
  - destruct (process_without_commands s st2 G) as [tail [E [Gt [Pt Qt]]]].
    rewrite E in F. destruct (has_block "complete" (JStr s)) eqn:C.
    + assert (I : new_events st (snd (invoke_agent user_request st))
                  = [Print (step_banner 1); Post c1 r1; Process (JStr s)]
                    ++ tail ++ [Print (Py.LF ++ "=== AI 에이전트 완료 ===")]).
      { rewrite F. cbn [snd messages trace]. unfold st2. cbn [trace].
        rewrite <- !app_assoc. now rewrite new_events_app. }
      rewrite I, F.
      rewrite !processed_app, !posts_app, !gdb_calls_app, Gt, Pt, Qt.
      cbn [processed posts gdb_calls flat_map app hd_error length fst].
      intros [= <-] _. split; [reflexivity|]. split; [auto|].
      intros s' g' [= <-] G'. congruence.
    + destruct F as [res [ev' [ms I]]]. intros Hr Hc. exfalso.
      cbn [messages trace] in I. rewrite <- !app_assoc in I. cbn [app] in I.
      rewrite (T _ _ _ I) in Hr. cbn in Hr. injection Hr as <-. congruence.
Qed.

(** C4.  A response with both a [gdb-command] block and a [complete] block:
    the call handles the commands of the block, then sends the one request
    that carries their records; when that request is answered the call
    prints the conclusion, after the request, and returns the completion
    signal, and when it fails the call ends with the exception [query]
    raises for it, nothing printed.  In the loop, the pass that processes
    such a response is the last one: the loop ends in the very state the
    call leaves, by [break] with the counter of that pass when the request
    was answered, with the exception otherwise. *)
Theorem commands_then_complete (s g c : string) :
  Py.search_block "gdb-command" s = Some g ->
  Py.search_block "complete" s = Some c ->
  let cmds := map Py.strip
                  (filter (fun line => negb (Py.all_space line))
                          (Py.split_on "010" g)) in
  let header := [Process (JStr s);
                 Print (Py.LF ++ "[AI 에이전트가 명령어 실행 중...]")] in
  let records := fun st => snd (handle_commands (trace st ++ header) cmds) in
  let handled := fun st => fst (handle_commands (trace st ++ header) cmds) in
  let request := fun st =>
    messages st
    ++ [Message "user"
          (JStr ("명령어 실행 결과:" ++ Py.LF ++ Py.LF
                 ++ Py.join (Py.LF ++ Py.LF) (records st)))] in
  let answer := fun st =>
    http_post (trace st ++ header ++ handled st) (request st) in
  (forall st,
      let out := process_agent_response (JStr s) st in
      let ev := new_events st (snd out) in
      exists tail,
        ev = header ++ handled st ++ Post (request st) (answer st) :: tail
        /\ map fst (gdb_calls (handled st)) = filter is_safe_command cmds
        /\ posts (handled st) = [] /\ gdb_calls tail = [] /\ posts tail = []
        /\ match answer_of (answer st) with
           | Ok _ => fst out = Ok true /\ In (Print (Py.strip c)) tail
           | Raise e => fst out = Raise e /\ tail = []
           end) /\
  (forall req fuel i st st1,
      i < max_iterations ->
      next_response req (S i)
        (mkState (messages st) (trace st ++ [Print (step_banner (S i))]))
      = (Ok (JStr s), st1) ->
      while_loop req (S fuel) i st
      = (match answer_of (answer st1) with
         | Ok _ => Ok (Some (Completed, S i))
         | Raise e => Raise e
         end, snd (process_agent_response (JStr s) st1))).
Proof.
  intros Hg Hc. cbn zeta.
  assert (K : has_block "complete" (JStr s) = true)
    by (cbn; now rewrite Hc).
  split.
  - intros st.
    destruct (process_block_events s g st Hg)
      as [tail [E [F [_ [_ [_ [_ [Gt [Pt [Tl C]]]]]]]]]].
    cbn zeta in E, F, Tl, C. exists tail. split; [exact E|].
    match goal with
    | |- context [handle_commands ?tr ?cmds] =>
        destruct (handle_commands_spec cmds tr) as [_ [Gh [Ph _]]]
    end.
    cbn zeta in Gh, Ph. split; [exact Gh|]. split; [exact Ph|].
    split; [exact Gt|]. split; [exact Pt|]. rewrite F.
    destruct (answer_of _) as [v | e] eqn:A.
    + split; [now rewrite K|]. exact (C v c eq_refl Hc).
    + split; [reflexivity|]. exact (Tl e eq_refl).
  - intros req fuel i st st1 Hi N.
    rewrite while_loop_step by assumption.
    unfold bind at 1. unfold loop_body. unfold bind at 1. unfold print, emit.
    cbn [messages trace]. unfold bind at 1. rewrite N.
    destruct (process_block_events s g st1 Hg) as [tail [_ [F _]]].
    cbn zeta in F.
    destruct (process_agent_response (JStr s) st1) as [res st2].
    cbn [fst snd] in *. subst res. rewrite K.
    now destruct (answer_of _).
Qed.

(** The relation [at_loop_head] follows the run: from a state of the
    relation the run goes on with the rest of the loop, and from the second
    pass on the history is not empty. *)
Lemma at_loop_head_run (req : string) (st0 : State) (i : nat) (st : State) :
  at_loop_head req st0 i st ->
  (1 <= i -> messages st <> [])
  /\ invoke_agent req st0
     = (r <- while_loop req (max_iterations - i) i ;;
        print (Py.LF ++ "=== AI 에이전트 완료 ===") ;;
        ret r) st.
Proof.
  induction 1 as [|i st st1 st2 H [IH1 IH2] Hi B C].
  - split; [lia|reflexivity].
  - destruct (loop_body_spec req (S i) st ltac:(intros; apply IH1; lia))
      as [res [ev [extra [E [_ [N _]]]]]].
    rewrite B in E. injection E as <- ->.
    destruct (N false eq_refl) as [_ NE].
    destruct (check_exhausted_spec (S i)
                (mkState (messages st ++ extra)
                         (trace st ++ Print (step_banner (S i)) :: ev)))
      as [ev1 [E1 _]].
    rewrite C in E1. injection E1 as ->. split; [intros _; exact NE|].
    rewrite IH2. unfold bind at 1 3.
    replace (max_iterations - i) with (S (max_iterations - S i)) by lia.
    rewrite while_loop_step by assumption. unfold bind at 1.
    rewrite B. unfold bind at 1. now rewrite C.
Qed.

(** C7.  In a run, at the head of every pass after the first the history
    has a last message, the response of the pass is the text of that
    message, obtained without a request and without any change of state,
    and the pass is the banner followed by the processing of that text.
    Over a whole run the requests are the one of the first pass and one per
    processed response with a [gdb-command] block. *)
Theorem later_passes_reuse_history :
  (forall (user_request : string) (st0 : State) (i : nat) (st : State),
      at_loop_head user_request st0 i st ->
      1 <= i ->
      let st1 :=
        mkState (messages st) (trace st ++ [Print (step_banner (S i))]) in
      exists ms m,
        messages st = ms ++ [m]
        /\ next_response user_request (S i) st1 = (Ok (text m), st1)
        /\ loop_body user_request (S i) st
           = process_agent_response (text m) st1) /\
  (forall (user_request : string) (st : State),
      let ev := new_events st (snd (invoke_agent user_request st)) in
      length (posts ev)
      = 1 + length (filter (has_block "gdb-command") (processed ev))).
Proof.
  split.
  - intros req st0 i st H Hi. cbn zeta.
    destruct (at_loop_head_run req st0 i st H) as [NE _].
    specialize (NE Hi).
    destruct (exists_last NE) as [ms [m E]]. exists ms, m.
    assert (N : forall tr,
               next_response req (S i) (mkState (messages st) tr)
               = (Ok (text m), mkState (messages st) tr)).
    { intros tr. unfold next_response.
      destruct (Nat.eqb_spec (S i) 1) as [Z | _]; [lia|].
      unfold last_message_text. cbn [messages]. rewrite E, rev_app_distr.
      reflexivity. }
    split; [exact E|]. split; [apply N|].
    unfold loop_body. unfold bind at 1. unfold print, emit.
    cbn [messages trace]. unfold bind. now rewrite N.
  - intros req st. cbn zeta.
    destruct (invoke_agent_spec req st) as [res [ev [ms [E [_ [_ M]]]]]].
    rewrite E. cbn [snd]. rewrite new_events_app. exact M.
Qed.

(** * Further properties of the code *)

(** ** Texts: characters, occurrences, joins *)

Open Scope string_scope.

Lemma len_app (a b : string) : Py.len (a ++ b) = Py.len a + Py.len b.
Proof.
  induction a as [|c a IH]; simpl; [reflexivity|]. rewrite IH. lia.
Qed.

Lemma len_take (n : nat) (s : string) :
  Py.len (Py.take n s) = Nat.min n (Py.len s).
Proof.
  revert n. induction s as [|c s IH]; intros n; simpl.
  - now rewrite Nat.min_0_r.
  - destruct (Py.is_continuation c) eqn:C; simpl; rewrite ?C.
    + apply IH.
    + destruct n as [|n]; simpl; rewrite ?C; [reflexivity|]. now rewrite IH.
Qed.

Lemma take_prefix (n : nat) (s : string) :
  exists rest, s = Py.take n s ++ rest.
Proof.
  revert n. induction s as [|c s IH]; intros n; simpl.
  - now exists "".
  - destruct (Py.is_continuation c).
    + destruct (IH n) as [rest E]. exists rest. simpl. now rewrite <- E.
    + destruct n as [|n]; [now exists (String c s)|].
      destruct (IH n) as [rest E]. exists rest. simpl. now rewrite <- E.
Qed.

Lemma includes_refl (s : string) : Py.includes s s.
Proof. exists "", "". simpl. now rewrite append_nil_r. Qed.

Lemma includes_app_l (p a s : string) :
  Py.includes p s -> Py.includes p (a ++ s).
Proof.
  intros [x [y ->]]. exists (a ++ x), y. now rewrite append_assoc.
Qed.

Lemma includes_app_r (p s b : string) :
  Py.includes p s -> Py.includes p (s ++ b).
Proof.
  intros [x [y ->]]. exists x, (y ++ b). now rewrite !append_assoc.
Qed.

Lemma includes_trans (p q s : string) :
  Py.includes p q -> Py.includes q s -> Py.includes p s.
Proof.
  intros [x [y ->]] [u [v ->]]. exists (u ++ x), (y ++ v).
  now rewrite !append_assoc.
Qed.

Lemma includes_join (sep x : string) (l : list string) :
  In x l -> Py.includes x (Py.join sep l).
Proof.
  induction l as [|y l IH]; [contradiction|].
  intros [-> | H].
  - destruct l; simpl; [apply includes_refl|].
    apply includes_app_r, includes_refl.
  - destruct l as [|z l]; [contradiction|].
    change (Py.join sep (y :: z :: l)) with (y ++ sep ++ Py.join sep (z :: l)).
    now apply includes_app_l, includes_app_l, IH.
Qed.

Lemma join_nil_iff (sep : string) (l : list string) :
  (forall x, In x l -> x <> "") -> (Py.join sep l = "" <-> l = []).
Proof.
  intros N. split; [|now intros ->].
  destruct l as [|x l]; [reflexivity|]. intros E. exfalso.
  apply (N x (or_introl eq_refl)).
  destruct l; simpl in E; [exact E|].
  destruct x; [reflexivity|discriminate].
Qed.

Open Scope list_scope.

(** ** GDBContextExtractor.get_function_info *)

(** The function list is never longer than 2000 characters plus the 13 of
    the ellipsis when the debugger answers: a short output is returned as it
    is, a longer one is cut to its first 2000 characters, which are a prefix
    of it, and marked.  A [gdb.error] is returned as a text; nothing is
    raised, the history is untouched and the one call is logged. *)
Theorem function_info_is_bounded (st : State) :
  let r := gdb_execute (trace st) "info functions" in
  exists text,
    get_function_info st
    = (Ok text,
       mkState (messages st) (trace st ++ [GdbExecute "info functions" r]))
    /\ match r with
       | inl out =>
           Py.len text <= 2013
           /\ (Py.len out <= 2000 -> text = out)
           /\ (2000 < Py.len out ->
               text = (Py.take 2000 out ++ "...(이하 생략)...")%string
               /\ Py.len text = 2013
               /\ exists rest, out = (Py.take 2000 out ++ rest)%string)
       | inr e => text = ("함수 정보를 가져올 수 없습니다: " ++ e)%string
       end.
Proof.
  cbn zeta. unfold get_function_info, bind, gdb_call, ret.
  cbn [messages trace]. eexists. split; [reflexivity|].
  destruct (gdb_execute (trace st) "info functions") as [out | e];
    [|reflexivity].
  unfold function_info_limit, function_info_ellipsis.
  destruct (Nat.ltb_spec 2000 (Py.len out)) as [L | L].
  - assert (E : Py.len (Py.take 2000 out ++ "...(이하 생략)...")%string = 2013).
    { rewrite len_app, len_take, Nat.min_l by lia. reflexivity. }
    split; [lia|]. split; [lia|]. intros _.
    split; [reflexivity|]. split; [exact E|]. apply take_prefix.
  - split; [lia|]. split; [reflexivity|]. lia.
Qed.

(** ** The context text *)

Lemma section_text_not_nil (part : string * string) : section_text part <> ""%string.
Proof. discriminate. Qed.

Lemma format_context_includes (parts : list (string * string))
      (title content : string) :
  In (title, content) parts -> content <> ""%string ->
  Py.includes (section_text (title, content)) (format_context parts).
Proof.
  intros H N. unfold format_context. apply includes_join.
  apply in_map, filter_In. split; [exact H|].
  cbn [snd]. now apply negb_true_iff, String.eqb_neq.
Qed.

(** Every part with a content appears in the context with its header, in a
    text that is not empty; a part without content leaves no trace; and the
    context is empty exactly when no part has a content. *)
Theorem format_context_keeps_contents :
  (forall parts title content,
      In (title, content) parts -> content <> ""%string ->
      Py.includes
        ("=== " ++ title ++ " ===" ++ Py.LF ++ content)%string
        (format_context parts)) /\
  (forall before title after,
      format_context (before ++ (title, ""%string) :: after)
      = format_context (before ++ after)) /\
  (forall parts,
      format_context parts = ""%string
      <-> forall part, In part parts -> snd part = ""%string).
Proof.
  split; [|split].
  - intros parts title content H N.
    change ("=== " ++ title ++ " ===" ++ Py.LF ++ content)%string
      with (section_text (title, content)).
    now apply format_context_includes.
  - intros before title after. unfold format_context.
    now rewrite !filter_app.
  - intros parts. unfold format_context.
    rewrite join_nil_iff.
    2:{ intros x H. apply in_map_iff in H as [p [<- _]].
        apply section_text_not_nil. }
    split.
    + intros E part H. apply map_eq_nil in E.
      destruct (String.eqb_spec (snd part) "") as [Z | Z]; [exact Z|].
      assert (I : In part (filter (fun p => negb (String.eqb (snd p) ""))
                             parts)).
      { apply filter_In. split; [exact H|].
        now apply negb_true_iff, String.eqb_neq. }
      rewrite E in I. contradiction.
    + intros A. induction parts as [|p parts IH]; [reflexivity|].
      cbn [filter]. rewrite (A p (or_introl eq_refl)). cbn [String.eqb negb].
      apply IH. intros q H. apply A. now right.
Qed.

(** ** The conversation of a run *)

Lemma conversation_app (h h1 h2 : list message)
      (ps1 ps2 : list (list message * http_result)) :
  conversation h ps1 h1 -> conversation h1 ps2 h2 ->
  conversation h (ps1 ++ ps2) h2.
Proof.
  revert h. induction ps1 as [|[c r] ps1 IH]; intros h H1 H2.
  - cbn in H1. now subst.
  - cbn in H1 |- *. destruct H1 as [P H1]. split; [exact P|].
    now apply IH.
Qed.

(** What a request leaves in the history is decided by its answer. *)
Lemma query_reply (message : string) (st : State) :
  let c := messages st ++ [Message "user" (JStr message)] in
  let r := http_post (trace st) c in
  exists res,
    query message st
    = (res, mkState (c ++ reply_messages r) (trace st ++ [Post c r]))
    /\ match reply_of r with
       | Some v => res = Ok v
       | None => exists e, res = Raise e
       end.
Proof.
  cbn zeta. run_query. unfold reply_messages, reply_of.
  destruct (http_post (trace st)
              (messages st ++ [Message "user" (JStr message)]))
    as [e | code body [result | e]].
  - eexists. rewrite app_nil_r. split; [reflexivity|eauto].
  - destruct (code =? 200)%Z; cbn [negb].
    + destruct (response_text result) as [v | e].
      * eexists. split; reflexivity.
      * destruct (is_lookup_error e); eexists; rewrite app_nil_r;
          (split; [reflexivity|eauto]).
    + eexists. rewrite app_nil_r. split; [reflexivity|eauto].
  - destruct (code =? 200)%Z; cbn [negb];
      eexists; rewrite app_nil_r; (split; [reflexivity|eauto]).
Qed.

Lemma conversing_ret {A} (a : A) : conversing (ret a).
Proof.
  intros st. exists (Ok a), [], (messages st). destruct st.
  cbn. rewrite app_nil_r. split; reflexivity.
Qed.

Lemma conversing_raise {A} (e : exn) : conversing (@raise A e).
Proof.
  intros st. exists (Raise e), [], (messages st). destruct st.
  cbn. rewrite app_nil_r. split; reflexivity.
Qed.

Lemma conversing_bind {A B} (m : M A) (k : A -> M B) :
  conversing m -> (forall a, conversing (k a)) -> conversing (bind m k).
Proof.
  intros Hm Hk st. destruct (Hm st) as [res [ev [ms [E C]]]].
  unfold bind. rewrite E. destruct res as [a | e].
  - destruct (Hk a (mkState ms (trace st ++ ev))) as [res2 [ev2 [ms2 [E2 C2]]]].
    cbn [messages trace] in E2, C2. rewrite E2.
    exists res2, (ev ++ ev2), ms2. rewrite app_assoc.
    split; [reflexivity|]. rewrite posts_app.
    eapply conversation_app; eassumption.
  - exists (Raise e), ev, ms. split; [reflexivity|exact C].
Qed.

Lemma conversing_emit (e : event) :
  posts [e] = [] -> conversing (emit e).
Proof.
  intros P st. exists (Ok tt), [e], (messages st).
  split; [reflexivity|]. rewrite P. reflexivity.
Qed.

Lemma conversing_print (line : string) : conversing (print line).
Proof. now apply conversing_emit. Qed.

Lemma conversing_query (message : string) : conversing (query message).
Proof.
  intros st. destruct (query_reply message st) as [res [E _]].
  cbn zeta in E. eexists res, [_], _. split; [exact E|].
  cbn. split; [eauto|reflexivity].
Qed.

Lemma conversing_gdb_call (command : string) : conversing (gdb_call command).
Proof.
  intros st. eexists (Ok _), [_], (messages st).
  split; [reflexivity|]. reflexivity.
Qed.

Lemma conversing_execute_command (command : string) :
  conversing (execute_command command).
Proof.
  intros st. eexists (Ok _), [_], (messages st).
  split; [reflexivity|]. reflexivity.
Qed.

Lemma conversing_run_commands (commands : list string) :
  forall results, conversing (run_commands commands results).
Proof.
  induction commands as [|cmd rest IH]; intros results;
    [apply conversing_ret|].
  cbn [run_commands]. destruct (String.eqb (Py.strip cmd) ""); [apply IH|].
  apply conversing_bind; [apply conversing_print|]. intros _.
  destruct (is_safe_command (Py.strip cmd)).
  - apply conversing_bind; [apply conversing_execute_command|]. intros r.
    apply conversing_bind; [apply conversing_print|]. intros _. apply IH.
  - apply conversing_bind; [apply conversing_print|]. intros _. apply IH.
Qed.

Lemma conversing_process (r : json) : conversing (process_agent_response r).
Proof.
  unfold process_agent_response.
  apply conversing_bind; [now apply conversing_emit|]. intros _.
  destruct r; try apply conversing_raise.
  apply conversing_bind.
  - unfold execute_block.
    destruct (Py.search_block "gdb-command" s); [|apply conversing_ret].
    apply conversing_bind; [apply conversing_print|]. intros _.
    apply conversing_bind; [apply conversing_run_commands|]. intros results.
    apply conversing_bind; [apply conversing_query|]. intros _.
    apply conversing_ret.
  - intros _. unfold report_blocks.
    repeat (apply conversing_bind; [|intros _]);
      repeat match goal with
             | |- conversing (match ?x with _ => _ end) => destruct x
             | |- _ => first [ apply conversing_print | apply conversing_ret
                             | apply conversing_bind; [|intros _] ]
             end.
Qed.

Lemma conversing_next_response (req : string) (i : nat) :
  conversing (next_response req i).
Proof.
  unfold next_response. destruct (Nat.eqb i 1); [apply conversing_query|].
  intros st. unfold last_message_text.
  destruct (rev (messages st)); eexists _, [], (messages st);
    destruct st; cbn; rewrite app_nil_r; split; reflexivity.
Qed.

Lemma conversing_while_loop (req : string) (fuel : nat) :
  forall i, conversing (while_loop req fuel i).
Proof.
  induction fuel as [|fuel IH]; intros i; cbn [while_loop];
    destruct (Nat.ltb i max_iterations); try apply conversing_ret.
  apply conversing_bind.
  - unfold loop_body.
    apply conversing_bind; [apply conversing_print|]. intros _.
    apply conversing_bind; [apply conversing_next_response|]. intros r.
    apply conversing_process.
  - intros [|]; [apply conversing_ret|].
    apply conversing_bind; [|intros _; apply IH].
    unfold check_exhausted.
    destruct (Nat.leb max_iterations (S i));
      [apply conversing_print|apply conversing_ret].
Qed.

(** The run up to the first request. *)
(** A run up to its first request and from there on. *)
Lemma invoke_agent_after_first_request (user_request : string) (st : State) :
  let c := [Message "user" (JStr system_message);
            Message "model" (JStr ack_message);
            Message "user" (JStr user_request)] in
  let r := http_post (trace st ++ [Print (step_banner 1)]) c in
  exists res ev ms,
    invoke_agent user_request st
    = (res, mkState ms (trace st ++ Print (step_banner 1) :: Post c r :: ev))
    /\ conversation (c ++ reply_messages r) (posts ev) ms.
Proof.
  cbn zeta.
  set (K := fun done : bool =>
              if done then ret (Some (Completed, 1))
              else check_exhausted 1 ;;
                   while_loop user_request (pred max_iterations) 1).
  set (F := fun v =>
              r <- (done <- process_agent_response v ;; K done) ;;
              print (Py.LF ++ "=== AI 에이전트 완료 ===") ;; ret r).
  assert (HF : forall v, conversing (F v)).
  { intros v. unfold F.
    apply conversing_bind.
    - apply conversing_bind; [apply conversing_process|].
      intros [|]; unfold K; [apply conversing_ret|].
      apply conversing_bind; [|intros _; apply conversing_while_loop].
      unfold check_exhausted.
      destruct (Nat.leb max_iterations 1);
        [apply conversing_print|apply conversing_ret].
    - intros r. apply conversing_bind; [apply conversing_print|].
      intros _. apply conversing_ret. }
  set (st1 := mkState [Message "user" (JStr system_message);
                       Message "model" (JStr ack_message)]
                      (trace st ++ [Print (step_banner 1)])).
  assert (E : invoke_agent user_request st
              = (v <- query user_request ;; F v) st1).
  { rewrite invoke_agent_first_pass. fold st1. unfold F, K, bind.
    destruct (query user_request st1) as [[v | e] s]; reflexivity. }
  destruct (query_reply user_request st1) as [q [Q _]].
  cbn zeta in Q. subst st1. cbn [messages trace] in *.
  change ([Message "user" (JStr system_message);
           Message "model" (JStr ack_message)]
          ++ [Message "user" (JStr user_request)])
    with [Message "user" (JStr system_message);
          Message "model" (JStr ack_message);
          Message "user" (JStr user_request)] in Q.
  set (c := [_; _; _]) in *. set (r := http_post _ c) in *.
  rewrite E. unfold bind at 1. rewrite Q. destruct q as [v | e].
  - destruct (HF v (mkState (c ++ reply_messages r)
                            ((trace st ++ [Print (step_banner 1)])
                             ++ [Post c r])))
      as [res [ev [ms [E2 C2]]]].
    cbn [messages trace] in E2, C2. rewrite E2.
    exists res, ev, ms. rewrite <- !app_assoc. split; [reflexivity|exact C2].
  - exists (Raise e), [], (c ++ reply_messages r).
    rewrite <- !app_assoc. split; reflexivity.
Qed.

(** Within a run the history is append-only and every request carries all
    of it: from the two seeded messages, each request is the history before
    it with one prompt appended, and leaves that history with the model's
    answer appended when there is one; the history at the end of the run is
    the one the last request leaves.  The first request is the instruction,
    its acknowledgement and the user's request. *)
Theorem run_is_one_conversation (user_request : string) (st : State) :
  let out := invoke_agent user_request st in
  let ev := new_events st (snd out) in
  let seed := [Message "user" (JStr system_message);
               Message "model" (JStr ack_message)] in
  conversation seed (posts ev) (messages (snd out))
  /\ exists r rest,
      posts ev = (seed ++ [Message "user" (JStr user_request)], r) :: rest.
Proof.
  cbn zeta.
  destruct (invoke_agent_after_first_request user_request st)
    as [res [ev [ms [G C]]]].
  cbn zeta in G, C. rewrite G. cbn [snd messages]. rewrite new_events_app.
  change (posts (Print (step_banner 1) :: Post ?c ?r :: ev))
    with ((c, r) :: posts ev).
  split; [|eexists _, (posts ev); reflexivity].
  split; [exists user_request; reflexivity|exact C].
Qed.

(** ** What reaches the debugger, and how much is sent *)

Lemma contains_char_app (c : ascii) (a b : string) :
  Py.contains_char c (a ++ b)%string
  = Py.contains_char c a || Py.contains_char c b.
Proof.
  induction a as [|d a IH]; simpl; [reflexivity|].
  now rewrite IH, orb_assoc.
Qed.

Lemma split_on_pieces (sep : ascii) (s x : string) :
  In x (Py.split_on sep s) -> Py.contains_char sep x = false.
Proof.
  revert x. induction s as [|d s IH]; intros x H.
  - destruct H as [<- | []]. reflexivity.
  - rewrite split_on_cons in H. destruct (Ascii.eqb d sep) eqn:E.
    + destruct H as [<- | H]; [reflexivity|now apply IH].
    + destruct (Py.split_on sep s) as [|p ps]; cbn [Py.prepend] in H.
      * destruct H as [<- | []]. simpl. now rewrite E.
      * destruct H as [<- | H]; [|apply IH; now right].
        simpl. rewrite E. apply IH. now left.
Qed.

Lemma strip_contains_char (c : ascii) (s : string) :
  Py.contains_char c s = false -> Py.contains_char c (Py.strip s) = false.
Proof.
  destruct (strip_split s) as [w1 [w2 [_ [_ E]]]]. intros H.
  rewrite E, !contains_char_app in H.
  apply orb_false_iff in H as [_ H]. now apply orb_false_iff in H as [H _].
Qed.

Lemma block_commands_single_line (g cmd : string) :
  In cmd (block_commands g) -> Py.contains_char "010" cmd = false.
Proof.
  unfold block_commands. intros H. apply filter_In in H as [H _].
  apply in_map_iff in H as [x [<- H]].
  now apply strip_contains_char, (split_on_pieces _ _ _ H).
Qed.

(** A run, however it ends, processes at most [max_iterations] responses
    and sends at most one request more than that. *)
Theorem run_is_bounded (user_request : string) (st : State) :
  let ev := new_events st (snd (invoke_agent user_request st)) in
  length (processed ev) <= max_iterations
  /\ length (posts ev) <= S max_iterations
  /\ 1 <= length (posts ev).
Proof.
  cbn zeta.
  destruct (invoke_agent_spec user_request st) as [res [ev [ms [E [O [_ P]]]]]].
  rewrite E. cbn [snd]. rewrite new_events_app.
  assert (L : length (processed ev) <= max_iterations).
  { unfold run_outcome in O. destruct res as [[[[|] n]|] | e].
    - destruct O as [[_ N] [L _]]. lia.
    - destruct O as [-> [L _]]. cbn in L. unfold max_iterations. lia.
    - contradiction.
    - destruct O as [L _]. lia. }
  pose proof (filter_length_le (has_block "gdb-command") (processed ev)).
  lia.
Qed.

(** The loop on a history whose last message is a text without
    [gdb-command] and [complete] blocks: every remaining pass processes that
    same text, nothing is sent or run, and the history stays as it is. *)
Lemma while_loop_stuck (req s : string) :
  Py.search_block "gdb-command" s = None ->
  Py.search_block "complete" s = None ->
  forall fuel i st,
    1 <= i -> max_iterations - i <= fuel ->
    (exists ms rl, messages st = ms ++ [Message rl (JStr s)]) ->
    exists ev,
      while_loop req fuel i st
      = (Ok (Some (Exhausted, Nat.max i max_iterations)),
         mkState (messages st) (trace st ++ ev))
      /\ processed ev = repeat (JStr s) (max_iterations - i)
      /\ posts ev = [] /\ gdb_calls ev = [].
Proof.
  intros Hg Hc.
  assert (Stop : forall fuel i st,
             max_iterations <= i ->
             exists ev,
               while_loop req fuel i st
               = (Ok (Some (Exhausted, Nat.max i max_iterations)),
                  mkState (messages st) (trace st ++ ev))
               /\ processed ev = repeat (JStr s) (max_iterations - i)
               /\ posts ev = [] /\ gdb_calls ev = []).
  { intros fuel i st Hi. exists []. rewrite while_loop_done by lia.
    rewrite Nat.max_l by lia. destruct st. cbn [messages trace].
    rewrite app_nil_r. replace (max_iterations - i) with 0 by lia.
    repeat split. }
  induction fuel as [|fuel IH]; intros i st I F [ms [rl L]];
    [apply Stop; lia|].
  destruct (Nat.lt_ge_cases i max_iterations) as [Hi | Hi];
    [|now apply Stop].
  rewrite while_loop_step by assumption.
  unfold bind at 1. unfold loop_body. unfold bind at 1. unfold print, emit.
  cbn [messages trace]. unfold bind at 1. unfold next_response.
  destruct (Nat.eqb_spec (S i) 1) as [Z | _]; [lia|].
  unfold last_message_text. cbn [messages trace].
  rewrite L, rev_app_distr. cbn [rev app text]. rewrite <- L.
  match goal with
  | |- context [process_agent_response _ ?st1] =>
      destruct (process_without_commands s st1 Hg) as [tail [P [G [Q R]]]]
  end.
  cbn [messages trace] in P. rewrite P.
  assert (K : has_block "complete" (JStr s) = false) by (cbn; now rewrite Hc).
  rewrite K. unfold bind at 1.
  match goal with
  | |- context [check_exhausted _ ?st2] =>
      destruct (check_exhausted_spec (S i) st2) as [ev1 [E1 [P1 [_ [G1 Q1]]]]]
  end.
  cbn [messages trace] in E1. rewrite E1.
  match goal with
  | |- context [while_loop req fuel (S i) ?st3] =>
      destruct (IH (S i) st3 ltac:(lia) ltac:(lia)
                  ltac:(exists ms, rl; exact L))
        as [ev2 [E2 [P2 [Q2 G2]]]]
  end.
  cbn [messages trace] in E2. rewrite E2.
  exists ((Print (step_banner (S i)) :: Process (JStr s) :: tail)
          ++ ev1 ++ ev2).
  split.
  - rewrite <- !app_assoc. cbn [app].
    replace (Nat.max (S i) max_iterations) with (Nat.max i max_iterations)
      by lia.
    reflexivity.
  - rewrite P1 in G1, Q1. cbn in G1, Q1. apply map_eq_nil in G1.
    rewrite !processed_app, !posts_app, !gdb_calls_app, P1, P2, Q2, G2, G1.
    replace (max_iterations - i) with (S (max_iterations - S i)) by lia.
    change (processed (Print ?b :: Process ?x :: tail))
      with (x :: processed tail).
    change (posts (Print ?b :: Process ?x :: tail)) with (posts tail).
    change (gdb_calls (Print ?b :: Process ?x :: tail)) with (gdb_calls tail).
    rewrite R, Q, G. cbn [repeat app].
    assert (Z : posts ev1 = []).
    { destruct (posts ev1); [reflexivity|discriminate]. }
    rewrite Z. repeat split.
Qed.

(** A first answer that is a text with neither a [gdb-command] block nor a
    [complete] block ends the dialogue: the run sends this one request, then
    processes the same text in each of the [max_iterations] passes, runs no
    command, and leaves the loop by its condition with the history at four
    messages. *)
Theorem plain_response_exhausts (user_request body s : string)
        (result : json) (st : State) :
  let c := [Message "user" (JStr system_message);
            Message "model" (JStr ack_message);
            Message "user" (JStr user_request)] in
  http_post (trace st ++ [Print (step_banner 1)]) c
  = Response 200 body (inl result) ->
  response_text result = inl (JStr s) ->
  Py.search_block "gdb-command" s = None ->
  Py.search_block "complete" s = None ->
  let out := invoke_agent user_request st in
  let ev := new_events st (snd out) in
  fst out = Ok (Some (Exhausted, max_iterations))
  /\ posts ev = [(c, Response 200 body (inl result))]
  /\ processed ev = repeat (JStr s) max_iterations
  /\ gdb_calls ev = []
  /\ messages (snd out) = c ++ [Message "model" (JStr s)].
Proof.
  intros c H T Hg Hc. cbn zeta.
  assert (G : exists ev,
             invoke_agent user_request st
             = (Ok (Some (Exhausted, max_iterations)),
                mkState (c ++ [Message "model" (JStr s)]) (trace st ++ ev))
             /\ posts ev = [(c, Response 200 body (inl result))]
             /\ processed ev = repeat (JStr s) max_iterations
             /\ gdb_calls ev = []).
  { rewrite invoke_agent_first_pass. unfold bind at 1 2 3.
    rewrite (query_success user_request body result (JStr s)
               (mkState [Message "user" (JStr system_message);
                         Message "model" (JStr ack_message)]
                        (trace st ++ [Print (step_banner 1)])) H T).
    cbn [messages trace app].
    match goal with
    | |- context [process_agent_response _ ?st1] =>
        destruct (process_without_commands s st1 Hg) as [tail [P [G [Q R]]]]
    end.
    cbn [messages trace] in P. rewrite P.
    assert (K : has_block "complete" (JStr s) = false)
      by (cbn; now rewrite Hc).
    rewrite K. unfold bind at 1 2. unfold check_exhausted.
    change (Nat.leb max_iterations 1) with false. unfold ret at 1.
    match goal with
    | |- context [while_loop _ _ 1 ?st2] =>
        destruct (while_loop_stuck user_request s Hg Hc
                    (pred max_iterations) 1 st2
                    ltac:(lia) ltac:(unfold max_iterations; simpl; lia)
                    ltac:(exists [Message "user" (JStr system_message);
                                  Message "model" (JStr ack_message);
                                  Message "user" (JStr user_request)],
                            "model"%string; reflexivity))
          as [ev2 [E2 [P2 [Q2 G2]]]]
    end.
    cbn [messages trace] in E2. rewrite E2.
    unfold bind, print, emit, ret. cbn [messages trace].
    eexists (Print (step_banner 1) :: Post c _ :: Process (JStr s)
             :: tail ++ ev2 ++ [Print _]).
    split.
    - rewrite <- !app_assoc. cbn [app]. reflexivity.
    - change (Print ?a :: Post ?x ?y :: Process ?z :: tail ++ ev2 ++ [Print ?b])
        with ([Print a; Post x y; Process z] ++ tail ++ ev2 ++ [Print b]).
      rewrite !processed_app, !posts_app, !gdb_calls_app, P2, Q2, G2, R, Q, G.
      cbn. rewrite ?app_nil_r. repeat split. }
  destruct G as [ev [E [P [Q G]]]]. rewrite E. cbn [fst snd messages].
  rewrite new_events_app. auto.
Qed.

(** ** Collecting the context *)


Lemma runs_ret {A} (a : A) : runs [] (ret a).
Proof.
  intros tr. exists a, []. rewrite app_nil_r. repeat split.
Qed.

Lemma runs_bind {A B} (c1 c2 : list string) (m : M A) (k : A -> M B) :
  runs c1 m -> (forall a, runs c2 (k a)) -> runs (c1 ++ c2) (bind m k).
Proof.
  intros Hm Hk tr. destruct (Hm tr) as [a [ev [E [G [P Q]]]]].
  destruct (Hk a (tr ++ ev)) as [b [ev2 [E2 [G2 [P2 Q2]]]]].
  exists b, (ev ++ ev2).
  rewrite gdb_calls_app, posts_app, processed_app, map_app,
    G, G2, P, P2, Q, Q2.
  split; [|repeat split].
  intros ms. unfold bind. now rewrite E, E2, app_assoc.
Qed.


Lemma runs_gdb_call (command : string) : runs [command] (gdb_call command).
Proof.
  intros tr.
  exists (gdb_execute tr command), [GdbExecute command (gdb_execute tr command)].
  repeat split.
Qed.

Lemma runs_extract (command failure : string) :
  runs [command] (extract command failure).
Proof.
  unfold extract. apply (runs_bind [command] []); [apply runs_gdb_call|].
  intros r. apply runs_ret.
Qed.

Lemma runs_get_function_info : runs ["info functions"%string] get_function_info.
Proof.
  unfold get_function_info.
  apply (runs_bind ["info functions"%string] []); [apply runs_gdb_call|].
  intros r. apply runs_ret.
Qed.

Lemma runs_check_program_running : runs [] check_program_running.
Proof.
  intros tr. exists (gdb_selected_frame tr), []. rewrite app_nil_r.
  repeat split.
Qed.

Lemma runs_get_program_status : runs [] get_program_status.
Proof.
  unfold get_program_status.
  apply (runs_bind [] []); [apply runs_check_program_running|].
  intros r. apply runs_ret.
Qed.

Ltac runs_step :=
  first
    [ apply runs_ret
    | apply (runs_bind [] _); [apply runs_get_program_status|intros ?]
    | apply (runs_bind [_] _);
      [first [apply runs_extract | apply runs_get_function_info]|intros ?] ].

(** Collecting a context only reads: whatever the debugger answers, and
    whichever of its commands fail, each collector returns, leaves the
    history as it is, returns and logs the same whatever the history is,
    sends no request and passes its fixed commands to the debugger, all of
    them and in order; the safety filter of the agent accepts every one of
    these commands. *)
Theorem context_collection_only_reads :
  let full := ["backtrace"; "list"; "info locals"; "info threads";
               "info breakpoints"; "print $_exception"]%string in
  let limited := ["info files"; "info functions";
                  "maintenance info sections"]%string in
  let repair := ["backtrace"; "list"; "info locals"; "print $_exception";
              "info registers"; "disassemble"]%string in
  runs full agent_collect_debug_context
  /\ runs limited agent_collect_limited_context
  /\ runs full ask_collect_debug_context
  /\ runs limited ask_collect_limited_context
  /\ runs repair fix_collect_debug_context
  /\ forallb is_safe_command (full ++ limited ++ repair) = true.
Proof.
  cbn zeta.
  split; [unfold agent_collect_debug_context; repeat runs_step|].
  split; [unfold agent_collect_limited_context; repeat runs_step|].
  split; [unfold ask_collect_debug_context; repeat runs_step|].
  split; [unfold ask_collect_limited_context; repeat runs_step|].
  split; [unfold fix_collect_debug_context; repeat runs_step|].
  reflexivity.
Qed.

Lemma includes_section (title content p : string) :
  Py.includes p content -> Py.includes p (section_text (title, content)).
Proof.
  intros H. unfold section_text. cbn [fst snd].
  now repeat apply includes_app_l.
Qed.

Lemma reported_error (parts : list (string * string))
      (title prefix err : string) :
  In (title, (prefix ++ err)%string) parts -> prefix <> ""%string ->
  Py.includes err (format_context parts).
Proof.
  intros H N.
  eapply includes_trans; [|eapply format_context_includes; eauto].
  - apply includes_section, includes_app_l, includes_refl.
  - destruct prefix; [congruence|discriminate].
Qed.

Lemma reported_output (parts : list (string * string)) (title out : string) :
  In (title, out) parts -> out <> ""%string ->
  Py.includes out (format_context parts).
Proof.
  intros H N.
  eapply includes_trans; [|eapply format_context_includes; eauto].
  apply includes_section, includes_refl.
Qed.

(** What the debugger says reaches the full context of the agent: the
    message of every command that failed and every output that is not empty
    are in the text; and the text is never empty, since the status of the
    program is always there. *)
Theorem debugger_answers_reach_the_context (st : State) :
  exists context ev,
    agent_collect_debug_context st
    = (Ok context, mkState (messages st) (trace st ++ ev))
    /\ (forall cmd err,
           In (cmd, inr err) (gdb_calls ev) -> Py.includes err context)
    /\ (forall cmd out,
           In (cmd, inl out) (gdb_calls ev) -> out <> ""%string ->
           Py.includes out context)
    /\ (Py.includes "프로그램이 실행 중입니다." context
        \/ Py.includes "프로그램이 실행 중이 아닙니다." context).
Proof.
  unfold agent_collect_debug_context, get_program_status,
    check_program_running, get_backtrace, get_current_source, get_local_vars,
    get_threads, get_breakpoints, extract_error_info, extract, gdb_call,
    bind, ret.
  cbn [messages trace].
  set (r1 := gdb_execute _ "backtrace"). clearbody r1.
  set (r2 := gdb_execute _ "list"). clearbody r2.
  set (r3 := gdb_execute _ "info locals"). clearbody r3.
  set (r4 := gdb_execute _ "info threads"). clearbody r4.
  set (r5 := gdb_execute _ "info breakpoints"). clearbody r5.
  set (r6 := gdb_execute _ "print $_exception"). clearbody r6.
  rewrite <- !app_assoc. cbn [app].
  eexists _, _. split; [reflexivity|].
  unfold gdb_calls. cbn [flat_map app].
  split; [|split].
  - intros cmd err H.
    repeat (destruct H as [H | H];
            [injection H as _ H; rewrite H;
             eapply reported_error;
             [repeat (first [left; reflexivity | right]) | discriminate]|]).
    contradiction.
  - intros cmd out H N.
    repeat (destruct H as [H | H];
            [injection H as _ H; rewrite H;
             eapply reported_output;
             [repeat (first [left; reflexivity | right]) | exact N]|]).
    contradiction.
  - destruct (gdb_selected_frame (trace st)); [left|right];
      (eapply reported_output; [left; reflexivity|discriminate]).
Qed.

(** ** The one-request commands *)









(** ** The blocks of a response *)

Lemma find_fresh (c : ascii) (p a b : string) :
  Py.contains_char c a = false ->
  Py.find (String c p) (a ++ String c p ++ b)%string = Some (a, b).
Proof.
  induction a as [|d a IH]; intros H.
  - change ("" ++ String c p ++ b)%string with (String c p ++ b)%string.
    destruct (String c p ++ b)%string eqn:E; [discriminate|].
    cbn [Py.find]. rewrite <- E, strip_prefix_app. reflexivity.
  - simpl in H. apply orb_false_iff in H as [D H].
    change (String d a ++ String c p ++ b)%string
      with (String d (a ++ String c p ++ b))%string.
    cbn [Py.find Py.strip_prefix]. rewrite Ascii.eqb_sym, D.
    now rewrite (IH H).
Qed.

Lemma app_suffix (a b x y : string) :
  (a ++ x = b ++ y)%string -> String.length a <= String.length b ->
  exists z, x = (z ++ y)%string.
Proof.
  revert b. induction a as [|c a IH]; intros b E L.
  - now exists b.
  - destruct b as [|d b]; [simpl in L; lia|].
    simpl in E, L. injection E as _ E. apply (IH b E). lia.
Qed.

(** The search for a block is complete and reads back what was written: a
    block is found exactly when the text has the opening literal followed,
    anywhere after it, by a fence; and in a text written as a prefix, the
    opening literal, a body, a fence and anything, where neither the prefix
    nor the body has a backquote, the block found is that body. *)
Theorem block_search_complete (tag response : string) :
  let opening := (Py.fence ++ tag ++ Py.LF)%string in
  (Py.search_block tag response <> None
   <-> exists pre body post,
      response = (pre ++ opening ++ body ++ Py.fence ++ post)%string)
  /\ forall pre body post,
      Py.contains_char "`" pre = false ->
      Py.contains_char "`" body = false ->
      Py.search_block tag (pre ++ opening ++ body ++ Py.fence ++ post)%string
      = Some body.
Proof.
  cbn zeta. split; [split|].
  - destruct (Py.search_block tag response) as [body|] eqn:E; [|congruence].
    intros _. destruct (search_block_spec tag response body E)
      as [pre [post [R _]]].
    now exists pre, body, post.
  - intros [pre [body [post E]]]. unfold Py.search_block.
    destruct (Py.find (Py.fence ++ tag ++ Py.LF) response)
      as [[pre0 rest0]|] eqn:F.
    + pose proof (find_sound _ _ _ _ F) as S.
      pose proof (find_first _ _ _ _ _ _ F E) as L.
      rewrite E in S.
      assert (I : Py.includes Py.fence rest0).
      { destruct (app_suffix _ _ _ _ (eq_sym S) L) as [z Z].
        assert (Z' : ((Py.fence ++ tag ++ Py.LF) ++ rest0
                      = (z ++ Py.fence ++ tag ++ Py.LF)
                          ++ body ++ Py.fence ++ post)%string)
          by (rewrite Z, !append_assoc; reflexivity).
        destruct (app_suffix _ _ _ _ Z') as [z' ->].
        - rewrite !length_app_string. lia.
        - exists (z' ++ body)%string, post. now rewrite !append_assoc. }
      destruct (Py.find Py.fence rest0) as [[b p]|] eqn:G; [discriminate|].
      exfalso. now apply (includes_find Py.fence rest0).
    + exfalso. apply (includes_find (Py.fence ++ tag ++ Py.LF) response);
        [|exact F].
      exists pre, (body ++ Py.fence ++ post)%string.
      now rewrite E, !append_assoc.
  - intros pre body post Hp Hb. unfold Py.search_block.
    change (Py.fence ++ tag ++ Py.LF)%string
      with (String "`" ("``" ++ tag ++ Py.LF))%string.
    rewrite (find_fresh "`" _ pre _ Hp).
    change Py.fence with (String "`" "``").
    now rewrite (find_fresh "`" _ body _ Hb).
Qed.

(** ** GDBMCPManager: the API key *)

(** The key of the manager is the first of the argument, the variable
    ANTHROPIC_API_KEY and the variable GEMINI_API_KEY that is set and not
    empty, so that an empty argument or variable does not hide a later one;
    the client is initialized exactly when there is such a key, and the key
    it gets is then not empty. *)
Theorem api_key_is_first_nonempty (api_key : option string)
        (environ : string -> option string) :
  let sources := [api_key; environ "ANTHROPIC_API_KEY"%string;
                  environ "GEMINI_API_KEY"%string] in
  manager_initializes api_key environ = existsb truthy sources
  /\ (manager_initializes api_key environ = true ->
      List.find truthy sources = Some (manager_api_key api_key environ)
      /\ exists key, manager_api_key api_key environ = Some key
                     /\ key <> ""%string)
  /\ (manager_initializes api_key environ = false ->
      List.find truthy sources = None).
Proof.
  cbn zeta. unfold manager_initializes, manager_api_key, py_or.
  destruct api_key as [[|c1 k1]|];
    destruct (environ "ANTHROPIC_API_KEY"%string) as [[|c2 k2]|];
    destruct (environ "GEMINI_API_KEY"%string) as [[|c3 k3]|];
    cbn; (split; [reflexivity|]); split;
    try discriminate; try (intros _; reflexivity); intros _;
    (split; [reflexivity|eexists; split; [reflexivity|discriminate]]).
Qed.

(** ** AIAgentCommand.invoke, whole *)


(** ** What reaches the debugger in a whole run of mcp-agent *)

(** A run of mcp-agent with a task, up to the loop: three lines, the
    collector, and the loop on a fresh history. *)
Lemma agent_invoke_run (arg : string) (st : State) :
  arg <> ""%string ->
  exists context ev0,
    let intro := [Print (Py.LF ++ "=== AI 에이전트 시작 ===");
                  Print ("작업: " ++ arg); Print "초기 컨텍스트 수집 중..."] in
    agent_invoke arg st
    = (r <- invoke_agent (agent_user_request arg context) ;; ret (Ran r))
        (mkState (messages st) ((trace st ++ intro) ++ ev0))
    /\ (map fst (gdb_calls ev0)
        = ["backtrace"; "list"; "info locals"; "info threads";
           "info breakpoints"; "print $_exception"]%string
        \/ map fst (gdb_calls ev0)
           = ["info files"; "info functions";
              "maintenance info sections"]%string).
Proof.
  intros N. apply String.eqb_neq in N. cbn zeta.
  set (intro := [Print (Py.LF ++ "=== AI 에이전트 시작 ===");
                 Print ("작업: " ++ arg); Print "초기 컨텍스트 수집 중..."]).
  set (b := gdb_selected_frame (trace st ++ intro)).
  set (cmds := if b
               then ["backtrace"; "list"; "info locals"; "info threads";
                     "info breakpoints"; "print $_exception"]%string
               else ["info files"; "info functions";
                     "maintenance info sections"]%string).
  assert (R : runs cmds (if b then agent_collect_debug_context
                         else agent_collect_limited_context)).
  { unfold cmds. destruct b.
    - unfold agent_collect_debug_context. repeat runs_step.
    - unfold agent_collect_limited_context. repeat runs_step. }
  destruct (R (trace st ++ intro)) as [context [ev0 [E [G _]]]].
  exists context, ev0. split.
  - unfold agent_invoke. rewrite N.
    unfold bind at 1 2 3 4 5. unfold print, emit, check_program_running.
    cbn [messages trace]. rewrite <- !app_assoc. cbn [app].
    change (trace st ++ Print (Py.LF ++ "=== AI 에이전트 시작 ===")
            :: Print ("작업: " ++ arg) :: [Print "초기 컨텍스트 수집 중..."])
      with (trace st ++ intro).
    fold b. rewrite E. unfold bind. rewrite <- !app_assoc. reflexivity.
  - rewrite G. unfold cmds. destruct b; auto.
Qed.

(** Whatever the model answers, every command a run of mcp-agent passes to
    the debugger, while it collects the context and in its loop, is
    accepted by [is_safe_command]: its first word, lower-cased, is none of
    the twelve denied words; and it is not empty, has no whitespace at
    either end and is a single line. *)
Theorem executed_commands_are_safe (arg : string) (st : State) :
  let ev := new_events st (snd (agent_invoke arg st)) in
  let denied := ["quit"; "exit"; "detach"; "kill"; "set"; "shell"; "source";
                 "define"; "document"; "handle"; "signal"; "attach"]%string in
  Forall (fun cmd => is_safe_command cmd = true
                     /\ (forall t r,
                            cmd = (t ++ r)%string -> t <> ""%string ->
                            Py.no_space t = true -> Py.at_boundary r = true ->
                            ~ In (Py.lower t) denied)
                     /\ cmd <> ""%string /\ Py.strip cmd = cmd
                     /\ Py.contains_char "010" cmd = false)
         (map fst (gdb_calls ev)).
Proof.
  cbn zeta.
  assert (W : forall cmd,
             is_safe_command cmd = true ->
             forall t r,
               cmd = (t ++ r)%string -> t <> ""%string ->
               Py.no_space t = true -> Py.at_boundary r = true ->
               ~ In (Py.lower t)
                    ["quit"; "exit"; "detach"; "kill"; "set"; "shell";
                     "source"; "define"; "document"; "handle"; "signal";
                     "attach"]%string).
  { intros cmd S t r -> Nt Ht Hr I.
    pose proof (is_safe_command_first_word "" t r eq_refl Nt Ht Hr) as Q.
    change ("" ++ t ++ r)%string with (t ++ r)%string in Q.
    rewrite Q in S. apply negb_true_iff in S. apply mem_In in I.
    unfold unsafe_commands in S. congruence. }
  destruct (String.eqb_spec arg "") as [-> | N].
  - change (agent_invoke "" st)
      with (Ok Usage,
            mkState (messages st)
                    (trace st ++ [Print "사용법: mcp-agent 작업내용/질문"])).
    cbn [snd]. rewrite new_events_app. constructor.
  - destruct (agent_invoke_run arg st N) as [context [ev0 [E C]]].
    cbn zeta in E. rewrite E. unfold bind.
    match goal with
    | |- context [invoke_agent ?req ?st1] =>
        destruct (invoke_agent_spec req st1) as [res [ev [ms [I [_ [M _]]]]]]
    end.
    cbn [messages trace] in I. rewrite I.
    assert (F : Forall (fun cmd =>
                          is_safe_command cmd = true
                          /\ cmd <> ""%string /\ Py.strip cmd = cmd
                          /\ Py.contains_char "010" cmd = false)
                       (map fst (gdb_calls ev0) ++ map fst (gdb_calls ev))).
    { apply Forall_app. split.
      - destruct C as [-> | ->];
          repeat (constructor;
                  [split; [vm_compute; reflexivity|];
                   split; [discriminate|];
                   split; [vm_compute; reflexivity|reflexivity]|]);
          constructor.
      - rewrite M. apply Forall_forall. intros cmd H.
        apply in_flat_map in H as [r [_ H]]. unfold safe_commands_of in H.
        destruct r as [| | | |s| |]; try contradiction.
        destruct (Py.search_block "gdb-command" s) as [g|]; [|contradiction].
        apply filter_In in H as [H S].
        destruct (block_commands_trimmed g cmd H) as [Nc Tc].
        repeat split; auto. now apply (block_commands_single_line g). }
    assert (F' : forall l,
               Forall (fun cmd =>
                         is_safe_command cmd = true
                         /\ cmd <> ""%string /\ Py.strip cmd = cmd
                         /\ Py.contains_char "010" cmd = false) l ->
               Forall (fun cmd =>
                         is_safe_command cmd = true
                         /\ (forall t r,
                                cmd = (t ++ r)%string -> t <> ""%string ->
                                Py.no_space t = true ->
                                Py.at_boundary r = true ->
                                ~ In (Py.lower t)
                                     ["quit"; "exit"; "detach"; "kill"; "set";
                                      "shell"; "source"; "define"; "document";
                                      "handle"; "signal"; "attach"]%string)
                         /\ cmd <> ""%string /\ Py.strip cmd = cmd
                         /\ Py.contains_char "010" cmd = false) l).
    { intros l. apply Forall_impl. intros cmd [S Rest].
      split; [exact S|]. split; [exact (W cmd S)|exact Rest]. }
    destruct res as [x | e]; unfold ret; cbn [snd];
      rewrite <- !app_assoc, new_events_app, !gdb_calls_app, !map_app;
      apply F', F.
Qed.

(** ** When a command sends a request *)



End Agent.

Open Scope list_scope.

(** ** MCPClient.query: the error texts *)

(** C5.  Every call appends the prompt with the role "user" and posts the
    history once; when it returns, the returned text is appended with the
    role "model" and nothing else; when it raises, only the prompt was
    appended.  But the error raised need not carry the payload: an answer
    with status 200 and the body [{"candidates": null}] makes the lookup
    raise a [TypeError], which [query] does not catch; its text has neither
    the body nor the decoded value in it. *)
Theorem query_error_without_payload :
  (forall repr_json http_post message st,
      let request := messages st ++ [Message "user" (JStr message)] in
      exists res,
        query repr_json http_post message st
        = (res,
           mkState (match res with
                    | Ok v => request ++ [Message "model" v]
                    | Raise _ => request
                    end)
                   (trace st ++ [Post request (http_post (trace st) request)])))
  /\ (let e := TypeError "'NoneType' object is not subscriptable" in
      let request := [Message "user" (JStr Sample.question)] in
      query Sample.repr_none Sample.null_candidates Sample.question Sample.start
      = (Raise e,
         mkState request
                 [Post request
                       (Response 200 Sample.null_body (inl Sample.null_payload))])
      /\ ~ Py.includes Sample.null_body (str_exn e)
      /\ ~ Py.includes (Sample.repr_none Sample.null_payload) (str_exn e)).
Proof.
  split; [exact query_spec|]. cbn zeta. split; [reflexivity|].
  split; intros H; apply includes_find in H; now apply H.
Qed.

(** ** The properties at work on sample runs *)

(** A first response with a [gdb-command] block when the second request is
    refused: the command has run, and the run ends with the exception. *)
Example run_aborts_when_feedback_fails :
  let out := invoke_agent Sample.repr_none
               (Sample.answers_once Sample.commands_and_complete)
               Sample.gdb_echo Sample.question Sample.start in
  fst out = Raise (Exception "API 오류: 503 - unavailable")
  /\ map fst (gdb_calls (trace (snd out))) = ["info locals"]
  /\ processed (trace (snd out)) = [JStr Sample.commands_and_complete].
Proof. vm_compute. repeat split. Qed.

Lemma is_safe_command_spec_witness :
  is_safe_command "   " = false
  /\ is_safe_command "  QuIt now" = false
  /\ Py.lower "QuIt" = "quit"
  /\ is_safe_command (Py.encode_point 8490 ++ "ill 1") = false.
Proof.
  split; [|split; [|split]].
  - apply (proj1 (is_safe_command_spec "   ")). vm_compute. reflexivity.
  - apply (proj2 (proj1 (proj2 (proj2 (is_safe_command_spec "  QuIt now"))))).
    right. exists "  ", "QuIt", " now".
    split; [reflexivity|]. split; [vm_compute; reflexivity|].
    split; [discriminate|]. split; [vm_compute; reflexivity|].
    split; [vm_compute; reflexivity|]. vm_compute. tauto.
  - vm_compute. reflexivity.
  - exact (proj1 (proj2 (proj2 (proj2
             (proj2 (proj2 (proj2 (is_safe_command_spec ""))))))) ).
Defined.

Lemma block_commands_spec_witness :
  let g := ("  info locals  " ++ Py.LF ++ Py.LF ++ " bt" ++ Py.LF)%string in
  let s := Sample.fenced "gdb-command" g in
  let ev := new_events Sample.start
              (snd (process_agent_response Sample.repr_none
                      (Sample.answers "ok") Sample.gdb_echo (JStr s)
                      Sample.start)) in
  Py.search_block "gdb-command" s = Some g
  /\ map fst (gdb_calls ev) = ["info locals"; "bt"]%string
  /\ Forall (fun cmd => cmd <> ""%string /\ Py.strip cmd = cmd)
            ["info locals"; "bt"]%string.
Proof.
  cbn zeta.
  assert (H : Py.search_block "gdb-command"
                (Sample.fenced "gdb-command"
                   ("  info locals  " ++ Py.LF ++ Py.LF ++ " bt" ++ Py.LF))
              = Some ("  info locals  " ++ Py.LF ++ Py.LF ++ " bt"
                      ++ Py.LF)%string)
    by (vm_compute; reflexivity).
  split; [exact H|].
  destruct (proj1 (block_commands_spec Sample.repr_none (Sample.answers "ok")
                     Sample.gdb_echo) _ _ Sample.start H)
    as [_ [_ [G F]]].
  split; [rewrite G; vm_compute; reflexivity|exact F].
Defined.

(** C1, as stated, fails on a run whose first request is refused: no
    response is processed, and the run ends with the exception after one
    pass. *)
Lemma exhausts_without_complete_refused :
  ~ exhausts_without_complete Sample.repr_none Sample.unavailable
      Sample.gdb_echo Sample.question Sample.start.
Proof.
  unfold exhausts_without_complete. cbn zeta. intros [H _].
  assert (F : Forall lacks_complete
                (processed
                   (new_events Sample.start
                      (snd (invoke_agent Sample.repr_none Sample.unavailable
                              Sample.gdb_echo Sample.question Sample.start)))))
    by (vm_compute; constructor).
  destruct (H F) as [E _]. vm_compute in E. discriminate E.
Qed.

Lemma agent_run_outcomes_witness :
  let out := invoke_agent Sample.repr_none (Sample.answers Sample.plain_text)
               Sample.gdb_echo Sample.question Sample.start in
  let ev := new_events Sample.start (snd out) in
  (exists x, fst out = Ok x)
  /\ Forall lacks_complete (processed ev)
  /\ fst out = Ok (Some (Exhausted, 10))
  /\ length (processed ev) = 10
  /\ In (Print (Py.LF ++ "최대 반복 횟수에 도달했습니다. 작업이 완료되지 않았을 수 있습니다."))
        ev.
Proof.
  cbn zeta.
  assert (A : exists x,
             fst (invoke_agent Sample.repr_none
                    (Sample.answers Sample.plain_text)
                    Sample.gdb_echo Sample.question Sample.start) = Ok x)
    by (eexists; vm_compute; reflexivity).
  assert (F : Forall lacks_complete
                (processed
                   (new_events Sample.start
                      (snd (invoke_agent Sample.repr_none
                              (Sample.answers Sample.plain_text)
                              Sample.gdb_echo Sample.question Sample.start)))))
    by (vm_compute; repeat constructor).
  split; [exact A|]. split; [exact F|].
  exact (proj2 (proj2 (proj2 (agent_run_outcomes Sample.repr_none
                                (Sample.answers Sample.plain_text)
                                Sample.gdb_echo Sample.question Sample.start)))
               A F).
Defined.

(** C3, as stated, fails on a first response that has a [gdb-command]
    block besides the [complete] block: the run completes after one pass,
    but [info locals] was passed to the debugger. *)
Lemma completes_without_commands_runs_commands :
  ~ completes_without_commands Sample.repr_none
      (Sample.answers Sample.commands_and_complete)
      Sample.gdb_echo Sample.question Sample.start.
Proof.
  unfold completes_without_commands. cbn zeta. intros H.
  specialize (H (JStr Sample.commands_and_complete)).
  destruct H as [_ H]; [vm_compute; reflexivity | reflexivity |].
  vm_compute in H. discriminate H.
Qed.

Lemma first_response_complete_witness :
  let out := invoke_agent Sample.repr_none (Sample.answers Sample.only_complete)
               Sample.gdb_echo Sample.question Sample.start in
  let ev := new_events Sample.start (snd out) in
  hd_error (processed ev) = Some (JStr Sample.only_complete)
  /\ has_block "complete" (JStr Sample.only_complete) = true
  /\ processed ev = [JStr Sample.only_complete]
  /\ fst out = Ok (Some (Completed, 1))
  /\ gdb_calls ev = [].
Proof.
  cbn zeta.
  assert (A : hd_error
                (processed
                   (new_events Sample.start
                      (snd (invoke_agent Sample.repr_none
                              (Sample.answers Sample.only_complete)
                              Sample.gdb_echo Sample.question Sample.start))))
              = Some (JStr Sample.only_complete))
    by (vm_compute; reflexivity).
  assert (B : has_block "complete" (JStr Sample.only_complete) = true)
    by reflexivity.
  destruct (first_response_complete Sample.repr_none
              (Sample.answers Sample.only_complete)
              Sample.gdb_echo Sample.question Sample.start _ A B)
    as [P [N _]].
  destruct (N eq_refl) as [R [G _]].
  repeat split; assumption.
Defined.

Lemma commands_then_complete_witness :
  let s := Sample.commands_and_complete in
  let out := process_agent_response Sample.repr_none (Sample.answers s)
               Sample.gdb_echo (JStr s) Sample.start in
  let prompt :=
    ("명령어 실행 결과:" ++ Py.LF ++ Py.LF
     ++ "명령어: info locals" ++ Py.LF ++ "결과:" ++ Py.LF ++ "<info locals>"
     ++ Py.LF ++ Py.LF ++ "안전하지 않은 명령어입니다: quit")%string in
  Py.search_block "gdb-command" s
  = Some ("info locals" ++ Py.LF ++ "quit" ++ Py.LF)%string
  /\ Py.search_block "complete" s = Some "Done."%string
  /\ fst out = Ok true
  /\ exists tail,
      In (Print "Done.") tail
      /\ new_events Sample.start (snd out)
         = [Process (JStr s);
            Print (Py.LF ++ "[AI 에이전트가 명령어 실행 중...]");
            Print "실행: info locals";
            GdbExecute "info locals" (inl "<info locals>"%string);
            Print "<info locals>";
            Print "실행: quit"; Print "안전하지 않은 명령어입니다: quit";
            Post [Message "user" (JStr prompt)]
                 (Response 200 "{...}" (inl (Sample.reply s)))]
           ++ tail.
Proof.
  cbn zeta. split; [vm_compute; reflexivity|].
  split; [vm_compute; reflexivity|].
  destruct (proj1 (commands_then_complete Sample.repr_none
                     (Sample.answers Sample.commands_and_complete)
                     Sample.gdb_echo Sample.commands_and_complete
                     ("info locals" ++ Py.LF ++ "quit" ++ Py.LF)%string "Done."
                     eq_refl eq_refl) Sample.start)
    as [tail [E [_ [_ [_ [_ D]]]]]].
  match type of D with
  | match ?a with _ => _ end =>
      assert (A : a = Ok (JStr Sample.commands_and_complete))
        by (vm_compute; reflexivity);
      rewrite A in D
  end.
  destruct D as [F I]. split; [exact F|].
  exists tail. split; [exact I|]. rewrite E.
  match goal with
  | |- ?h ++ ?hd ++ Post ?rq ?an :: tail = ?lit ++ tail =>
      assert (K : h ++ hd ++ [Post rq an] = lit) by (vm_compute; reflexivity);
      rewrite <- K
  end.
  rewrite <- !app_assoc. reflexivity.
Defined.

Lemma command_block_feedback_witness :
  let s := Sample.fenced "gdb-command"
             ("info locals" ++ Py.LF ++ "quit" ++ Py.LF) in
  let out := process_agent_response Sample.repr_none (Sample.answers "ok")
               Sample.gdb_echo (JStr s) Sample.start in
  let ev := new_events Sample.start (snd out) in
  let prompt :=
    ("명령어 실행 결과:" ++ Py.LF ++ Py.LF
     ++ "명령어: info locals" ++ Py.LF ++ "결과:" ++ Py.LF ++ "<info locals>"
     ++ Py.LF ++ Py.LF ++ "안전하지 않은 명령어입니다: quit")%string in
  Py.search_block "gdb-command" s
  = Some ("info locals" ++ Py.LF ++ "quit" ++ Py.LF)%string
  /\ map fst (gdb_calls ev) = ["info locals"]%string
  /\ posts ev = [([Message "user" (JStr prompt)],
                  Response 200 "{...}" (inl (Sample.reply "ok")))]
  /\ processed ev = [JStr s]
  /\ fst out = Ok false.
Proof.
  cbn zeta. split; [vm_compute; reflexivity|].
  destruct (proj1 (command_block_feedback Sample.repr_none
                     (Sample.answers "ok") Sample.gdb_echo)
              (Sample.fenced "gdb-command"
                 ("info locals" ++ Py.LF ++ "quit" ++ Py.LF))
              ("info locals" ++ Py.LF ++ "quit" ++ Py.LF)%string
              Sample.start eq_refl)
    as [tail [_ [_ [G [P [Q F]]]]]].
  split; [rewrite G; vm_compute; reflexivity|].
  split; [rewrite P; vm_compute; reflexivity|].
  split; [exact Q|]. rewrite F. vm_compute. reflexivity.
Defined.

Lemma blank_block_feedback_witness :
  let s := Sample.blank_commands in
  let g := ("  " ++ Py.LF ++ " " ++ Py.LF)%string in
  let out := process_agent_response Sample.repr_none (Sample.answers "ok")
               Sample.gdb_echo (JStr s) Sample.start in
  let ev := new_events Sample.start (snd out) in
  Py.search_block "gdb-command" s = Some g
  /\ Py.all_space g = true
  /\ gdb_calls ev = []
  /\ map fst (posts ev)
     = [[Message "user" (JStr ("명령어 실행 결과:" ++ Py.LF ++ Py.LF))]].
Proof.
  cbn zeta. split; [reflexivity|]. split; [reflexivity|].
  destruct (blank_block_feedback Sample.repr_none (Sample.answers "ok")
              Sample.gdb_echo Sample.blank_commands
              ("  " ++ Py.LF ++ " " ++ Py.LF)%string Sample.start
              eq_refl eq_refl)
    as [_ [G [P _]]].
  split; [exact G|exact P].
Defined.

Lemma later_passes_reuse_history_witness :
  exists st,
    at_loop_head Sample.repr_none (Sample.answers Sample.plain_text)
      Sample.gdb_echo Sample.question Sample.start 1 st
    /\ 1 <= 1
    /\ next_response Sample.repr_none (Sample.answers Sample.plain_text)
         Sample.question 2
         (mkState (messages st) (trace st ++ [Print (step_banner 2)]))
       = (Ok (JStr Sample.plain_text),
          mkState (messages st) (trace st ++ [Print (step_banner 2)])).
Proof.
  assert (H : exists st,
             at_loop_head Sample.repr_none (Sample.answers Sample.plain_text)
               Sample.gdb_echo Sample.question Sample.start 1 st
             /\ exists ms, messages st
                           = ms ++ [Message "model" (JStr Sample.plain_text)]).
  { eexists. split.
    - eapply head_next;
        [apply head_first | unfold max_iterations; lia
         | reflexivity | reflexivity].
    - eexists. reflexivity. }
  destruct H as [st [H [ms0 E0]]]. exists st. split; [exact H|].
  split; [lia|].
  destruct (proj1 (later_passes_reuse_history Sample.repr_none
                     (Sample.answers Sample.plain_text) Sample.gdb_echo)
              Sample.question Sample.start 1 st H (le_n 1))
    as [ms [m [E [N _]]]].
  rewrite E in E0. apply app_inj_tail in E0 as [_ ->]. exact N.
Defined.

(** An answer without blocks: one request, ten passes over the same text. *)
Lemma plain_response_exhausts_witness :
  let out := invoke_agent Sample.repr_none (Sample.answers Sample.plain_text)
               Sample.gdb_echo Sample.question Sample.start in
  let ev := new_events Sample.start (snd out) in
  fst out = Ok (Some (Exhausted, max_iterations))
  /\ length (posts ev) = 1
  /\ processed ev = repeat (JStr Sample.plain_text) max_iterations
  /\ gdb_calls ev = [].
Proof.
  cbn zeta.
  destruct (plain_response_exhausts Sample.repr_none
              (Sample.answers Sample.plain_text) Sample.gdb_echo
              Sample.question "{...}" Sample.plain_text
              (Sample.reply Sample.plain_text) Sample.start
              eq_refl eq_refl eq_refl eq_refl)
    as [F [P [Q [G _]]]].
  rewrite P. repeat split; assumption.
Defined.

